(** * A shallow embedding of the haste-map builder

    The development follows the TypeScript sources:
    - [src/constants.ts]   : the table [H];
    - [src/types.ts]       : the data model;
    - [src/index.ts]       : class [HasteMap] ([build], [_buildHasteMap],
                             [setModule], [workerEror], [_recoverDuplicates],
                             the constructor, [getCacheFilePath],
                             [workerReply], [read], [_buildFileMap],
                             [_crawl]);
    - [src/crawlers/watchman.ts] : [watchmanCrawl];
    - [src/lib/normalizePathSep.ts] : [normalizePathSep];
    - [src/worker.ts], [src/blacklists.ts], [src/utils.ts] : the file worker.

    JavaScript [Map]s and null-prototype objects keyed by strings are finite
    maps ([gmap string _]); where the source iterates a [Map] and the order of
    iteration is observable, the entries are kept as a list in that order.
    Mutation of shared objects is written as explicit state passing. *)

From Stdlib Require Import ZArith String Ascii Bool Lia.
From Stdlib Require PrimFloat.
From stdpp Require Import base option gmap strings list fin_maps.

#[local] Open Scope string_scope.

(** ** JavaScript values that cross the modelled functions *)

(** A thrown value.  [ErrObject] is an object with the properties the code
    inspects ([message], [stack], [code]; [None] is [undefined]) and the text
    [String(error)] gives for it; [ErrPrimitive] is a thrown string, number,
    boolean or bigint, given by its text; [ErrNull], [ErrUndefined] and
    [ErrSymbol] are the values [null], [undefined] and a symbol with the
    given description.  Objects that run code when a property is read or
    when they are converted to a string are outside the model. *)
Inductive JsError : Type :=
| ErrObject (message stack code : option string) (toString : string)
| ErrPrimitive (text : string)
| ErrNull
| ErrUndefined
| ErrSymbol (description : string).

(** [String(error)] *)
Definition js_String (error : JsError) : string :=
  match error with
  | ErrObject _ _ _ s => s
  | ErrPrimitive t => t
  | ErrNull => "null"
  | ErrUndefined => "undefined"
  | ErrSymbol d => "Symbol(" ++ d ++ ")"
  end.

(** [error.message] inside a template literal, where [error] is neither
    [null] nor [undefined] (see [read_property]). *)
Definition message_text (error : JsError) : string :=
  match error with
  | ErrObject (Some m) _ _ _ => m
  | _ => "undefined"
  end.

(** [new Error(message)] with the given [stack]. *)
Definition new_Error (message stack : string) : JsError :=
  ErrObject (Some message) (Some stack) None
    (if String.eqb message "" then "Error" else "Error: " ++ message).

(** The [stack] of an error created by [new Error(message)]: its first
    line; the frames below it are never read. *)
Definition captured_stack (message : string) : string :=
  (if String.eqb message "" then "Error" else "Error: " ++ message)
  ++ String (ascii_of_nat 10) "    at <anonymous>".

(** The [TypeError] the engine throws, with its message. *)
Definition type_error (message : string) : JsError :=
  ErrObject (Some message)
    (Some ("TypeError: " ++ message ++ String (ascii_of_nat 10) "    at <anonymous>"))
    None ("TypeError: " ++ message).

(** An [Error] object as the platform creates it and as fb-watchman hands it
    to callbacks and listeners: the [name] and the [message] are strings. *)
Record ErrorInstance : Type := {
  ei_name : string;
  ei_message : string;
  ei_stack : option string;
  ei_code : option string
}.

(** [Error.prototype.toString] *)
Definition Error_toString (name message : string) : string :=
  if String.eqb name "" then message
  else if String.eqb message "" then name
  else name ++ ": " ++ message.

(** An [Error] object as a thrown value; its text is computed from the
    name and the message it has when it is thrown. *)
Definition thrown (error : ErrorInstance) : JsError :=
  ErrObject (Some (ei_message error)) (ei_stack error) (ei_code error)
    (Error_toString (ei_name error) (ei_message error)).

(** Outcome of a call that may throw. *)
Inductive result (A : Type) : Type :=
| Ok (a : A)
| Throw (e : JsError).

Arguments Ok {A} a.
Arguments Throw {A} e.

#[global] Instance result_ret : MRet result := fun A a => Ok a.

#[global] Instance result_bind : MBind result := fun A B k r =>
  match r with
  | Ok a => k a
  | Throw e => Throw e
  end.

(** The conversion of a thrown value to a string inside a template literal
    and in [new Error(value)]: a symbol is refused. *)
Definition ToString (error : JsError) : result string :=
  match error with
  | ErrSymbol _ => Throw (type_error "Cannot convert a Symbol value to a string")
  | _ => Ok (js_String error)
  end.

(** Reading the property [property] of a thrown value: [null] and
    [undefined] have no properties, and the read throws. *)
Definition read_property (error : JsError) (property : string) : result unit :=
  match error with
  | ErrNull =>
      Throw (type_error ("Cannot read properties of null (reading '" ++ property ++ "')"))
  | ErrUndefined =>
      Throw (type_error
               ("Cannot read properties of undefined (reading '" ++ property ++ "')"))
  | _ => Ok tt
  end.

(** The value of a call: a function body without [return] yields
    [undefined]. *)
Inductive JsReturn (A : Type) : Type :=
| Undefined
| Value (a : A).

Arguments Undefined {A}.
Arguments Value {A} a.

(** Truthiness of a string and of an optional string. *)
Definition truthy (s : string) : bool := negb (String.eqb s "").

Definition truthy_opt (o : option string) : bool :=
  match o with
  | Some s => truthy s
  | None => false
  end.

(** [s.endsWith(suffix)] *)
Definition endsWith (s suffix : string) : bool :=
  let n := String.length s in
  let m := String.length suffix in
  (m <=? n)%nat && String.eqb (substring (n - m) m s) suffix.

(** [xs.includes(x)] for an array of strings and a possibly undefined [x]. *)
Definition includes (xs : list string) (x : option string) : bool :=
  match x with
  | Some s => existsb (String.eqb s) xs
  | None => false
  end.

(** A [Map] whose iteration order is observed: entries in insertion
    order; [set] on a present key keeps its place. *)
Fixpoint alist_get {V : Type} (k : string) (l : list (string * V)) : option V :=
  match l with
  | [] => None
  | (k', v) :: rest => if String.eqb k k' then Some v else alist_get k rest
  end.

Fixpoint alist_set {V : Type} (k : string) (v : V) (l : list (string * V))
  : list (string * V) :=
  match l with
  | [] => [(k, v)]
  | (k', v') :: rest =>
      if String.eqb k k' then (k, v) :: rest else (k', v') :: alist_set k v rest
  end.

(** The functions of node's [path] module that the code calls. *)
Record PathModule : Type := {
  sep : string;
  relative : string -> string -> string;
  resolve : string -> string -> string;
  isAbsolute : string -> bool
}.

(** ** constants.ts *)
Module H.

Definition DEPENDENCY_DELIM : string := String (ascii_of_nat 0) "".

Definition MODULE : Z := 0.
Definition PACKAGE : Z := 1.

Definition GENERIC_PLATFORM : string := "g".
Definition NATIVE_PLATFORM : string := "native".

End H.

(** ** types.ts *)

(** [FileMetaData]: the six-slot tuple, indexed by [H.ID] .. [H.SHA1].
    [visited] is [0 | 1]; [sha1] is [string | null | undefined], the two
    absent forms being one [None]. *)
Record FileMetaData : Type := {
  fm_id : string;
  fm_mtime : Z;
  fm_size : Z;
  fm_visited : bool;
  fm_dependencies : string;
  fm_sha1 : option string
}.

(** [ModuleMetaData = [path, type]], indexed by [H.PATH], [H.TYPE]. *)
Abbreviation ModuleMetaData := (string * Z)%type.
Abbreviation ModuleMapItem := (gmap string (string * Z)).
Abbreviation ModuleMapData := (gmap string (gmap string (string * Z))).
Abbreviation MockData := (gmap string string).
Abbreviation DuplicatesSet := (gmap string Z).
Abbreviation DuplicatesIndex := (gmap string (gmap string (gmap string Z))).
Abbreviation FileData := (gmap string FileMetaData).

(** [WatchmanClockSpec = string | { scm: { "mergebase-with": string } }] *)
Inductive WatchmanClockSpec : Type :=
| ClockLocal (clock : string)
| ClockScm (mergebase_with : string).

Abbreviation WatchmanClocks := (gmap string WatchmanClockSpec).

Record InternalHasteMap : Type := {
  hm_clocks : WatchmanClocks;
  hm_duplicates : DuplicatesIndex;
  hm_files : FileData;
  hm_map : ModuleMapData;
  hm_mocks : MockData
}.

Definition set_duplicates (d : DuplicatesIndex) (h : InternalHasteMap) : InternalHasteMap :=
  {| hm_clocks := hm_clocks h; hm_duplicates := d; hm_files := hm_files h;
     hm_map := hm_map h; hm_mocks := hm_mocks h |}.

Definition set_files (f : FileData) (h : InternalHasteMap) : InternalHasteMap :=
  {| hm_clocks := hm_clocks h; hm_duplicates := hm_duplicates h; hm_files := f;
     hm_map := hm_map h; hm_mocks := hm_mocks h |}.

Definition set_map (m : ModuleMapData) (h : InternalHasteMap) : InternalHasteMap :=
  {| hm_clocks := hm_clocks h; hm_duplicates := hm_duplicates h; hm_files := hm_files h;
     hm_map := m; hm_mocks := hm_mocks h |}.

Definition set_clocks (c : WatchmanClocks) (h : InternalHasteMap) : InternalHasteMap :=
  {| hm_clocks := c; hm_duplicates := hm_duplicates h; hm_files := hm_files h;
     hm_map := hm_map h; hm_mocks := hm_mocks h |}.

(** ** index.ts: the reconciler and the builder *)
Module HasteMap.

Definition PACKAGE_JSON (path : PathModule) : string := sep path ++ "package.json".

Definition NODE_MODULES (path : PathModule) : string :=
  sep path ++ "node_modules" ++ sep path.

(** [_createEmptyMap] *)
Definition _createEmptyMap : InternalHasteMap :=
  {| hm_clocks := ∅; hm_duplicates := ∅; hm_files := ∅; hm_map := ∅; hm_mocks := ∅ |}.

(** The text written by [console.warn] on a collision. *)
Definition collision_warning (path : PathModule) (id existingPath newPath : string) : string :=
  let nl := String (ascii_of_nat 10) "" in
  "jest-haste-map: Haste module naming collision: " ++ id ++ nl ++
  " The following files share their name: please adjust your hasteImpl:" ++ nl ++
  "   *<rootDir>" ++ sep path ++ existingPath ++ nl ++
  "   *<rootDIr>" ++ sep path ++ newPath ++ nl.

(** What [setModule] leaves behind: the [map] it was closed over, the
    duplicates index of [hasteMap] and the console output. *)
Record SetModuleState : Type := {
  sm_map : ModuleMapData;
  sm_duplicates : DuplicatesIndex;
  sm_warnings : list string
}.

(** [setModule(id, module)], the closure of [_processFile], with the [map]
    and [hasteMap.duplicates] it captures passed explicitly.  [moduleMap] is
    the object stored under [map.get(id)], so deleting a key of it is seen
    through [map].  After the collision branch has looked up (or created)
    [dupsByPlatform] the body ends: the local is never stored. *)
Definition setModule (path : PathModule) (map : ModuleMapData)
    (duplicates : DuplicatesIndex) (id : string) (module : ModuleMetaData)
  : SetModuleState :=
  let '(moduleMap, map1) :=
    match map !! id with
    | Some moduleMap => (moduleMap, map)
    | None => (∅, <[id := ∅]> map)
    end in
  let platform := H.GENERIC_PLATFORM in
  match moduleMap !! platform with
  | Some existingModule =>
      if negb (String.eqb (fst existingModule) (fst module)) then
        let moduleMap' := delete platform moduleMap in
        let map2 := <[id := moduleMap']> map1 in
        let map3 := if (size moduleMap' =? 1)%nat then delete id map2 else map2 in
        let dupsByPlatform : gmap string DuplicatesSet :=
          match duplicates !! id with
          | Some d => d
          | None => ∅
          end in
        {| sm_map := map3; sm_duplicates := duplicates;
           sm_warnings := [collision_warning path id (fst existingModule) (fst module)] |}
      else
        {| sm_map := map1; sm_duplicates := duplicates; sm_warnings := [] |}
  | None =>
      {| sm_map := map1; sm_duplicates := duplicates; sm_warnings := [] |}
  end.

(** [typeof error === "object"] *)
Definition typeof_object (error : JsError) : bool :=
  match error with
  | ErrObject _ _ _ _ | ErrNull => true
  | _ => false
  end.

(** [error] is an object with a truthy [message] and a truthy [stack]. *)
Definition is_error_like (error : JsError) : bool :=
  match error with
  | ErrObject message stack _ _ => truthy_opt message && truthy_opt stack
  | _ => false
  end.

(** [error.code], where [error] is neither [null] nor [undefined] (see
    [read_property]). *)
Definition error_code (error : JsError) : option string :=
  match error with
  | ErrObject _ _ code _ => code
  | _ => None
  end.

(** [new Error(value)] with its [stack] set to [stack]: the message is the
    conversion of [value] to a string, and is empty for [undefined]. *)
Definition new_Error_of (value : JsError) (stack : string) : result JsError :=
  match value with
  | ErrUndefined => Ok (new_Error "" stack)
  | _ => message ← ToString value; Ok (new_Error message stack)
  end.

(** [workerEror(error)], the closure of [_processFile], with the captured
    [hasteMap] and [relativeFilePath] passed explicitly.  The test
    [typeof error !== "object" || !error.message || !error.stack] reads
    [message] off every value whose type is ["object"], [null] included. *)
Definition workerEror (hasteMap : InternalHasteMap) (relativeFilePath : string)
    (error : JsError) : result InternalHasteMap :=
  incomplete ←
    (if negb (typeof_object error) then Ok true
     else _ ← read_property error "message"; Ok (negb (is_error_like error)));
  error ← (if incomplete : bool then new_Error_of error "" else Ok error);
  if negb (includes ["ENONET"; "EACCES"] (error_code error)) then
    Throw error
  else
    Ok (set_files (delete relativeFilePath (hm_files hasteMap)) hasteMap).

(** [_recoverDuplicates(hasteMap, relativeFilePath, moduleName)].
    [dups.entries().next().value] is the first entry of [dups]; it is read
    only when [dups.size === 1], where the first entry is the only one. *)
Definition _recoverDuplicates (hasteMap : InternalHasteMap)
    (relativeFilePath moduleName : string) : InternalHasteMap :=
  match hm_duplicates hasteMap !! moduleName with
  | None => hasteMap
  | Some dupsByPlatform =>
      let platform := H.GENERIC_PLATFORM in
      match dupsByPlatform !! platform with
      | None => hasteMap
      | Some dups =>
          let dups1 := delete relativeFilePath dups in
          let dupsByPlatform1 := <[platform := dups1]> dupsByPlatform in
          let hasteMap1 :=
            set_duplicates (<[moduleName := dupsByPlatform1]> (hm_duplicates hasteMap)) hasteMap in
          if negb (size dups1 =? 1)%nat then hasteMap1
          else
            match map_to_list dups1 with
            | [] => hasteMap1
            | uniqueModule :: _ =>
                let dedupMap : ModuleMapItem :=
                  match hm_map hasteMap1 !! moduleName with
                  | Some dedupMap => dedupMap
                  | None => ∅
                  end in
                let hasteMap2 :=
                  set_map (<[moduleName := <[platform := uniqueModule]> dedupMap]> (hm_map hasteMap1))
                          hasteMap1 in
                let dupsByPlatform2 := delete platform dupsByPlatform1 in
                let duplicates2 := <[moduleName := dupsByPlatform2]> (hm_duplicates hasteMap2) in
                if (size dupsByPlatform2 =? 0)%nat then
                  set_duplicates (delete moduleName duplicates2) hasteMap2
                else
                  set_duplicates duplicates2 hasteMap2
            end
      end
  end.

(** The locals of [_buildHasteMap] when its body ends (the body returns
    nothing).  [removedFiles] is iterated, so it is given by its entries in
    iteration order; [removedFiles.size] is the length of that list. *)
Record BuildHasteMapState : Type := {
  bh_map : ModuleMapData;
  bh_mocks : MockData;
  bh_filesToProcess : FileData;
  bh_hasteMap : InternalHasteMap
}.

Definition _buildHasteMap (removedFiles : list (string * FileMetaData))
    (changedFiles : option FileData) (hasteMap : InternalHasteMap)
  : BuildHasteMapState :=
  let '(map, mocks, filesToProcess) :=
    match changedFiles with
    | None => (∅, ∅, hm_files hasteMap)
    | Some changed =>
        if (0 <? length removedFiles)%nat then (∅, ∅, hm_files hasteMap)
        else (hm_map hasteMap, hm_mocks hasteMap, changed)
    end in
  let hasteMap' :=
    foldl (fun h entry => _recoverDuplicates h (fst entry) (fm_id (snd entry)))
          hasteMap removedFiles in
  {| bh_map := map; bh_mocks := mocks; bh_filesToProcess := filesToProcess;
     bh_hasteMap := hasteMap' |}.

(** The paths the last loop of [_buildHasteMap] resolves and discards:
    every key of [filesToProcess] that does not end with [PACKAGE_JSON]
    (listed here in the order of [map_to_list], not in insertion order). *)
Definition resolved_paths (path : PathModule) (rootDir : string)
    (filesToProcess : FileData) : list string :=
  List.map (fun k => resolve path rootDir k)
    (List.filter (fun k => negb (endsWith k (PACKAGE_JSON path)))
       (List.map fst (map_to_list filesToProcess))).

(** The instance state [build] touches.  [_buildPromise] is [null] or the
    async arrow function that [build] stores (the function itself: the
    source never calls it). *)
Inductive BuildClosure : Type := AsyncBuild.

Record Instance : Type := {
  _cachePath : string;
  _buildPromise : option BuildClosure
}.

(** [build()]: the body has no [return]. *)
Definition build (this : Instance) : JsReturn InternalHasteMap * Instance :=
  match _buildPromise this with
  | None =>
      (Undefined, {| _cachePath := _cachePath this; _buildPromise := Some AsyncBuild |})
  | Some _ => (Undefined, this)
  end.

(** [removeDuplicates(unstableLists)], that is [[...new Set(unstableLists)]]
    on an array of strings: a [Set] keeps each value once, at the place of
    its first insertion.  [seen] holds the values inserted so far. *)
Fixpoint removeDuplicates_from (seen unstableLists : list string) : list string :=
  match unstableLists with
  | [] => []
  | x :: rest =>
      if existsb (String.eqb x) seen then removeDuplicates_from seen rest
      else x :: removeDuplicates_from (x :: seen) rest
  end.

Definition removeDuplicates (unstableLists : list string) : list string :=
  removeDuplicates_from [] unstableLists.

(** The options handed to [HasteMap.create] and the internal ones the
    constructor derives ([console] and [ignorePattern] are not read by the
    modelled functions). *)
Record Options : Type := {
  o_computeSha1 : option bool;
  o_extensions : list string;
  o_maxWorkers : Z;
  o_platforms : list string;
  o_rootDir : string;
  o_roots : list string;
  o_name : option string;
  o_cacheDirectory : option string;
  o_id : string;
  o_resetCache : option bool
}.

Record InternalOptions : Type := {
  io_computeSha1 : bool;
  io_extensions : list string;
  io_maxWorkers : Z;
  io_platforms : list string;
  io_rootDir : string;
  io_roots : list string;
  io_name : option string;
  io_cacheDirectory : string;
  io_id : string;
  io_resetCache : option bool;
  io_useWatchman : bool
}.

(** What the class takes from node beside [path]: [os.tmpdir()],
    [path.join] on two segments, and the hexadecimal SHA-1 digest
    [createHash("sha1").update(s).digest("hex")]. *)
Record NodeEnv : Type := {
  tmpdir : string;
  path_join : string -> string -> string;
  sha1_hex : string -> string
}.

(** The constructor. *)
Definition construct (node : NodeEnv) (options : Options) : InternalOptions :=
  {| io_computeSha1 := default false (o_computeSha1 options);
     io_extensions := o_extensions options;
     io_maxWorkers := o_maxWorkers options;
     io_platforms := o_platforms options;
     io_rootDir := o_rootDir options;
     io_roots := removeDuplicates (o_roots options);
     io_name := o_name options;
     io_cacheDirectory :=
       match o_cacheDirectory options with
       | Some d => if truthy d then d else tmpdir node
       | None => tmpdir node
       end;
     io_id := o_id options;
     io_resetCache := o_resetCache options;
     io_useWatchman := true |}.

(** [\w]: an ASCII letter, a digit or the underscore. *)
Definition is_word_char (c : ascii) : bool :=
  let n := nat_of_ascii c in
  ((48 <=? n)%nat && (n <=? 57)%nat)
  || ((65 <=? n)%nat && (n <=? 90)%nat)
  || ((97 <=? n)%nat && (n <=? 122)%nat)
  || (n =? 95)%nat.

(** [id.replaceAll(/\W/g, "-")] *)
Fixpoint replaceAll_nonword (id : string) : string :=
  match id with
  | EmptyString => EmptyString
  | String c rest =>
      String (if is_word_char c then c else "-"%char) (replaceAll_nonword rest)
  end.

(** [HasteMap.getCacheFilePath(tmpdir, id, ...extra)] *)
Definition getCacheFilePath (node : NodeEnv) (tmpdir id : string)
    (extra : list string) : string :=
  let hash := sha1_hex node (String.concat "" extra) in
  let replacedNonWordCharacter := replaceAll_nonword id in
  path_join node tmpdir (replacedNonWordCharacter ++ "-" ++ substring 0 32 hash).

(** [setupCachePath(options)]: the value stored in [_cachePath]. *)
Definition setupCachePath (path : PathModule) (node : NodeEnv)
    (this : InternalOptions) (options : Options) : string :=
  let rootDirHash := substring 0 32 (sha1_hex node (o_rootDir options)) in
  let extra :=
    [io_id this;
     String.concat ":"
       (List.map (fun root => relative path (o_rootDir options) root) (io_roots this))] in
  getCacheFilePath node (io_cacheDirectory this)
    ("haste-map-" ++ io_id this ++ "-" ++ rootDirHash) extra.

(** What a worker hands back. *)
Record WorkerMetadata : Type := {
  wm_dependencies : option (list string);
  wm_id : option string;
  wm_module : option ModuleMetaData;
  wm_sha1 : option string
}.

(** What [workerReply] leaves behind: the [fileMetadata] tuple it mutates
    and the state [setModule] works on. *)
Record WorkerReplyState : Type := {
  wr_fileMetadata : FileMetaData;
  wr_modules : SetModuleState
}.

(** [workerReply(metadata)], the closure of [_processFile], with the
    captured [fileMetadata], [map] and [hasteMap.duplicates] passed
    explicitly. *)
Definition workerReply (path : PathModule) (map : ModuleMapData)
    (duplicates : DuplicatesIndex) (fileMetadata : FileMetaData)
    (metadata : WorkerMetadata) : WorkerReplyState :=
  let untouched := {| sm_map := map; sm_duplicates := duplicates; sm_warnings := [] |} in
  let '(id, modules) :=
    match wm_id metadata, wm_module metadata with
    | Some metadataId, Some metadataModule =>
        if truthy metadataId
        then (metadataId, setModule path map duplicates metadataId metadataModule)
        else (fm_id fileMetadata, untouched)
    | _, _ => (fm_id fileMetadata, untouched)
    end in
  {| wr_fileMetadata :=
       {| fm_id := id;
          fm_mtime := fm_mtime fileMetadata;
          fm_size := fm_size fileMetadata;
          fm_visited := true;
          fm_dependencies :=
            match wm_dependencies metadata with
            | Some dependencies => String.concat H.DEPENDENCY_DELIM dependencies
            | None => ""
            end;
          fm_sha1 := wm_sha1 metadata |};
     wr_modules := modules |}.

End HasteMap.

(** ** lib/normalizePathSep.ts *)

(** [s.replaceAll("/", by)] *)
Fixpoint replaceAll_slash (by_sep : string) (s : string) : string :=
  match s with
  | EmptyString => EmptyString
  | String c rest =>
      if Ascii.eqb c "/" then by_sep ++ replaceAll_slash by_sep rest
      else String c (replaceAll_slash by_sep rest)
  end.

Definition normalizePathSep (path : PathModule) (filePath : string) : string :=
  if String.eqb (sep path) "/" then filePath
  else replaceAll_slash (sep path) filePath.

(** ** crawlers/watchman.ts *)
Module Watchman.

Record WatchmanWatchProjectResponse : Type := {
  wp_watch : string;
  wp_relative_path : string
}.

(** [clock: string | { scm: {...}; clock: string }] of a query response. *)
Inductive ResponseClock : Type :=
| ClockString (clock : string)
| ClockObject (mergebase_with mergebase clock : string).

(** [mtime_ms: number | { toNumber: () => number }], in whole
    milliseconds. *)
Inductive MtimeMs : Type :=
| MtimeNumber (n : Z)
| MtimeLong (toNumber : Z).

Record WatchmanFile : Type := {
  wf_name : string;
  wf_exists : bool;
  wf_mtime_ms : MtimeMs;
  wf_size : Z;
  wf_sha1hex : option string
}.

Record WatchmanQueryResponse : Type := {
  qr_warning : option string;
  qr_is_fresh_instance : bool;
  qr_version : string;
  qr_clock : ResponseClock;
  qr_files : list WatchmanFile
}.

(** The expression terms the crawler builds. *)
#[warnings="-register-all"]
Inductive WatchExpr : Type :=
| ExprAllof (terms : list WatchExpr)
| ExprAnyof (terms : list WatchExpr)
| ExprType (t : string)
| ExprSuffix (extension : string)
| ExprSuffixSet (extensions : list string)
| ExprDirname (dir : string).

(** The two shapes of the query object. *)
Inductive WatchmanQuery : Type :=
| QueryGlob (expression : WatchExpr) (fields glob : list string)
            (glob_includedotfiles : bool)
| QuerySince (expression : WatchExpr) (fields : list string)
             (since : WatchmanClockSpec).

(** What fb-watchman hands to the callback of a command: the response, or
    an [Error]. *)
Inductive Answer (A : Type) : Type :=
| Answered (response : A)
| Failed (error : ErrorInstance).

Arguments Answered {A} response.
Arguments Failed {A} error.

(** The watchman client as the crawler talks to it: the answer to each
    command and the [Error], if any, that the client emits as an ["error"]
    event meanwhile. *)
Record WatchmanClient : Type := {
  capabilityCheck : Answer (gmap string bool);
  list_capabilities : Answer (list string);
  watch_project : string -> Answer WatchmanWatchProjectResponse;
  query : string -> WatchmanQuery -> Answer WatchmanQueryResponse;
  error_event : option ErrorInstance
}.

Record CrawlerOptions : Type := {
  co_computeSha1 : bool;
  co_data : InternalHasteMap;
  co_extensions : list string;
  co_rootDir : string;
  co_roots : list string
}.

Record CrawlResult : Type := {
  cr_changedFiles : option FileData;
  cr_hasteMap : InternalHasteMap;
  cr_removedFiles : FileData
}.

(** [s.trim()] over the ASCII white space. *)
Definition is_space (c : ascii) : bool :=
  let n := nat_of_ascii c in
  (n =? 32)%nat || ((9 <=? n)%nat && (n <=? 13)%nat).

Fixpoint trimStart (s : string) : string :=
  match s with
  | EmptyString => EmptyString
  | String c rest => if is_space c then trimStart rest else s
  end.

Fixpoint trimEnd (s : string) : string :=
  match s with
  | EmptyString => EmptyString
  | String c rest =>
      let rest' := trimEnd rest in
      if is_space c && String.eqb rest' "" then "" else String c rest'
  end.

Definition trim (s : string) : string := trimEnd (trimStart s).

Definition watchmanURL : string :=
  "https://facebook.github.io/watchman/docs/troubleshooting".

(** [watchmanError(error: Error)]: assigns a new message to the [Error] and
    returns it. *)
Definition watchmanError (error : ErrorInstance) : ErrorInstance :=
  {| ei_name := ei_name error;
     ei_message :=
       "Watchman error: " ++ trim (ei_message error) ++ ". Make sure watchman " ++
       "is running for this project. See " ++ watchmanURL ++ ".";
     ei_stack := ei_stack error;
     ei_code := ei_code error |}.

(** The promise around [client.capabilityCheck]: rejected with the error as
    it is. *)
Definition capabilityCheckPromise {A : Type} (answer : Answer A) : result A :=
  match answer with
  | Answered response => Ok response
  | Failed error => Throw (thrown error)
  end.

(** [cmd(...args)]: the promise of a command, rejected with
    [watchmanError(error)]. *)
Definition cmd {A : Type} (answer : Answer A) : result A :=
  match answer with
  | Answered response => Ok response
  | Failed error => Throw (thrown (watchmanError error))
  end.

(** [getWathmanRoots(roots)].  The async callbacks of [Promise.all] are run
    here in the order of [roots]. *)
Fixpoint getWathmanRoots (client : WatchmanClient) (roots : list string)
    (watchmanRootsHash : list (string * list string))
  : result (list (string * list string)) :=
  match roots with
  | [] => Ok watchmanRootsHash
  | root :: rest =>
      match cmd (watch_project client root) with
      | Throw e => Throw e
      | Ok response =>
          let existing := alist_get (wp_watch response) watchmanRootsHash in
          let areWeWatchingRootFirstTime :=
            match existing with
            | None => true
            | Some dirs => (0 <? length dirs)%nat
            end in
          let hash' :=
            if areWeWatchingRootFirstTime then
              if truthy (wp_relative_path response) then
                alist_set (wp_watch response)
                  (default [] existing ++ [wp_relative_path response])%list watchmanRootsHash
              else alist_set (wp_watch response) [] watchmanRootsHash
            else watchmanRootsHash in
          getWathmanRoots client rest hash'
      end
  end.

(** The suffix term of [defaultWatchExpression]. *)
Definition defaultWatchExpression (suffix_set : bool) (extensions : list string)
  : list WatchExpr :=
  [ExprType "f";
   if suffix_set then ExprSuffixSet extensions
   else ExprAnyof (List.map ExprSuffix extensions)].

(** [isSourceControlQuery]: [since] is not a string and has
    [scm["mergebase-with"]]. *)
Definition isSourceControlQuery (since : option WatchmanClockSpec) : bool :=
  match since with
  | Some (ClockScm _) => true
  | Some (ClockLocal _) => false
  | None => false
  end.

(** The query object built for one watch root. *)
Definition queryFor (defaultExpr : list WatchExpr) (fields extensions : list string)
    (directoryFilters : list string) (since : option WatchmanClockSpec)
  : WatchmanQuery :=
  let expression :=
    if (0 <? length directoryFilters)%nat
    then (defaultExpr ++ [ExprAnyof (List.map ExprDirname directoryFilters)])%list
    else defaultExpr in
  let glob :=
    if (0 <? length directoryFilters)%nat
    then List.concat
           (List.map (fun directory =>
              List.map (fun extension => directory ++ "/**/*." ++ extension) extensions)
              directoryFilters)
    else List.map (fun extension => "**/*." ++ extension) extensions in
  match since with
  | None => QueryGlob (ExprAllof expression) fields glob true
  | Some s => QuerySince (ExprAllof expression) fields s
  end.

Record QueryResults : Type := {
  isFresh : bool;
  results : list (string * WatchmanQueryResponse)
}.

(** [queryWatchmanForDirs(rootProjectDirMappings)], the callbacks run in the
    order of the mappings. *)
Fixpoint queryWatchmanForDirs (path : PathModule) (client : WatchmanClient)
    (clocks : WatchmanClocks) (rootDir : string)
    (defaultExpr : list WatchExpr) (fields extensions : list string)
    (rootProjectDirMappings : list (string * list string))
    (acc : QueryResults) : result QueryResults :=
  match rootProjectDirMappings with
  | [] => Ok acc
  | (root, directoryFilters) :: rest =>
      let since := clocks !! relative path rootDir root in
      match cmd (query client root
                   (queryFor defaultExpr fields extensions directoryFilters since)) with
      | Throw e => Throw e
      | Ok response =>
          let isFresh' :=
            if negb (isSourceControlQuery since)
            then isFresh acc || qr_is_fresh_instance response
            else isFresh acc in
          queryWatchmanForDirs path client clocks rootDir defaultExpr fields extensions
            rest {| isFresh := isFresh'; results := alist_set root response (results acc) |}
      end
  end.

(** The three maps and the clocks that the merge loop updates. *)
Record MergeState : Type := {
  ms_clocks : WatchmanClocks;
  ms_files : FileData;
  ms_removedFiles : FileData;
  ms_changedFiles : FileData
}.

Definition relativeFilePath (path : PathModule) (rootDir fsRoot : string)
    (fileData : WatchmanFile) : string :=
  relative path rootDir (fsRoot ++ sep path ++ normalizePathSep path (wf_name fileData)).

Definition mtime_of (m : MtimeMs) : Z :=
  match m with
  | MtimeNumber n => n
  | MtimeLong n => n
  end.

(** [sha1hex] after the check [typeof sha1hex !== "string" ||
    sha1hex.length !== 40]. *)
Definition checked_sha1hex (sha1hex : option string) : option string :=
  match sha1hex with
  | Some s => if negb (String.length s =? 40)%nat then None else Some s
  | None => None
  end.

(** [nextData] as the crawler computes it for a file that exists. *)
Definition nextData (existingFileData : option FileMetaData)
    (fileData : WatchmanFile) : FileMetaData :=
  let mtime := mtime_of (wf_mtime_ms fileData) in
  let size := wf_size fileData in
  let sha1hex := checked_sha1hex (wf_sha1hex fileData) in
  let pristine :=
    {| fm_id := ""; fm_mtime := mtime; fm_size := size; fm_visited := false;
       fm_dependencies := ""; fm_sha1 := sha1hex |} in
  match existingFileData with
  | Some existing =>
      if (fm_mtime existing =? mtime)%Z then existing
      else if truthy_opt sha1hex && bool_decide (fm_sha1 existing = sha1hex) then
        {| fm_id := fm_id existing; fm_mtime := mtime; fm_size := fm_size existing;
           fm_visited := fm_visited existing;
           fm_dependencies := fm_dependencies existing; fm_sha1 := fm_sha1 existing |}
      else pristine
  | None => pristine
  end.

(** One turn of the inner loop.  [data.files] is the previous map
    [previousFiles] when the crawl is fresh ([files] is then a new [Map]) and
    the very map [files] otherwise. *)
Definition mergeFile (path : PathModule) (rootDir : string) (fresh : bool)
    (previousFiles : FileData) (fsRoot : string) (st : MergeState)
    (fileData : WatchmanFile) : MergeState :=
  let filePath := fsRoot ++ sep path ++ normalizePathSep path (wf_name fileData) in
  let relPath := relative path rootDir filePath in
  let existingFileData :=
    (if fresh then previousFiles else ms_files st) !! relPath in
  let removed1 :=
    if fresh && bool_decide (is_Some existingFileData) && wf_exists fileData
    then delete relPath (ms_removedFiles st)
    else ms_removedFiles st in
  if negb (wf_exists fileData) then
    match existingFileData with
    | Some existing =>
        {| ms_clocks := ms_clocks st;
           ms_files := delete relPath (ms_files st);
           ms_removedFiles :=
             if negb fresh then <[relPath := existing]> removed1 else removed1;
           ms_changedFiles := ms_changedFiles st |}
    | None =>
        {| ms_clocks := ms_clocks st; ms_files := ms_files st;
           ms_removedFiles := removed1; ms_changedFiles := ms_changedFiles st |}
    end
  else if truthy filePath then
    let next := nextData existingFileData fileData in
    {| ms_clocks := ms_clocks st;
       ms_files := <[relPath := next]> (ms_files st);
       ms_removedFiles := removed1;
       ms_changedFiles := <[relPath := next]> (ms_changedFiles st) |}
  else
    {| ms_clocks := ms_clocks st; ms_files := ms_files st;
       ms_removedFiles := removed1; ms_changedFiles := ms_changedFiles st |}.

(** The body of the outer loop for one [(watchRoot, response)]. *)
Definition mergeResponse (path : PathModule) (rootDir : string) (fresh : bool)
    (previousFiles : FileData) (st : MergeState)
    (entry : string * WatchmanQueryResponse) : MergeState :=
  let fsRoot := normalizePathSep path (fst entry) in
  let relativeFsRoot := relative path rootDir fsRoot in
  let clock :=
    match qr_clock (snd entry) with
    | ClockString c => ClockLocal c
    | ClockObject _ _ c => ClockLocal c
    end in
  let st1 :=
    {| ms_clocks := <[relativeFsRoot := clock]> (ms_clocks st);
       ms_files := ms_files st; ms_removedFiles := ms_removedFiles st;
       ms_changedFiles := ms_changedFiles st |} in
  foldl (mergeFile path rootDir fresh previousFiles fsRoot) st1 (qr_files (snd entry)).

(** The state in which the loop starts, after [watchmanFileResults.isFresh]
    was looked at. *)
Definition initialState (data : InternalHasteMap) (fresh : bool) : MergeState :=
  {| ms_clocks := hm_clocks data;
     ms_files := if fresh then ∅ else hm_files data;
     ms_removedFiles := if fresh then hm_files data else ∅;
     ms_changedFiles := ∅ |}.

Definition mergeResults (path : PathModule) (rootDir : string)
    (data : InternalHasteMap) (found : QueryResults) : MergeState :=
  foldl (mergeResponse path rootDir (isFresh found) (hm_files data))
        (initialState data (isFresh found)) (results found).

(** [watchmanCrawl(options)] up to the end of its [try] block: the
    capabilities are asked for, the roots resolved and each watch root
    queried. *)
Definition crawlQueries (path : PathModule) (client : WatchmanClient)
    (options : CrawlerOptions) : result QueryResults :=
  let data := co_data options in
  let extensions := co_extensions options in
  capabilities ← capabilityCheckPromise (capabilityCheck client);
  let defaultExpr :=
    defaultWatchExpression
      (bool_decide (capabilities !! "suffix-set" = Some true)) extensions in
  fields ←
    (if co_computeSha1 options then
       listed ← cmd (list_capabilities client);
       Ok (if existsb (String.eqb "field-content.sha1hex") listed
           then ["name"; "exists"; "mtime_ms"; "size"; "content.sha1hex"]
           else ["name"; "exists"; "mtime_ms"; "size"])
     else Ok ["name"; "exists"; "mtime_ms"; "size"]);
  watchmanRoots ← getWathmanRoots client (co_roots options) [];
  queryWatchmanForDirs path client (hm_clocks data) (co_rootDir options) defaultExpr
    fields extensions watchmanRoots {| isFresh := false; results := [] |}.

(** [watchmanCrawl(options)] *)
Definition watchmanCrawl (path : PathModule) (client : WatchmanClient)
    (options : CrawlerOptions) : result CrawlResult :=
  let data := co_data options in
  watchmanFileResults ← crawlQueries path client options;
  match error_event client with
  | Some error => Throw (thrown (watchmanError error))
  | None =>
      let st := mergeResults path (co_rootDir options) data watchmanFileResults in
      Ok {| cr_changedFiles :=
              if isFresh watchmanFileResults then None else Some (ms_changedFiles st);
            cr_hasteMap := set_files (ms_files st) (set_clocks (ms_clocks st) data);
            cr_removedFiles := ms_removedFiles st |}
  end.

End Watchman.

(** ** blacklists.ts *)
Definition blacklists : list string :=
  [".json";
   ".bmp"; ".gif"; ".ico"; ".jpeg"; ".jpg"; ".png"; ".svg"; ".tiff"; ".tif"; ".webp";
   ".avi"; ".mp4"; ".mpeg"; ".mpg"; ".ogv"; ".webm"; ".3gp"; ".3g2";
   ".aac"; ".midi"; ".mid"; ".mp3"; ".oga"; ".wav"; ".3gp"; ".3g2";
   ".eot"; ".otf"; ".ttf"; ".woff"; ".woff2"].

(** ** worker.ts *)
Module Worker.

(** A value produced by [JSON.parse]; numbers are binary64 floats. *)
#[warnings="-register-all"]
Inductive JsValue : Type :=
| JNull
| JBool (b : bool)
| JNumber (n : PrimFloat.float)
| JString (s : string)
| JArray (items : list JsValue)
| JObject (properties : list (string * JsValue)).

(** Truthiness of a parsed value. *)
Definition js_truthy (v : JsValue) : bool :=
  match v with
  | JNull => false
  | JBool b => b
  | JNumber n => PrimFloat.eqb n n && negb (PrimFloat.eqb n PrimFloat.zero)
  | JString s => truthy s
  | JArray _ => true
  | JObject _ => true
  end.

Definition js_truthy_opt (o : option JsValue) : bool :=
  match o with
  | Some v => js_truthy v
  | None => false
  end.

(** [fileData.name]: a [TypeError] on [null], the own property of an
    object, [undefined] on every other parsed value. *)
Definition get_name (fileData : JsValue) : result (option JsValue) :=
  match fileData with
  | JNull => Throw (type_error "Cannot read properties of null (reading 'name')")
  | JObject properties => Ok (alist_get "name" properties)
  | _ => Ok None
  end.

Record HasteImpl : Type := {
  getHasteName : string -> option string
}.

(** A dependency extractor; the third argument of [extract] is the default
    extractor's [extract]. *)
Record DependencyExtractor : Type := {
  extract : string -> string -> (string -> string -> list string) -> list string
}.

Record WorkerMessage : Type := {
  computeDependencies : bool;
  computeSha1 : bool;
  dependencyExtractor : option string;
  rootDir : string;
  filePath : string;
  hasteImplModulePath : option string;
  retainAllFiles : option bool
}.

(** What the worker reaches outside itself: the file system, [JSON.parse],
    module loading and the default extractor of [lib/dependencyExtractor]. *)
Record WorkerEnv : Type := {
  readFileSync : string -> result string;
  JSON_parse : string -> result JsValue;
  require_hasteImpl : string -> result (option HasteImpl);
  require_extractor : string -> result DependencyExtractor;
  import_extractor : string -> result DependencyExtractor;
  pathToFileURL_href : string -> string;
  defaultExtract : string -> string -> list string
}.

(** utils.ts: [requireOrImportModule(filePath, false)], as the worker calls
    it (the module itself is returned, without the default-export
    interop). *)
Definition requireOrImportModule (path : PathModule) (env : WorkerEnv)
    (filePath : string) : result DependencyExtractor :=
  if negb (isAbsolute path filePath) && String.eqb (substring 0 1 filePath) "." then
    let message :=
      "Jest Haste Map: requireOrImportModule path must be absolute, was " ++
      String (ascii_of_nat 34) filePath ++ String (ascii_of_nat 34) "" in
    Throw (new_Error message (captured_stack message))
  else
    match require_extractor env filePath with
    | Ok requiredModule => Ok requiredModule
    | Throw error =>
        _ ← read_property error "code";
        if bool_decide (HasteMap.error_code error = Some "ERR_REQUIRE_ESM") then
          match import_extractor env (pathToFileURL_href env filePath) with
          | Ok importedModule => Ok importedModule
          | Throw innerError =>
              _ ← read_property innerError "message";
              match innerError with
              | ErrObject (Some "Not supported") _ _ _ =>
                  let message :=
                    "Jest Haste Map: Your version of Node does not support dynamic import - please enable it or use a .cjs file extension for file " ++
                    filePath ++ " " in
                  Throw (new_Error message (captured_stack message))
              | _ => Throw innerError
              end
          end
        else Throw error
    end.

(** The module-level variables of worker.ts. *)
Record ModuleState : Type := {
  hasteImpl : option HasteImpl;
  loadedHasteImplModulePath : option string
}.

(** The locals [content], [dependencies], [id], [module], [sha1] of one
    call. *)
Record Locals : Type := {
  content : option string;
  dependencies : option (list string);
  id : option JsValue;
  module : option ModuleMetaData;
  sha1 : option string
}.

Definition no_locals : Locals :=
  {| content := None; dependencies := None; id := None; module := None; sha1 := None |}.

(** [filePath.slice(filePath.lastIndexOf("."))]: from the last dot, or the
    last character when there is no dot ([slice(-1)]). *)
Fixpoint from_last_dot (s : string) : option string :=
  match s with
  | EmptyString => None
  | String c rest =>
      match from_last_dot rest with
      | Some e => Some e
      | None => if Ascii.eqb c "." then Some s else None
      end
  end.

Definition slice_lastIndexOf_dot (s : string) : string :=
  match from_last_dot s with
  | Some e => e
  | None => substring (String.length s - 1) 1 s
  end.

(** The first statement of [worker]: (re)loading [hasteImpl].  The path is
    stored before [require] runs. *)
Definition loadHasteImpl (env : WorkerEnv) (st : ModuleState) (data : WorkerMessage)
  : ModuleState * result unit :=
  if truthy_opt (hasteImplModulePath data)
     && negb (bool_decide (hasteImplModulePath data = loadedHasteImplModulePath st)) then
    match hasteImpl st with
    | Some _ =>
        let message := "jest-haste-map: hasteImplModulePath changed" in
        (st, Throw (new_Error message (captured_stack message)))
    | None =>
        let st1 := {| hasteImpl := None;
                      loadedHasteImplModulePath := hasteImplModulePath data |} in
        match require_hasteImpl env (default "" (hasteImplModulePath data)) with
        | Ok loaded =>
            ({| hasteImpl := loaded;
                loadedHasteImplModulePath := hasteImplModulePath data |}, Ok ())
        | Throw e => (st1, Throw e)
        end
    end
  else (st, Ok ()).

(** [getContent()]: reads the file on first use. *)
Definition getContent (env : WorkerEnv) (data : WorkerMessage) (l : Locals)
  : result (string * Locals) :=
  match content l with
  | Some c => Ok (c, l)
  | None =>
      c ← readFileSync env (filePath data);
      Ok (c, {| content := Some c; dependencies := dependencies l; id := id l;
                module := module l; sha1 := sha1 l |})
  end.

(** What the [catch] of the [package.json] branch throws for the caught
    [error]: the error that names the path, or, when [error] is [null] or
    [undefined], the [TypeError] of reading [error.message]. *)
Definition cannotParse (filePath : string) (error : JsError) : JsError :=
  match read_property error "message" with
  | Throw refused => refused
  | Ok _ =>
      let message :=
        "Cannot parse " ++ filePath ++ " as JSON: " ++ message_text error in
      new_Error message (captured_stack message)
  end.

(** The [package.json] branch: the [try] block and its [catch]. *)
Definition processPackageJson (path : PathModule) (env : WorkerEnv)
    (data : WorkerMessage) (l : Locals) : result Locals :=
  let attempt : result Locals :=
    '(text, l1) ← getContent env data l;
    fileData ← JSON_parse env text;
    name ← get_name fileData;
    if js_truthy_opt name then
      let relativeFilePath := relative path (rootDir data) (filePath data) in
      Ok {| content := content l1; dependencies := dependencies l1; id := name;
            module := Some (relativeFilePath, H.PACKAGE); sha1 := sha1 l1 |}
    else Ok l1 in
  match attempt with
  | Ok l' => Ok l'
  | Throw error => Throw (cannotParse (filePath data) error)
  end.

(** The branch of every other file that is not blacklisted. *)
Definition processModule (path : PathModule) (env : WorkerEnv) (st : ModuleState)
    (data : WorkerMessage) (l : Locals) : result Locals :=
  let l1 :=
    match hasteImpl st with
    | Some impl =>
        {| content := content l; dependencies := dependencies l;
           id := JString <$> getHasteName impl (filePath data);
           module := module l; sha1 := sha1 l |}
    | None => l
    end in
  if computeDependencies data then
    '(text, l2) ← getContent env data l1;
    extractor ←
      (if truthy_opt (dependencyExtractor data)
       then requireOrImportModule path env (default "" (dependencyExtractor data))
       else Ok {| extract := fun code file _ => defaultExtract env code file |});
    Ok {| content := content l2;
          dependencies := Some (extract extractor text (filePath data) (defaultExtract env));
          id := id l2; module := module l2; sha1 := sha1 l2 |}
  else Ok l1.

(** The statements of [worker(data)]: the module state they leave and the
    locals when the body ends, or the error thrown. *)
Definition worker_body (path : PathModule) (env : WorkerEnv) (st : ModuleState)
    (data : WorkerMessage) : ModuleState * result Locals :=
  match loadHasteImpl env st data with
  | (st1, Throw e) => (st1, Throw e)
  | (st1, Ok _) =>
      if endsWith (filePath data) (HasteMap.PACKAGE_JSON path) then
        (st1, processPackageJson path env data no_locals)
      else if negb (existsb (String.eqb (slice_lastIndexOf_dot (filePath data))) blacklists) then
        (st1, processModule path env st1 data no_locals)
      else (st1, Ok no_locals)
  end.

(** [worker(data)]: the body has no [return], so the promise resolves to
    [undefined]. *)
Definition worker (path : PathModule) (env : WorkerEnv) (st : ModuleState)
    (data : WorkerMessage) : ModuleState * result (JsReturn Locals) :=
  match worker_body path env st data with
  | (st1, Ok _) => (st1, Ok Undefined)
  | (st1, Throw e) => (st1, Throw e)
  end.

End Worker.

(** ** index.ts: reading the cache and crawling *)
Module FileMap.

(** [deserialize(fs.readFileSync(cachePath))]: the index stored in a cache
    file, or the error of reading or decoding it. *)
Record CacheEnv : Type := {
  readCache : string -> result InternalHasteMap
}.

(** [read()] *)
Definition read (cache : CacheEnv) (cachePath : string) : InternalHasteMap :=
  match readCache cache cachePath with
  | Ok hasteMap => hasteMap
  | Throw _ => HasteMap._createEmptyMap
  end.

(** What [_crawl] leaves behind: the outcome of the crawl and the console
    output. *)
Record CrawlOutcome : Type := {
  outcome : result Watchman.CrawlResult;
  warnings : list string
}.

(** [_crawl(hasteMap)].  The warning is built before it is printed, so a
    [retryError] that cannot be converted to a string leaves no warning. *)
Definition _crawl (path : PathModule) (client : Watchman.WatchmanClient)
    (options : HasteMap.InternalOptions) (hasteMap : InternalHasteMap)
  : CrawlOutcome :=
  let crawlerOptions :=
    {| Watchman.co_computeSha1 := HasteMap.io_computeSha1 options;
       Watchman.co_data := hasteMap;
       Watchman.co_extensions := HasteMap.io_extensions options;
       Watchman.co_rootDir := HasteMap.io_rootDir options;
       Watchman.co_roots := HasteMap.io_roots options |} in
  match Watchman.watchmanCrawl path client crawlerOptions with
  | Ok crawled => {| outcome := Ok crawled; warnings := [] |}
  | Throw retryError =>
      let nl := String (ascii_of_nat 10) "" in
      match ToString retryError with
      | Ok text =>
          {| outcome := Throw retryError;
             warnings :=
               ["jest-haste-map: Watchman crawl failed. " ++ nl ++
                "Usually this happens when watchman isn't running. Create an " ++
                "empty `.watchmanconfig` file in your project's root folder or " ++
                "initialize a git or hg repository in your project. " ++ nl ++
                "  " ++ text] |}
      | Throw refused => {| outcome := Throw refused; warnings := [] |}
      end
  end.

(** [_buildFileMap()] *)
Definition _buildFileMap (path : PathModule) (client : Watchman.WatchmanClient)
    (cache : CacheEnv) (options : HasteMap.InternalOptions) (cachePath : string)
  : CrawlOutcome :=
  let hasteMap :=
    if default false (HasteMap.io_resetCache options)
    then HasteMap._createEmptyMap
    else read cache cachePath in
  _crawl path client options hasteMap.

End FileMap.

(** ** Vocabulary of the statements about the reconciler *)

(** The kind under which [file] is recorded as a contender for [id] on
    [platform] in a duplicates index. *)
Definition contender (duplicates : DuplicatesIndex) (id platform file : string)
  : option Z :=
  match duplicates !! id with
  | Some dupsByPlatform =>
      match dupsByPlatform !! platform with
      | Some dups => dups !! file
      | None => None
      end
  | None => None
  end.

(** The entry to which [id] resolves on [platform] in a module map. *)
Definition resolution (map : ModuleMapData) (id platform : string)
  : option ModuleMetaData :=
  match map !! id with
  | Some moduleMap => moduleMap !! platform
  | None => None
  end.

(** Every character of [s] satisfies [P]. *)
Fixpoint all_chars (P : ascii -> bool) (s : string) : bool :=
  match s with
  | EmptyString => true
  | String c rest => P c && all_chars P rest
  end.

(** A character a sanitised cache id may hold: a word character or the
    dash that replaces the others. *)
Definition is_word_or_dash (c : ascii) : bool :=
  HasteMap.is_word_char c || Ascii.eqb c "-".

(** What the merge loop holds for the path [p]: its entries in [files],
    [removedFiles] and [changedFiles]. *)
Definition at_path (st : Watchman.MergeState) (p : string)
  : option FileMetaData * option FileMetaData * option FileMetaData :=
  (Watchman.ms_files st !! p, Watchman.ms_removedFiles st !! p,
   Watchman.ms_changedFiles st !! p).

(** A file entry on which no worker result was committed yet. *)
Definition unprocessed (e : FileMetaData) : Prop :=
  fm_id e = "" /\ fm_visited e = false /\ fm_dependencies e = "".

(** The string a response clock is persisted as. *)
Definition clock_string (clock : Watchman.ResponseClock) : string :=
  match clock with
  | Watchman.ClockString c => c
  | Watchman.ClockObject _ _ c => c
  end.

(** The key under which the merge loop stores the clock of a watch root. *)
Definition clock_key (path : PathModule) (rootDir watchRoot : string) : string :=
  relative path rootDir (normalizePathSep path watchRoot).

(** What the merge loop holds for a path that no response lists, given its
    entry [previous] in the previous [files]. *)
Definition unlisted_outcome (fresh : bool) (previous : option FileMetaData)
  : option FileMetaData * option FileMetaData * option FileMetaData :=
  if fresh then (None, previous, None) else (previous, None, None).

(** What the merge loop holds for the path of a listed file. *)
Definition listed_outcome (previous : option FileMetaData)
    (fileData : Watchman.WatchmanFile)
  : option FileMetaData * option FileMetaData * option FileMetaData :=
  if Watchman.wf_exists fileData
  then (Some (Watchman.nextData previous fileData), None,
        Some (Watchman.nextData previous fileData))
  else (None, previous, None).

(** Every entry of a file map is unprocessed. *)
Definition all_unprocessed (m : FileData) : Prop :=
  forall p e, m !! p = Some e -> unprocessed e.

(** The relative paths that the [watch-project] answers for [roots] give
    under the watch root [w], in the order of [roots]. *)
Definition dirs_under (client : Watchman.WatchmanClient) (w : string)
    (roots : list string) : list string :=
  omap (fun root =>
          match Watchman.watch_project client root with
          | Watchman.Answered response =>
              if String.eqb (Watchman.wp_watch response) w
              then Some (Watchman.wp_relative_path response)
              else None
          | Watchman.Failed _ => None
          end)
       roots.

(** No character of [s] is a forward slash. *)
Definition no_slash (s : string) : bool :=
  all_chars (fun c => negb (Ascii.eqb c "/")) s.


(** A file extension: a dot, then at least one character and no further
    dot. *)
Definition is_extension (ext : string) : bool :=
  match ext with
  | String c body =>
      Ascii.eqb c "." && bool_decide (Worker.from_last_dot body = None) &&
      (2 <=? String.length ext)%nat
  | EmptyString => false
  end.

(** ** Vocabulary of the statements about the crawler *)

(** [fileData], listed in the response of the watch root [fsRoot], is
    reported as existing and lands on the relative path [p]. *)
Definition reports_existing (path : PathModule) (rootDir fsRoot p : string)
    (fileData : Watchman.WatchmanFile) : bool :=
  Watchman.wf_exists fileData
  && String.eqb (Watchman.relativeFilePath path rootDir fsRoot fileData) p.

(** Some file of some response is reported as existing at [p]. *)
Definition reported_existing (path : PathModule) (rootDir : string)
    (entries : list (string * Watchman.WatchmanQueryResponse)) (p : string) : bool :=
  existsb (fun entry =>
             existsb (reports_existing path rootDir (normalizePathSep path (fst entry)) p)
                     (Watchman.qr_files (snd entry)))
          entries.

(** The relative paths of all the files the responses list, in the order
    the merge loop visits them. *)
Definition reported_paths (path : PathModule) (rootDir : string)
    (entries : list (string * Watchman.WatchmanQueryResponse)) : list string :=
  flat_map (fun entry =>
              List.map (Watchman.relativeFilePath path rootDir
                          (normalizePathSep path (fst entry)))
                       (Watchman.qr_files (snd entry)))
           entries.

(** The response stored for a watch root answers a query that is not a
    source-control query and reports a fresh instance. *)
Definition fresh_response (path : PathModule) (rootDir : string)
    (clocks : WatchmanClocks) (entry : string * Watchman.WatchmanQueryResponse) : bool :=
  negb (Watchman.isSourceControlQuery (clocks !! relative path rootDir (fst entry)))
  && Watchman.qr_is_fresh_instance (snd entry).

(** A hexadecimal digit, in either case. *)
Definition is_hex_digit (c : ascii) : bool :=
  let n := nat_of_ascii c in
  ((48 <=? n)%nat && (n <=? 57)%nat)
  || ((97 <=? n)%nat && (n <=? 102)%nat)
  || ((65 <=? n)%nat && (n <=? 70)%nat).

(** Follows the spec's words for the digest a response may carry, "a valid
    40-hex string": forty characters, each a hexadecimal digit.  The crawler's
    own check is [Watchman.checked_sha1hex]. *)
Definition spec_valid_sha1hex (s : string) : bool :=
  (String.length s =? 40)%nat && forallb is_hex_digit (list_ascii_of_string s).

(** The entry the crawler writes for a new or changed file. *)
Definition pristine (mtime size : Z) (sha1 : option string) : FileMetaData :=
  {| fm_id := ""; fm_mtime := mtime; fm_size := size; fm_visited := false;
     fm_dependencies := ""; fm_sha1 := sha1 |}.

(** [existing] with its [mtime] replaced. *)
Definition with_mtime (existing : FileMetaData) (mtime : Z) : FileMetaData :=
  {| fm_id := fm_id existing; fm_mtime := mtime; fm_size := fm_size existing;
     fm_visited := fm_visited existing; fm_dependencies := fm_dependencies existing;
     fm_sha1 := fm_sha1 existing |}.

(** * Data for the closed statements *)

(** A POSIX [path] for the examples: [relative] strips the prefix
    [from ++ "/"] from [to], [resolve] joins with [sep]. *)
Definition posix : PathModule :=
  {| sep := "/";
     relative := fun from to =>
       let p := from ++ "/" in
       if String.eqb from to then ""
       else if String.prefix p to
       then substring (String.length p) (String.length to - String.length p) to
       else to;
     resolve := fun dir p => dir ++ "/" ++ p;
     isAbsolute := fun p => String.prefix "/" p |}.

Definition meta (id : string) (mtime : Z) : FileMetaData :=
  {| fm_id := id; fm_mtime := mtime; fm_size := 10; fm_visited := true;
     fm_dependencies := ""; fm_sha1 := None |}.

(** "Foo" is claimed by a.js and b.js and resolved to neither. *)
Definition two_contenders : InternalHasteMap :=
  {| hm_clocks := ∅;
     hm_duplicates := {[ "Foo" := {[ "g" := {[ "a.js" := H.MODULE; "b.js" := H.MODULE ]} ]} ]};
     hm_files := {[ "b.js" := meta "Foo" 1 ]};
     hm_map := ∅; hm_mocks := ∅ |}.

(** The same, with two more contenders on the native platform. *)
Definition two_platforms : InternalHasteMap :=
  {| hm_clocks := ∅;
     hm_duplicates :=
       {[ "Foo" := {[ "g" := {[ "a.js" := H.MODULE; "b.js" := H.MODULE ]};
                      "native" := {[ "a.native.js" := H.MODULE;
                                     "b.native.js" := H.MODULE ]} ]} ]};
     hm_files := {[ "b.js" := meta "Foo" 1 ]};
     hm_map := ∅; hm_mocks := ∅ |}.

(** "Foo" has a single contender left in the duplicates index. *)
Definition last_contender : InternalHasteMap :=
  {| hm_clocks := ∅;
     hm_duplicates := {[ "Foo" := {[ "g" := {[ "a.js" := H.MODULE ]} ]} ]};
     hm_files := ∅; hm_map := ∅; hm_mocks := ∅ |}.

(** An index of three files under /r, and a watchman that, restarted,
    lists two of them. *)
Definition three_files : InternalHasteMap :=
  {| hm_clocks := {[ "" := ClockLocal "c:1:1" ]};
     hm_duplicates := ∅;
     hm_files := {[ "a.js" := meta "" 5; "b.js" := meta "" 5; "c.js" := meta "" 5 ]};
     hm_map := ∅; hm_mocks := ∅ |}.

Definition listed (name : string) (mtime : Z) : Watchman.WatchmanFile :=
  {| Watchman.wf_name := name; Watchman.wf_exists := true;
     Watchman.wf_mtime_ms := Watchman.MtimeNumber mtime; Watchman.wf_size := 10;
     Watchman.wf_sha1hex := None |}.

Definition restarted_response : Watchman.WatchmanQueryResponse :=
  {| Watchman.qr_warning := None; Watchman.qr_is_fresh_instance := true;
     Watchman.qr_version := "2021.06.07.00";
     Watchman.qr_clock := Watchman.ClockString "c:2:1";
     Watchman.qr_files := [listed "a.js" 5; listed "b.js" 6] |}.

Definition restarted_client : Watchman.WatchmanClient :=
  {| Watchman.capabilityCheck := Watchman.Answered {[ "suffix-set" := true ]};
     Watchman.list_capabilities := Watchman.Answered [];
     Watchman.watch_project := fun root =>
       Watchman.Answered
         {| Watchman.wp_watch := root; Watchman.wp_relative_path := "" |};
     Watchman.query := fun _ _ => Watchman.Answered restarted_response;
     Watchman.error_event := None |}.

Definition crawl_options : Watchman.CrawlerOptions :=
  {| Watchman.co_computeSha1 := false; Watchman.co_data := three_files;
     Watchman.co_extensions := ["js"]; Watchman.co_rootDir := "/r";
     Watchman.co_roots := ["/r"] |}.

Definition restarted_results : Watchman.QueryResults :=
  {| Watchman.isFresh := true; Watchman.results := [("/r", restarted_response)] |}.

(** A digest field of forty characters none of which is a hexadecimal
    digit. *)
Definition forty_z : string := "zzzzzzzzzzzzzzzzzzzzzzzzzzzzzzzzzzzzzzzz".

Definition listed_with_digest : Watchman.WatchmanFile :=
  {| Watchman.wf_name := "a.js"; Watchman.wf_exists := true;
     Watchman.wf_mtime_ms := Watchman.MtimeNumber 7; Watchman.wf_size := 3;
     Watchman.wf_sha1hex := Some forty_z |}.

(** A worker environment whose only file is /r/package.json with the given
    text, which [JSON.parse] reads as [parsed]. *)
Definition package_env (text : string) (parsed : result Worker.JsValue)
  : Worker.WorkerEnv :=
  let missing := ErrObject (Some "ENOENT: no such file or directory")
                   (Some "Error: ENOENT") (Some "ENOENT")
                   "Error: ENOENT: no such file or directory" in
  {| Worker.readFileSync := fun p =>
       if String.eqb p "/r/package.json" then Ok text else Throw missing;
     Worker.JSON_parse := fun s =>
       if String.eqb s text then parsed
       else Throw (ErrObject (Some "Unexpected token") (Some "SyntaxError")
                     None "SyntaxError: Unexpected token");
     Worker.require_hasteImpl := fun _ => Throw missing;
     Worker.require_extractor := fun _ => Throw missing;
     Worker.import_extractor := fun _ => Throw missing;
     Worker.pathToFileURL_href := fun p => "file://" ++ p;
     Worker.defaultExtract := fun _ _ => [] |}.

Definition dquote : string := String (ascii_of_nat 34) "".

(** The text [{"name":"pkg"}] and the text [{"name":""}]. *)
Definition named_pkg_text : string :=
  "{" ++ dquote ++ "name" ++ dquote ++ ":" ++ dquote ++ "pkg" ++ dquote ++ "}".

Definition empty_name_text : string :=
  "{" ++ dquote ++ "name" ++ dquote ++ ":" ++ dquote ++ dquote ++ "}".

Definition package_message : Worker.WorkerMessage :=
  {| Worker.computeDependencies := false; Worker.computeSha1 := false;
     Worker.dependencyExtractor := None; Worker.rootDir := "/r";
     Worker.filePath := "/r/package.json"; Worker.hasteImplModulePath := None;
     Worker.retainAllFiles := None |}.

Definition fresh_module : Worker.ModuleState :=
  {| Worker.hasteImpl := None; Worker.loadedHasteImplModulePath := None |}.

(** "Foo" resolved to a.js on the generic platform. *)
Definition resolved_map : ModuleMapData :=
  {[ "Foo" := {[ "g" := ("a.js", H.MODULE) ]} ]}.

(** A node whose SHA-1 digest is that of the empty input, whatever it
    hashes. *)
Definition hex_node : HasteMap.NodeEnv :=
  {| HasteMap.tmpdir := "/tmp";
     HasteMap.path_join := fun dir name => dir ++ "/" ++ name;
     HasteMap.sha1_hex := fun _ => "da39a3ee5e6b4b0d3255bfef95601890afd80709" |}.

(** The internal options of a map over /r whose cache is to be reset. *)
Definition reset_options : HasteMap.InternalOptions :=
  HasteMap.construct hex_node
    {| HasteMap.o_computeSha1 := None; HasteMap.o_extensions := ["js"];
       HasteMap.o_maxWorkers := 1; HasteMap.o_platforms := [];
       HasteMap.o_rootDir := "/r"; HasteMap.o_roots := ["/r"; "/r"];
       HasteMap.o_name := None; HasteMap.o_cacheDirectory := None;
       HasteMap.o_id := "example"; HasteMap.o_resetCache := Some true |}.

(** A cache that holds the index of three files at every path. *)
Definition warm_cache : FileMap.CacheEnv :=
  {| FileMap.readCache := fun _ => Ok three_files |}.

(** A [path] whose separator is the backslash. *)
Definition backslash : string := String (ascii_of_nat 92) "".

Definition win32 : PathModule :=
  {| sep := backslash;
     relative := fun from to =>
       let p := from ++ backslash in
       if String.eqb from to then ""
       else if String.prefix p to
       then substring (String.length p) (String.length to - String.length p) to
       else to;
     resolve := fun dir p => dir ++ backslash ++ p;
     isAbsolute := fun p => String.eqb (substring 1 2 p) (":" ++ backslash) |}.

(** A watchman that watches /r as a whole and answers every root below it
    with its path relative to /r. *)
Definition nested_client : Watchman.WatchmanClient :=
  {| Watchman.capabilityCheck := Watchman.Answered {[ "suffix-set" := true ]};
     Watchman.list_capabilities := Watchman.Answered [];
     Watchman.watch_project := fun root =>
       Watchman.Answered
         {| Watchman.wp_watch := "/r";
            Watchman.wp_relative_path := relative posix "/r" root |};
     Watchman.query := fun _ _ => Watchman.Answered restarted_response;
     Watchman.error_event := None |}.

(** The [Error] of a lost connection. *)
Definition connection_lost : ErrorInstance :=
  {| ei_name := "Error"; ei_message := "connection lost";
     ei_stack := Some "Error: connection lost"; ei_code := None |}.

(** The restarted watchman, whose connection emitted an error. *)
Definition broken_client : Watchman.WatchmanClient :=
  {| Watchman.capabilityCheck := Watchman.capabilityCheck restarted_client;
     Watchman.list_capabilities := Watchman.list_capabilities restarted_client;
     Watchman.watch_project := Watchman.watch_project restarted_client;
     Watchman.query := Watchman.query restarted_client;
     Watchman.error_event := Some connection_lost |}.

(** A worker module that has loaded /r/haste.js, which names no file. *)
Definition loaded_module : Worker.ModuleState :=
  {| Worker.hasteImpl := Some {| Worker.getHasteName := fun _ => None |};
     Worker.loadedHasteImplModulePath := Some "/r/haste.js" |}.

(** A message for /r/a.js that asks for the haste implementation
    [modulePath]. *)
Definition haste_message (modulePath : string) : Worker.WorkerMessage :=
  {| Worker.computeDependencies := false; Worker.computeSha1 := true;
     Worker.dependencyExtractor := None; Worker.rootDir := "/r";
     Worker.filePath := "/r/a.js"; Worker.hasteImplModulePath := Some modulePath;
     Worker.retainAllFiles := None |}.

(** * Properties *)

(** ** Finite maps and insertion-ordered maps *)

Lemma alist_set_new {V} k (v : V) l :
  alist_get k l = None -> alist_set k v l = (l ++ [(k, v)])%list.
Proof.
  induction l as [|[k' v'] l IH]; simpl; [done|].
  destruct (String.eqb k k'); [done|]. intros Hn. by rewrite IH.
Qed.

Lemma alist_get_None {V} k (l : list (string * V)) :
  alist_get k l = None <-> k ∉ List.map fst l.
Proof.
  induction l as [|[k' v'] l IH]; simpl.
  - split; [intros _; apply not_elem_of_nil|done].
  - rewrite not_elem_of_cons.
    destruct (String.eqb_spec k k') as [->|Hne]; [|tauto].
    split; [done|]. intros [? _]. done.
Qed.

Lemma alist_set_keys {V} k (v : V) l :
  List.map fst (alist_set k v l) =
    match alist_get k l with
    | Some _ => List.map fst l
    | None => (List.map fst l ++ [k])%list
    end.
Proof.
  induction l as [|[k' v'] l IH]; simpl; [done|].
  destruct (String.eqb_spec k k') as [->|Hne]; simpl; [done|].
  rewrite IH. by destruct (alist_get k l).
Qed.

Lemma alist_set_NoDup {V} k (v : V) l :
  NoDup (List.map fst l) -> NoDup (List.map fst (alist_set k v l)).
Proof.
  intros Hnd. rewrite alist_set_keys.
  destruct (alist_get k l) eqn:E; [done|].
  apply NoDup_app. split; [done|]. split.
  - intros x Hx Hk. apply list_elem_of_singleton in Hk as ->.
    by apply alist_get_None in E.
  - apply NoDup_singleton.
Qed.

(** ** The reconciler (index.ts) *)
Section Reconciler.

Import HasteMap.

Implicit Types (hm : InternalHasteMap) (dbp : gmap string DuplicatesSet)
  (dups : DuplicatesSet).

(** [setModule] never writes to the duplicates index. *)
Lemma setModule_duplicates_untouched path (map : ModuleMapData)
    (duplicates : DuplicatesIndex) id module :
  sm_duplicates (setModule path map duplicates id module) = duplicates.
Proof.
  unfold setModule.
  destruct (map !! id) as [moduleMap|]; simpl.
  - destruct (moduleMap !! H.GENERIC_PLATFORM) as [existing|]; [|done].
    by destruct (negb _).
  - by rewrite lookup_empty.
Qed.

(** C1, evaluated at the failing input: "Foo" is held by a.js on the generic
    platform and c.js claims it too.  [setModule] deletes the generic entry
    and warns, but it keeps "Foo" in [map], bound to an empty platform map,
    and records neither contender in [duplicates]. *)
Lemma setModule_collision_loses_contenders :
  let map : ModuleMapData := {[ "Foo" := {[ "g" := ("a.js", H.MODULE) ]} ]} in
  let r := setModule posix map ∅ "Foo" ("c.js", H.MODULE) in
  sm_map r = {[ "Foo" := ∅ ]} /\ sm_duplicates r = ∅ /\ length (sm_warnings r) = 1%nat.
Proof. vm_compute. done. Qed.

(** With a second platform under the same id, the collision removes the id
    from [map] although its platform map is not empty. *)
Lemma setModule_collision_removes_nonempty :
  let map : ModuleMapData :=
    {[ "Foo" := {[ "g" := ("a.js", H.MODULE); "native" := ("a.native.js", H.MODULE) ]} ]} in
  sm_map (setModule posix map ∅ "Foo" ("c.js", H.MODULE)) = ∅.
Proof. vm_compute. done. Qed.

(** [_recoverDuplicates] once both lookups have succeeded. *)
Lemma recoverDuplicates_unfold hm p name dbp dups :
  hm_duplicates hm !! name = Some dbp ->
  dbp !! H.GENERIC_PLATFORM = Some dups ->
  _recoverDuplicates hm p name =
    let dups1 := delete p dups in
    let emptied :=
      set_duplicates (<[name := <[H.GENERIC_PLATFORM := dups1]> dbp]> (hm_duplicates hm)) hm in
    if negb (size dups1 =? 1)%nat then emptied
    else
      match map_to_list dups1 with
      | [] => emptied
      | u :: _ =>
        let dedup : ModuleMapItem := default ∅ (hm_map hm !! name) in
        let rest := delete H.GENERIC_PLATFORM dbp in
        {| hm_clocks := hm_clocks hm;
           hm_duplicates := if decide (rest = ∅) then delete name (hm_duplicates hm)
                            else <[name := rest]> (hm_duplicates hm);
           hm_files := hm_files hm;
           hm_map := <[name := <[H.GENERIC_PLATFORM := u]> dedup]> (hm_map hm);
           hm_mocks := hm_mocks hm |}
      end.
Proof.
  intros H1 H2. unfold _recoverDuplicates. rewrite H1, H2. simpl.
  destruct (negb _); [done|].
  destruct (map_to_list _) as [|u l]; [done|].
  simpl. rewrite delete_insert_eq.
  unfold set_duplicates, set_map; simpl.
  rewrite insert_insert_eq.
  destruct (Nat.eqb_spec (size (delete H.GENERIC_PLATFORM dbp)) 0) as [Hz|Hz].
  - apply map_size_empty_inv in Hz. rewrite decide_True by done.
    by rewrite delete_insert_eq.
  - rewrite decide_False; [done|].
    intros E. rewrite E in Hz. by rewrite map_size_empty in Hz.
Qed.

(** C2 (as amended): from a state where [duplicates[id][g]] holds exactly
    the entries of two files A and B and [map[id]] is unset, removing A sets
    [map[id]] to the platform map that sends [g] to B's (path, kind) entry
    and takes [g] out of [duplicates[id]]; the id leaves [duplicates]
    exactly when no other platform is left under it. *)
Theorem recoverDuplicates_promotes_survivor hm id dbp (A B : string) (kA kB : Z) :
  A <> B ->
  hm_duplicates hm !! id = Some dbp ->
  dbp !! H.GENERIC_PLATFORM = Some {[ A := kA; B := kB ]} ->
  hm_map hm !! id = None ->
  let hm' := _recoverDuplicates hm A id in
  hm_map hm' !! id = Some {[ H.GENERIC_PLATFORM := (B, kB) ]} /\
  hm_duplicates hm' !! id =
    (if (size (delete H.GENERIC_PLATFORM dbp) =? 0)%nat then None
     else Some (delete H.GENERIC_PLATFORM dbp)).
Proof.
  intros HAB H1 H2 H3 hm'. subst hm'.
  rewrite (recoverDuplicates_unfold _ _ _ _ _ H1 H2). cbv zeta.
  rewrite delete_insert_eq, delete_singleton_ne by done.
  rewrite map_size_singleton, map_to_list_singleton. simpl.
  rewrite H3. simpl. rewrite lookup_insert_eq. split; [done|].
  destruct (Nat.eqb_spec (size (delete H.GENERIC_PLATFORM dbp)) 0) as [Hz|Hz].
  - apply map_size_empty_inv in Hz.
    rewrite decide_True by done. by rewrite lookup_delete_eq.
  - rewrite decide_False by (by rewrite <- map_size_empty_iff).
    by rewrite lookup_insert_eq.
Qed.

(** The amended C2 at the state of the spec's law P7: only the generic
    platform is recorded, and "Foo" leaves [duplicates]. *)
Lemma recoverDuplicates_promotes_survivor_witness :
  hm_map (_recoverDuplicates two_contenders "a.js" "Foo") !! "Foo"
    = Some {[ "g" := ("b.js", H.MODULE) ]} /\
  hm_duplicates (_recoverDuplicates two_contenders "a.js" "Foo") !! "Foo" = None.
Proof.
  exact (recoverDuplicates_promotes_survivor two_contenders "Foo"
           {[ "g" := {[ "a.js" := H.MODULE; "b.js" := H.MODULE ]} ]}
           "a.js" "b.js" H.MODULE H.MODULE
           ltac:(discriminate) eq_refl eq_refl eq_refl).
Defined.

(** C2 as stated fails: [duplicates["Foo"]["g"]] holds exactly a.js and
    b.js and [map["Foo"]] is unset, yet after removing a.js "Foo" is still a
    key of [duplicates], bound to its native-platform contenders. *)
Lemma recoverDuplicates_keeps_id_of_other_platform :
  (hm_duplicates two_platforms !! "Foo" ≫= (.!! "g"))
    = Some {[ "a.js" := H.MODULE; "b.js" := H.MODULE ]} /\
  hm_map two_platforms !! "Foo" = None /\
  hm_map (_recoverDuplicates two_platforms "a.js" "Foo") !! "Foo"
    = Some {[ "g" := ("b.js", H.MODULE) ]} /\
  hm_duplicates (_recoverDuplicates two_platforms "a.js" "Foo") !! "Foo"
    = Some {[ "native" := {[ "a.native.js" := H.MODULE; "b.native.js" := H.MODULE ]} ]}.
Proof. vm_compute. done. Qed.

(** C10: when [duplicates[moduleName][g]] holds only the removed path,
    [_recoverDuplicates] deletes it and returns early: [moduleName] stays in
    [duplicates] with [g] bound to the empty map and nothing else changes.
    More generally, whenever the number of contenders left after the
    deletion is not one, [map] is untouched and [moduleName] stays in
    [duplicates]; and without an entry for [g] nothing happens at all. *)
Theorem recoverDuplicates_last_contender :
  (forall hm name p dbp (k : Z),
     hm_duplicates hm !! name = Some dbp ->
     dbp !! H.GENERIC_PLATFORM = Some {[ p := k ]} ->
     _recoverDuplicates hm p name =
       set_duplicates (<[name := <[H.GENERIC_PLATFORM := ∅]> dbp]> (hm_duplicates hm)) hm) /\
  (forall hm name p dbp dups,
     hm_duplicates hm !! name = Some dbp ->
     dbp !! H.GENERIC_PLATFORM = Some dups ->
     size (delete p dups) <> 1%nat ->
     hm_map (_recoverDuplicates hm p name) = hm_map hm /\
     hm_duplicates (_recoverDuplicates hm p name) !! name
       = Some (<[H.GENERIC_PLATFORM := delete p dups]> dbp)) /\
  (forall hm name p,
     (hm_duplicates hm !! name ≫= (.!! H.GENERIC_PLATFORM)) = None ->
     _recoverDuplicates hm p name = hm).
Proof.
  split; [|split].
  - intros hm name p dbp k H1 H2.
    rewrite (recoverDuplicates_unfold _ _ _ _ _ H1 H2). cbv zeta.
    by rewrite delete_singleton_eq, map_size_empty.
  - intros hm name p dbp dups H1 H2 Hs.
    rewrite (recoverDuplicates_unfold _ _ _ _ _ H1 H2). cbv zeta.
    destruct (Nat.eqb_spec (size (delete p dups)) 1) as [|_]; [done|]. simpl.
    by rewrite lookup_insert_eq.
  - intros hm name p Hn. unfold _recoverDuplicates.
    destruct (hm_duplicates hm !! name) as [dbp|]; [|done].
    simpl in Hn. by rewrite Hn.
Qed.

Lemma recoverDuplicates_last_contender_witness :
  _recoverDuplicates last_contender "a.js" "Foo" =
    set_duplicates {[ "Foo" := {[ "g" := ∅ ]} ]} last_contender.
Proof.
  rewrite (proj1 recoverDuplicates_last_contender last_contender "Foo" "a.js"
             {[ "g" := {[ "a.js" := H.MODULE ]} ]} H.MODULE eq_refl eq_refl).
  reflexivity.
Defined.

(** C3: when the changed-file set is absent or some file was removed,
    [_buildHasteMap] starts from an empty [map] and [mocks] and selects all
    of [hasteMap.files]; otherwise it keeps the prior [map] and [mocks] and
    selects the changed files only. *)
Theorem buildHasteMap_selection (removedFiles : list (string * FileMetaData))
    (changedFiles : option FileData) (hasteMap : InternalHasteMap) :
  let r := _buildHasteMap removedFiles changedFiles hasteMap in
  (changedFiles = None \/ removedFiles <> [] ->
     bh_map r = ∅ /\ bh_mocks r = ∅ /\ bh_filesToProcess r = hm_files hasteMap) /\
  (forall changed, changedFiles = Some changed -> removedFiles = [] ->
     bh_map r = hm_map hasteMap /\ bh_mocks r = hm_mocks hasteMap /\
     bh_filesToProcess r = changed).
Proof.
  unfold _buildHasteMap. split.
  - intros [->|Hne]; [done|].
    destruct changedFiles as [c|]; [|done].
    by destruct removedFiles.
  - by intros changed -> ->.
Qed.

Lemma buildHasteMap_selection_witness :
  (let r := _buildHasteMap [("c.js", meta "Foo" 1)] (Some {[ "a.js" := meta "" 2 ]})
              two_contenders in
   bh_map r = ∅ /\ bh_mocks r = ∅ /\ bh_filesToProcess r = hm_files two_contenders) /\
  (let r := _buildHasteMap [] (Some {[ "a.js" := meta "" 2 ]}) two_contenders in
   bh_map r = hm_map two_contenders /\ bh_mocks r = hm_mocks two_contenders /\
   bh_filesToProcess r = {[ "a.js" := meta "" 2 ]}).
Proof.
  split.
  - apply (proj1 (buildHasteMap_selection [("c.js", meta "Foo" 1)]
                    (Some {[ "a.js" := meta "" 2 ]}) two_contenders)).
    right. discriminate.
  - apply (proj2 (buildHasteMap_selection [] (Some {[ "a.js" := meta "" 2 ]})
                    two_contenders) {[ "a.js" := meta "" 2 ]}); reflexivity.
Defined.

(** An error object with a message and a stack keeps its code: EACCES drops
    the file and is not rethrown. *)
Lemma workerEror_EACCES_drops_file hm p message stack str :
  truthy message = true -> truthy stack = true ->
  workerEror hm p (ErrObject (Some message) (Some stack) (Some "EACCES") str)
    = Ok (set_files (delete p (hm_files hm)) hm).
Proof.
  intros Hm Hs. unfold workerEror, is_error_like, truthy_opt. simpl.
  by rewrite Hm, Hs.
Qed.

(** Every code other than the two listed ones is rethrown. *)
Lemma workerEror_other_code_is_thrown hm p message stack code str :
  truthy message = true -> truthy stack = true ->
  includes ["ENONET"; "EACCES"] code = false ->
  workerEror hm p (ErrObject (Some message) (Some stack) code str)
    = Throw (ErrObject (Some message) (Some stack) code str).
Proof.
  intros Hm Hs Hc. unfold workerEror, is_error_like, truthy_opt.
  cbn -[includes]. rewrite Hm, Hs. cbn -[includes]. by rewrite Hc.
Qed.

(** C6, evaluated at the failing input: a well-formed error with code
    ENOENT is rethrown and the file stays in [files]; the list the code
    consults spells the code ENONET. *)
Lemma workerEror_ENOENT_is_thrown :
  let error :=
    ErrObject (Some "ENOENT: no such file or directory, open '/r/a.js'")
      (Some "Error: ENOENT: no such file or directory, open '/r/a.js'")
      (Some "ENOENT") "Error: ENOENT: no such file or directory, open '/r/a.js'" in
  workerEror three_files "a.js" error = Throw error /\
  workerEror three_files "a.js"
    (ErrObject (Some "misspelt") (Some "Error: misspelt") (Some "ENONET") "Error: misspelt")
    = Ok (set_files {[ "b.js" := meta "" 5; "c.js" := meta "" 5 ]} three_files).
Proof. vm_compute. done. Qed.

(** C8, evaluated on every instance: [build] returns [undefined], on the
    first call and on the next one; the first call stores the async function
    without calling it and later calls leave the instance alone. *)
Lemma build_returns_undefined (this : Instance) :
  fst (build this) = Undefined /\
  fst (build (snd (build this))) = Undefined /\
  snd (build (snd (build this))) = snd (build this) /\
  _buildPromise (snd (build this)) <> None.
Proof. unfold build. destruct (_buildPromise this) eqn:E; simpl; by rewrite ?E. Qed.

End Reconciler.

(** ** The crawler (crawlers/watchman.ts) *)
Section MergeLoop.

Import Watchman.

Variable path : PathModule.
Variable rootDir : string.

Implicit Types (st : MergeState) (fd : WatchmanFile) (prev : FileData).

(** In a fresh crawl one turn of the inner loop removes from [removedFiles]
    exactly the path of a file that exists and was tracked. *)
Lemma mergeFile_fresh_removed prev fsRoot st fd p :
  ms_removedFiles (mergeFile path rootDir true prev fsRoot st fd) !! p =
    if reports_existing path rootDir fsRoot p fd && bool_decide (is_Some (prev !! p))
    then None
    else ms_removedFiles st !! p.
Proof.
  unfold mergeFile, reports_existing, relativeFilePath.
  set (rel := relative path rootDir _).
  destruct (wf_exists fd) eqn:Hex; simpl.
  - rewrite andb_true_r.
    assert (Hrem : (if bool_decide (is_Some (prev !! rel))
                    then delete rel (ms_removedFiles st) else ms_removedFiles st) !! p =
                   if (rel =? p) && bool_decide (is_Some (prev !! p)) then None
                   else ms_removedFiles st !! p).
    { destruct (String.eqb_spec rel p) as [->|Hne]; simpl.
      - case_bool_decide; [by rewrite lookup_delete_eq|done].
      - case_bool_decide; [by rewrite lookup_delete_ne|done]. }
    destruct (truthy _); simpl; exact Hrem.
  - destruct (prev !! rel); simpl; done.
Qed.

Lemma mergeFiles_fresh_removed prev fsRoot fds st p :
  ms_removedFiles (foldl (mergeFile path rootDir true prev fsRoot) st fds) !! p =
    if existsb (reports_existing path rootDir fsRoot p) fds
       && bool_decide (is_Some (prev !! p))
    then None
    else ms_removedFiles st !! p.
Proof.
  revert st. induction fds as [|fd fds IH]; intros st; simpl; [done|].
  rewrite IH, mergeFile_fresh_removed.
  destruct (reports_existing path rootDir fsRoot p fd), (existsb _ fds); simpl; try done.
  by destruct (bool_decide _).
Qed.

Lemma mergeResponses_fresh_removed prev entries st p :
  ms_removedFiles (foldl (mergeResponse path rootDir true prev) st entries) !! p =
    if reported_existing path rootDir entries p && bool_decide (is_Some (prev !! p))
    then None
    else ms_removedFiles st !! p.
Proof.
  revert st. induction entries as [|e entries IH]; intros st; simpl; [done|].
  rewrite IH. unfold mergeResponse. rewrite mergeFiles_fresh_removed. simpl.
  unfold reported_existing. simpl.
  destruct (existsb _ (qr_files e.2)), (existsb _ entries); simpl; try done.
  by destruct (bool_decide _).
Qed.

(** The keys of the roots map stay distinct. *)
Lemma getWathmanRoots_NoDup client roots hash out :
  NoDup (List.map fst hash) ->
  getWathmanRoots client roots hash = Ok out ->
  NoDup (List.map fst out).
Proof.
  revert hash. induction roots as [|root roots IH]; intros hash Hnd; simpl.
  - by intros [= <-].
  - destruct (cmd (watch_project client root)) as [response|e]; [|done].
    apply IH.
    destruct (match alist_get _ hash with Some dirs => _ | None => true end); [|done].
    destruct (truthy _); by apply alist_set_NoDup.
Qed.

(** Over distinct roots, the queries append one response per root and
    [isFresh] is the disjunction over those that are not source-control
    queries. *)
Lemma queryWatchmanForDirs_results client clocks defaultExpr fields extensions
    mappings acc found :
  NoDup (List.map fst mappings) ->
  (forall k, k ∈ List.map fst mappings -> k ∉ List.map fst (results acc)) ->
  queryWatchmanForDirs path client clocks rootDir defaultExpr fields extensions
    mappings acc = Ok found ->
  exists news,
    results found = (results acc ++ news)%list /\
    List.map fst news = List.map fst mappings /\
    isFresh found = isFresh acc || existsb (fresh_response path rootDir clocks) news.
Proof.
  revert acc. induction mappings as [|[root dirs] mappings IH]; intros acc Hnd Hfresh; simpl.
  - intros [= <-]. exists []. by rewrite app_nil_r, orb_false_r.
  - destruct (cmd _) as [response|e]; [|done]. intros Hq.
    apply NoDup_cons in Hnd as [Hroot Hnd].
    assert (Hnew : alist_set root response (results acc)
                   = (results acc ++ [(root, response)])%list).
    { apply alist_set_new, alist_get_None, Hfresh. simpl. apply elem_of_cons. by left. }
    apply IH in Hq as (news & Hres & Hkeys & Hfr); [|done|].
    + simpl in *. exists ((root, response) :: news). rewrite Hnew in Hres.
      split; [by rewrite Hres, <- app_assoc|]. split; [by rewrite <- Hkeys|].
      rewrite Hfr. unfold fresh_response at 2. simpl.
      destruct (negb (isSourceControlQuery _)); simpl; [by rewrite orb_assoc|done].
    + simpl. intros k Hk. rewrite Hnew, map_app. simpl.
      rewrite elem_of_app, list_elem_of_singleton. intros [Hin| ->]; [|done].
      eapply Hfresh; [|done]. simpl. apply elem_of_cons. by right.
Qed.

End MergeLoop.

(** In a fresh crawl over responses that list every path at most once, the
    new [files] holds exactly the paths reported as existing. *)
Section FreshFiles.

Import Watchman.

Variable path : PathModule.
Variable rootDir : string.
Hypothesis sep_nonempty : sep path <> "".

Implicit Types (st : MergeState) (fd : WatchmanFile) (prev : FileData).

Lemma filePath_truthy fsRoot name : truthy (fsRoot ++ sep path ++ name) = true.
Proof.
  unfold truthy. destruct fsRoot; simpl; [|done].
  by destruct (sep path).
Qed.

Lemma reports_existing_path fsRoot p fd :
  reports_existing path rootDir fsRoot p fd = true ->
  p = relativeFilePath path rootDir fsRoot fd.
Proof.
  unfold reports_existing. intros [_ Heq]%andb_true_iff.
  by apply String.eqb_eq in Heq.
Qed.

Lemma mergeFile_fresh_files prev fsRoot st fd p :
  ms_files st !! relativeFilePath path rootDir fsRoot fd = None ->
  is_Some (ms_files (mergeFile path rootDir true prev fsRoot st fd) !! p) <->
  is_Some (ms_files st !! p) \/ reports_existing path rootDir fsRoot p fd = true.
Proof.
  intros Hnone. unfold mergeFile, reports_existing.
  fold (relativeFilePath path rootDir fsRoot fd).
  set (q := relativeFilePath path rootDir fsRoot fd) in *.
  destruct (wf_exists fd); simpl.
  - rewrite filePath_truthy. simpl.
    destruct (String.eqb_spec q p) as [->|Hne].
    + rewrite lookup_insert_eq. split; [by right|by eauto].
    + rewrite lookup_insert_ne by done. split; [by left|]. by intros [?|?].
  - destruct (prev !! q); simpl.
    + destruct (decide (q = p)) as [<-|Hne].
      * rewrite lookup_delete_eq, Hnone. split; [by intros [? ?]|by intros [[? ?]|?]].
      * rewrite lookup_delete_ne by done. split; [by left|]. by intros [?|?].
    + split; [by left|]. by intros [?|?].
Qed.

Lemma mergeFiles_fresh_files prev fsRoot fds st p :
  NoDup (List.map (relativeFilePath path rootDir fsRoot) fds) ->
  (forall q, q ∈ List.map (relativeFilePath path rootDir fsRoot) fds ->
             ms_files st !! q = None) ->
  is_Some (ms_files (foldl (mergeFile path rootDir true prev fsRoot) st fds) !! p) <->
  is_Some (ms_files st !! p)
  \/ existsb (reports_existing path rootDir fsRoot p) fds = true.
Proof.
  revert st. induction fds as [|fd fds IH]; intros st Hnd Hnone; simpl.
  - split; [by left|]. by intros [?|?].
  - simpl in Hnd. apply NoDup_cons in Hnd as [Hq Hnd].
    assert (Hfd : ms_files st !! relativeFilePath path rootDir fsRoot fd = None).
    { apply Hnone. simpl. apply elem_of_cons. by left. }
    rewrite IH; [|done|].
    + rewrite (mergeFile_fresh_files _ _ _ _ _ Hfd), orb_true_iff. tauto.
    + intros q Hin.
      destruct (ms_files (mergeFile path rootDir true prev fsRoot st fd) !! q) eqn:E;
        [|done].
      assert (Hs : is_Some (ms_files (mergeFile path rootDir true prev fsRoot st fd) !! q))
        by (by rewrite E).
      apply (mergeFile_fresh_files _ _ _ _ _ Hfd) in Hs as [Hs|Hs].
      * rewrite Hnone in Hs; [by destruct Hs|]. simpl. apply elem_of_cons. by right.
      * apply reports_existing_path in Hs as ->. done.
Qed.

Lemma mergeResponses_fresh_files prev entries st p :
  NoDup (reported_paths path rootDir entries) ->
  (forall q, q ∈ reported_paths path rootDir entries -> ms_files st !! q = None) ->
  is_Some (ms_files (foldl (mergeResponse path rootDir true prev) st entries) !! p) <->
  is_Some (ms_files st !! p) \/ reported_existing path rootDir entries p = true.
Proof.
  revert st. induction entries as [|e entries IH]; intros st Hnd Hnone; simpl.
  - split; [by left|]. by intros [?|?].
  - simpl in Hnd. apply NoDup_app in Hnd as (Hnd1 & Hdisj & Hnd2).
    set (fsRoot := normalizePathSep path e.1) in *.
    assert (Hinner : forall q,
      is_Some (ms_files (mergeResponse path rootDir true prev st e) !! q) <->
      is_Some (ms_files st !! q)
      \/ existsb (reports_existing path rootDir fsRoot q) (qr_files e.2) = true).
    { intros q. unfold mergeResponse. fold fsRoot.
      rewrite (mergeFiles_fresh_files prev fsRoot (qr_files e.2) _ q Hnd1); [done|].
      intros q' Hq'. simpl. apply Hnone. simpl. apply elem_of_app. by left. }
    rewrite IH; [|done|].
    + rewrite Hinner. unfold reported_existing. simpl. fold fsRoot.
      rewrite orb_true_iff. tauto.
    + intros q Hin.
      destruct (ms_files (mergeResponse path rootDir true prev st e) !! q) eqn:E; [|done].
      assert (Hs : is_Some (ms_files (mergeResponse path rootDir true prev st e) !! q))
        by (by rewrite E).
      apply Hinner in Hs as [Hs|Hs].
      * rewrite Hnone in Hs; [by destruct Hs|]. simpl. apply elem_of_app. by right.
      * apply existsb_exists in Hs as (fd & Hfd & Hrep).
        apply reports_existing_path in Hrep as ->.
        exfalso. eapply Hdisj; [|exact Hin].
        apply list_elem_of_In, in_map, Hfd.
Qed.

End FreshFiles.

Section NextData.

Import Watchman.

Lemma checked_sha1hex_Some sha1hex s :
  checked_sha1hex sha1hex = Some s <-> sha1hex = Some s /\ String.length s = 40%nat.
Proof.
  unfold checked_sha1hex. destruct sha1hex as [t|].
  - destruct (Nat.eqb_spec (String.length t) 40) as [Hl|Hl]; simpl.
    + split; [by intros [= ->]|by intros [[= ->] _]].
    + split; [done|]. intros [[= ->] ?]. done.
  - split; [done|by intros [? _]].
Qed.

Lemma truthy_length_40 s : String.length s = 40%nat -> truthy s = true.
Proof. by destruct s. Qed.

(** The three branches of [nextData]. *)
Lemma nextData_cases existing fd :
  let mtime := mtime_of (wf_mtime_ms fd) in
  let sha1 := checked_sha1hex (wf_sha1hex fd) in
  (forall e, existing = Some e -> fm_mtime e = mtime -> nextData existing fd = e) /\
  (forall e s, existing = Some e -> fm_mtime e <> mtime ->
     wf_sha1hex fd = Some s -> String.length s = 40%nat -> fm_sha1 e = Some s ->
     nextData existing fd = with_mtime e mtime) /\
  (forall e, existing = Some e -> fm_mtime e <> mtime ->
     (sha1 = None \/ fm_sha1 e <> sha1) ->
     nextData existing fd = pristine mtime (wf_size fd) sha1) /\
  (existing = None -> nextData existing fd = pristine mtime (wf_size fd) sha1).
Proof.
  intros mtime sha1. unfold nextData. fold mtime. fold sha1.
  repeat split.
  - intros e -> Hm. by rewrite (proj2 (Z.eqb_eq _ _) Hm).
  - intros e s -> Hm Hs Hl He.
    rewrite (proj2 (Z.eqb_neq _ _) Hm).
    assert (Hc : sha1 = Some s) by (by apply checked_sha1hex_Some).
    rewrite Hc. simpl. rewrite (truthy_length_40 _ Hl). simpl.
    by rewrite bool_decide_eq_true_2.
  - intros e -> Hm Hor.
    rewrite (proj2 (Z.eqb_neq _ _) Hm).
    destruct Hor as [Hn|Hne].
    + by rewrite Hn.
    + rewrite (bool_decide_eq_false_2 _ Hne). by rewrite andb_false_r.
  - by intros ->.
Qed.

(** C5 (as amended): for a response file that exists, the crawler records
    one entry under the file's relative path, in [files] and in
    [changedFiles].  The digest it goes by is the supplied string when that
    has exactly forty characters (whatever they are) and absent otherwise.
    The entry is the previous one when that has the same mtime; the previous
    one with only the mtime refreshed when the mtime differs and the digest is
    present and equal to the previous digest; and otherwise a pristine entry:
    empty haste id, the new mtime and size, not visited, no dependencies, and
    that digest. *)
Theorem crawler_records_next_entry (path : PathModule) (rootDir : string)
    (fresh : bool) (previousFiles : FileData) (fsRoot : string)
    (st : MergeState) (fd : WatchmanFile) :
  wf_exists fd = true ->
  sep path <> "" ->
  let p := relativeFilePath path rootDir fsRoot fd in
  let existing := (if fresh then previousFiles else ms_files st) !! p in
  let mtime := mtime_of (wf_mtime_ms fd) in
  let sha1 := checked_sha1hex (wf_sha1hex fd) in
  let st' := mergeFile path rootDir fresh previousFiles fsRoot st fd in
  exists entry,
    ms_files st' !! p = Some entry /\
    ms_changedFiles st' !! p = Some entry /\
    (forall s, sha1 = Some s <-> wf_sha1hex fd = Some s /\ String.length s = 40%nat) /\
    (forall e, existing = Some e -> fm_mtime e = mtime -> entry = e) /\
    (forall e s, existing = Some e -> fm_mtime e <> mtime ->
       sha1 = Some s -> fm_sha1 e = Some s -> entry = with_mtime e mtime) /\
    (forall e, existing = Some e -> fm_mtime e <> mtime ->
       (sha1 = None \/ fm_sha1 e <> sha1) ->
       entry = pristine mtime (wf_size fd) sha1) /\
    (existing = None -> entry = pristine mtime (wf_size fd) sha1).
Proof.
  intros Hex Hsep p existing mtime sha1 st'.
  assert (Htr : truthy (fsRoot ++ sep path ++ normalizePathSep path (wf_name fd)) = true).
  { unfold truthy. destruct fsRoot; simpl; [|done].
    destruct (sep path); [done|done]. }
  exists (nextData existing fd).
  subst st'. unfold mergeFile. rewrite Hex. simpl. rewrite Htr.
  fold (relativeFilePath path rootDir fsRoot fd). fold p. fold existing. simpl.
  rewrite !lookup_insert_eq.
  destruct (nextData_cases existing fd) as (H1 & H2 & H3 & H4).
  split; [done|]. split; [done|].
  split; [intros s; apply checked_sha1hex_Some|].
  split; [exact H1|]. split; [|split; [exact H3|exact H4]].
  intros e s He Hm Hs Hf.
  apply checked_sha1hex_Some in Hs as [Hs Hl]. by eapply H2.
Qed.

(** The amended C5 on b.js of the restarted watchman: tracked with mtime 5,
    listed with mtime 6 and no digest, it is recorded as a pristine entry. *)
Lemma crawler_records_next_entry_witness :
  exists entry,
    ms_files (mergeFile posix "/r" true (hm_files three_files) "/r"
                (initialState three_files true) (listed "b.js" 6)) !! "b.js"
      = Some entry /\
    entry = pristine 6 10 None.
Proof.
  destruct (crawler_records_next_entry posix "/r" true (hm_files three_files) "/r"
              (initialState three_files true) (listed "b.js" 6)
              eq_refl ltac:(discriminate))
    as (entry & Hfiles & _ & _ & _ & _ & Hpristine & _).
  exists entry. split; [exact Hfiles|].
  apply (Hpristine (meta "" 5)); [reflexivity|discriminate|by left].
Defined.

(** C5 as stated fails: a supplied digest of forty characters that are not
    hexadecimal digits is not "a valid 40-hex string", yet the crawler records
    it in the pristine entry instead of leaving the digest absent. *)
Lemma crawler_keeps_non_hex_digest :
  spec_valid_sha1hex forty_z = false /\
  ms_files (mergeFile posix "/r" false ∅ "/r"
              (initialState HasteMap._createEmptyMap false) listed_with_digest) !! "a.js"
    = Some (pristine 7 3 (Some forty_z)).
Proof. vm_compute. done. Qed.

End NextData.

Section Crawl.

Import Watchman.

Variables (path : PathModule) (client : WatchmanClient) (options : CrawlerOptions).

(** The flag the queries return is true exactly when the response stored
    for some watch root reports a fresh instance and was not asked for by a
    source-control query. *)
Lemma crawlQueries_isFresh found :
  crawlQueries path client options = Ok found ->
  isFresh found =
    existsb (fresh_response path (co_rootDir options) (hm_clocks (co_data options)))
            (results found).
Proof.
  unfold crawlQueries.
  destruct (capabilityCheck client) as [caps|]; [simpl|done].
  destruct (_ : result (list string)) as [fields|]; [simpl|done].
  destruct (getWathmanRoots _ _ _) as [roots|] eqn:Hroots; [simpl|done].
  intros Hq.
  apply getWathmanRoots_NoDup in Hroots; [|apply NoDup_nil_2].
  apply queryWatchmanForDirs_results in Hq as (news & Hres & _ & Hfr); [|done|].
  - simpl in *. by rewrite Hfr, Hres.
  - simpl. intros k _. apply not_elem_of_nil.
Qed.

(** C9: once the queries have answered and the client raised no error, the
    crawl returns; its [changedFiles] is absent when some non-SCM response
    reported a fresh instance, whatever the merge accumulated, and is the
    accumulated changed-file map otherwise. *)
Theorem watchmanCrawl_changedFiles found :
  crawlQueries path client options = Ok found ->
  error_event client = None ->
  exists out,
    watchmanCrawl path client options = Ok out /\
    cr_changedFiles out =
      if existsb (fresh_response path (co_rootDir options) (hm_clocks (co_data options)))
                 (results found)
      then None
      else Some (ms_changedFiles
                   (mergeResults path (co_rootDir options) (co_data options) found)).
Proof.
  intros Hq Hev. unfold watchmanCrawl. rewrite Hq. simpl. rewrite Hev.
  eexists. split; [reflexivity|]. simpl.
  by rewrite (crawlQueries_isFresh _ Hq).
Qed.

(** C4: when some non-SCM response reports a fresh instance, the merge
    starts with [files] empty and [removedFiles] equal to the previous
    [files], and the crawl returns a [removedFiles] that holds, with its
    previous metadata, every previously tracked path that no response reports
    as existing, and nothing else.  When the responses list every path at
    most once, that is every previously tracked path that is absent from the
    new [files]. *)
Theorem watchmanCrawl_fresh_removedFiles found :
  crawlQueries path client options = Ok found ->
  error_event client = None ->
  existsb (fresh_response path (co_rootDir options) (hm_clocks (co_data options)))
          (results found) = true ->
  ms_files (initialState (co_data options) (isFresh found)) = ∅ /\
  ms_removedFiles (initialState (co_data options) (isFresh found))
    = hm_files (co_data options) /\
  exists out,
    watchmanCrawl path client options = Ok out /\
    (forall p,
       cr_removedFiles out !! p =
         if reported_existing path (co_rootDir options) (results found) p then None
         else hm_files (co_data options) !! p) /\
    (sep path <> "" ->
     NoDup (reported_paths path (co_rootDir options) (results found)) ->
     forall p,
       cr_removedFiles out !! p =
         match hm_files (cr_hasteMap out) !! p with
         | Some _ => None
         | None => hm_files (co_data options) !! p
         end).
Proof.
  intros Hq Hev Hfresh.
  pose proof (crawlQueries_isFresh _ Hq) as Hf. rewrite Hfresh in Hf.
  rewrite Hf. simpl. split; [done|]. split; [done|].
  unfold watchmanCrawl. rewrite Hq. simpl. rewrite Hev.
  eexists. split; [reflexivity|]. simpl.
  assert (Hremoved : forall p,
    ms_removedFiles (mergeResults path (co_rootDir options) (co_data options) found) !! p =
      if reported_existing path (co_rootDir options) (results found) p then None
      else hm_files (co_data options) !! p).
  { intros p. unfold mergeResults. rewrite Hf, mergeResponses_fresh_removed. simpl.
    destruct (reported_existing _ _ _ _); simpl; [|done].
    case_bool_decide as Hs; [done|].
    symmetry. by apply eq_None_not_Some in Hs. }
  split; [exact Hremoved|].
  intros Hsep Hnd p. rewrite Hremoved.
  assert (Hfiles :
    is_Some (ms_files (mergeResults path (co_rootDir options) (co_data options) found) !! p)
    <-> reported_existing path (co_rootDir options) (results found) p = true).
  { unfold mergeResults. rewrite Hf.
    rewrite (mergeResponses_fresh_files path (co_rootDir options) Hsep _ _ _ p Hnd).
    - simpl. rewrite lookup_empty. split; [|by right].
      intros [[? ?]|?]; done.
    - intros q _. simpl. apply lookup_empty. }
  destruct (reported_existing _ _ _ _) eqn:Hrep.
  - destruct (proj2 Hfiles eq_refl) as [x ->]. done.
  - destruct (ms_files _ !! p) eqn:E; [|done].
    assert (Hs : is_Some (Some f)) by eauto.
    apply Hfiles in Hs. done.
Qed.

End Crawl.

(** The restarted watchman answers the queries of the example crawl. *)
Lemma restarted_queries :
  Watchman.crawlQueries posix restarted_client crawl_options = Ok restarted_results.
Proof. vm_compute. reflexivity. Qed.

(** C9 on the restarted watchman: the merge accumulates a.js and b.js as
    changed, and the crawl returns no [changedFiles]. *)
Lemma watchmanCrawl_changedFiles_witness :
  exists out,
    Watchman.watchmanCrawl posix restarted_client crawl_options = Ok out /\
    Watchman.cr_changedFiles out = None.
Proof.
  exact (watchmanCrawl_changedFiles posix restarted_client crawl_options
           restarted_results restarted_queries eq_refl).
Defined.

(** C4 on the restarted watchman: of a.js, b.js and c.js only c.js is not
    listed, and it is what [removedFiles] holds. *)
Lemma watchmanCrawl_fresh_removedFiles_witness :
  exists out,
    Watchman.watchmanCrawl posix restarted_client crawl_options = Ok out /\
    Watchman.cr_removedFiles out !! "a.js" = None /\
    Watchman.cr_removedFiles out !! "b.js" = None /\
    Watchman.cr_removedFiles out !! "c.js" = Some (meta "" 5) /\
    hm_files (Watchman.cr_hasteMap out) !! "c.js" = None.
Proof.
  destruct (watchmanCrawl_fresh_removedFiles posix restarted_client crawl_options
              restarted_results restarted_queries eq_refl eq_refl)
    as (_ & _ & out & Hout & Hremoved & Hdiff).
  exists out. split; [exact Hout|].
  split; [exact (Hremoved "a.js")|].
  split; [exact (Hremoved "b.js")|].
  split; [exact (Hremoved "c.js")|].
  assert (Hnd : NoDup (reported_paths posix "/r" (Watchman.results restarted_results))).
  { apply (bool_decide_unpack _). vm_compute. exact I. }
  pose proof (Hdiff ltac:(discriminate) Hnd "c.js") as Hc.
  rewrite (Hremoved "c.js") in Hc.
  destruct (hm_files (Watchman.cr_hasteMap out) !! "c.js"); [discriminate Hc|reflexivity].
Defined.

(** ** The worker (worker.ts) *)
Section PackageJson.

Import Worker.

Variables (path : PathModule) (env : WorkerEnv).

Lemma worker_body_package_json st data :
  endsWith (filePath data) (HasteMap.PACKAGE_JSON path) = true ->
  snd (loadHasteImpl env st data) = Ok () ->
  worker_body path env st data =
    (fst (loadHasteImpl env st data), processPackageJson path env data no_locals).
Proof.
  intros Hend Hload. unfold worker_body.
  destruct (loadHasteImpl env st data) as [st1 [[]|e]]; simpl in *; [|done].
  by rewrite Hend.
Qed.

(** Whatever the body computed, the promise of [worker] resolves to
    [undefined]. *)
Lemma worker_resolves_to_undefined st data st1 l :
  worker_body path env st data = (st1, Ok l) ->
  worker path env st data = (st1, Ok Undefined).
Proof. intros Hb. unfold worker. by rewrite Hb. Qed.

(** X27: for a file whose path ends with [sep ++ "package.json"], once the
    haste implementation is settled, the body of the worker reads the file
    and parses it as JSON.  A failure to read, to parse, or to read [name]
    off the parsed value (a [null]) makes it throw what the [catch] block
    throws for the failure: the error "Cannot parse <path> as JSON: ..."
    with the message of the failure, unless the failure is [null] or
    [undefined].  A truthy [name] makes the body set [id] to it and
    [module] to (path relative to rootDir, Package); a missing or falsy
    [name] leaves both unset. *)
Theorem worker_package_json st data :
  endsWith (filePath data) (HasteMap.PACKAGE_JSON path) = true ->
  snd (loadHasteImpl env st data) = Ok () ->
  let st1 := fst (loadHasteImpl env st data) in
  (forall e, readFileSync env (filePath data) = Throw e ->
     worker_body path env st data = (st1, Throw (cannotParse (filePath data) e))) /\
  (forall text e,
     readFileSync env (filePath data) = Ok text -> JSON_parse env text = Throw e ->
     worker_body path env st data = (st1, Throw (cannotParse (filePath data) e))) /\
  (forall text fileData e,
     readFileSync env (filePath data) = Ok text -> JSON_parse env text = Ok fileData ->
     get_name fileData = Throw e ->
     worker_body path env st data = (st1, Throw (cannotParse (filePath data) e))) /\
  (forall text fileData name,
     readFileSync env (filePath data) = Ok text -> JSON_parse env text = Ok fileData ->
     get_name fileData = Ok (Some name) -> js_truthy name = true ->
     exists l,
       worker_body path env st data = (st1, Ok l) /\
       id l = Some name /\
       module l = Some (relative path (rootDir data) (filePath data), H.PACKAGE)) /\
  (forall text fileData name,
     readFileSync env (filePath data) = Ok text -> JSON_parse env text = Ok fileData ->
     get_name fileData = Ok name -> js_truthy_opt name = false ->
     exists l,
       worker_body path env st data = (st1, Ok l) /\ id l = None /\ module l = None) /\
  (forall e, read_property e "message" = Ok tt ->
     message_text (cannotParse (filePath data) e) =
       "Cannot parse " ++ filePath data ++ " as JSON: " ++ message_text e).
Proof.
  intros Hend Hload st1.
  rewrite (worker_body_package_json _ _ Hend Hload). fold st1.
  unfold processPackageJson, getContent. simpl.
  repeat split.
  - intros e ->. done.
  - intros text e -> He. simpl. by rewrite He.
  - intros text fileData e -> Hp Hn. simpl. rewrite Hp. simpl. by rewrite Hn.
  - intros text fileData name -> Hp Hn Ht. simpl. rewrite Hp. simpl. rewrite Hn. simpl.
    rewrite Ht. eexists. split; [reflexivity|]. done.
  - intros text fileData name -> Hp Hn Ht. simpl. rewrite Hp. simpl. rewrite Hn. simpl.
    rewrite Ht. eexists. split; [reflexivity|]. done.
  - intros e He. unfold cannotParse. by rewrite He.
Qed.

End PackageJson.

(** C7, evaluated at the spec's scenario S4: /r/package.json holds
    [{"name":"pkg"}].  The body of the worker reads and parses the file and
    computes the id pkg and the module (package.json, Package), but
    [worker] ends without a [return]: its promise resolves to [undefined],
    so the result carries neither the id nor the module. *)
Lemma worker_package_json_result_is_lost :
  let env :=
    package_env named_pkg_text (Ok (Worker.JObject [("name", Worker.JString "pkg")])) in
  Worker.worker_body posix env fresh_module package_message
  = (fresh_module,
     Ok {| Worker.content := Some named_pkg_text; Worker.dependencies := None;
           Worker.id := Some (Worker.JString "pkg");
           Worker.module := Some ("package.json", H.PACKAGE);
           Worker.sha1 := None |}) /\
  Worker.worker posix env fresh_module package_message = (fresh_module, Ok Undefined).
Proof. vm_compute. done. Qed.

(** X27 on a package.json that holds [{"name":"pkg"}]. *)
Lemma worker_package_json_witness :
  exists l,
    Worker.worker_body posix
      (package_env named_pkg_text
         (Ok (Worker.JObject [("name", Worker.JString "pkg")])))
      fresh_module package_message = (fresh_module, Ok l) /\
    Worker.id l = Some (Worker.JString "pkg") /\
    Worker.module l = Some ("package.json", H.PACKAGE).
Proof.
  exact (proj1 (proj2 (proj2 (proj2
           (worker_package_json posix
              (package_env named_pkg_text
                 (Ok (Worker.JObject [("name", Worker.JString "pkg")])))
              fresh_module package_message eq_refl eq_refl))))
           named_pkg_text (Worker.JObject [("name", Worker.JString "pkg")])
           (Worker.JString "pkg") eq_refl eq_refl eq_refl eq_refl).
Defined.

(** The guard on [name] is a truthiness test: /r/package.json holds
    [{"name":""}]; the parsed object has a [name] field, yet the body sets
    neither [id] nor [module]. *)
Lemma worker_ignores_empty_name :
  Worker.get_name (Worker.JObject [("name", Worker.JString "")])
    = Ok (Some (Worker.JString "")) /\
  Worker.worker_body posix
    (package_env empty_name_text (Ok (Worker.JObject [("name", Worker.JString "")])))
    fresh_module package_message
  = (fresh_module,
     Ok {| Worker.content := Some empty_name_text; Worker.dependencies := None;
           Worker.id := None; Worker.module := None; Worker.sha1 := None |}).
Proof. vm_compute. done. Qed.

(** * Further properties of the reconciler *)

Section MoreReconciler.

Import HasteMap.

Implicit Types (hm : InternalHasteMap) (dbp : gmap string DuplicatesSet)
  (dups : DuplicatesSet).

Lemma recoverDuplicates_components hm p name :
  hm_files (_recoverDuplicates hm p name) = hm_files hm /\
  hm_clocks (_recoverDuplicates hm p name) = hm_clocks hm /\
  hm_mocks (_recoverDuplicates hm p name) = hm_mocks hm /\
  (forall other, other <> name ->
     hm_map (_recoverDuplicates hm p name) !! other = hm_map hm !! other /\
     hm_duplicates (_recoverDuplicates hm p name) !! other = hm_duplicates hm !! other).
Proof.
  destruct (hm_duplicates hm !! name) as [dbp|] eqn:H1.
  2:{ unfold _recoverDuplicates. rewrite H1. done. }
  destruct (dbp !! H.GENERIC_PLATFORM) as [dups|] eqn:H2.
  2:{ unfold _recoverDuplicates. rewrite H1, H2. done. }
  rewrite (recoverDuplicates_unfold _ _ _ _ _ H1 H2). cbv zeta.
  destruct (negb _).
  { simpl. repeat split; try done. by rewrite lookup_insert_ne. }
  destruct (map_to_list _) as [|u l].
  { simpl. repeat split; try done. by rewrite lookup_insert_ne. }
  simpl. repeat split; try done.
  - by rewrite lookup_insert_ne.
  - case_decide; [by rewrite lookup_delete_ne|by rewrite lookup_insert_ne].
Qed.

(** X1: [_recoverDuplicates] for the name [name] leaves [files], [clocks]
    and [mocks] as they are, and in [map] and [duplicates] it touches the
    entry of [name] only. *)
Theorem recoverDuplicates_frame hm p name :
  let hm' := _recoverDuplicates hm p name in
  hm_files hm' = hm_files hm /\
  hm_clocks hm' = hm_clocks hm /\
  hm_mocks hm' = hm_mocks hm /\
  (forall other, other <> name ->
     hm_map hm' !! other = hm_map hm !! other /\
     hm_duplicates hm' !! other = hm_duplicates hm !! other).
Proof. apply recoverDuplicates_components. Qed.

(** X2: [_recoverDuplicates] never records a contender: whatever
    [duplicates] holds afterwards for an id, a platform and a file was there
    before with the same kind, and it is not the removed file under the
    recovered name on the generic platform. *)
Theorem recoverDuplicates_adds_no_contender hm p name id platform file (kind : Z) :
  contender (hm_duplicates (_recoverDuplicates hm p name)) id platform file = Some kind ->
  contender (hm_duplicates hm) id platform file = Some kind /\
  ~ (id = name /\ platform = H.GENERIC_PLATFORM /\ file = p).
Proof.
  unfold contender.
  destruct (decide (id = name)) as [->|Hne].
  2:{ destruct (recoverDuplicates_components hm p name) as (_ & _ & _ & Hother).
      destruct (Hother id Hne) as [_ ->].
      intros ?. split; [done|]. by intros [? _]. }
  destruct (hm_duplicates hm !! name) as [dbp|] eqn:H1.
  2:{ unfold _recoverDuplicates. rewrite H1. simpl. rewrite H1. done. }
  destruct (dbp !! H.GENERIC_PLATFORM) as [dups|] eqn:H2.
  2:{ unfold _recoverDuplicates. rewrite H1, H2. rewrite H1. simpl. intros Hk.
      split; [done|]. intros (_ & -> & _). by rewrite H2 in Hk. }
  rewrite (recoverDuplicates_unfold _ _ _ _ _ H1 H2). cbv zeta.
  assert (Hgen : forall (rest : gmap string DuplicatesSet),
            (forall q, q <> H.GENERIC_PLATFORM -> rest !! q = dbp !! q) ->
            (rest !! H.GENERIC_PLATFORM = None \/
             rest !! H.GENERIC_PLATFORM = Some (delete p dups)) ->
            match rest !! platform with Some d => d !! file | None => None end = Some kind ->
            match dbp !! platform with Some d => d !! file | None => None end = Some kind /\
            ~ (name = name /\ platform = H.GENERIC_PLATFORM /\ file = p)).
  { intros rest Hother Hg Hk.
    destruct (decide (platform = H.GENERIC_PLATFORM)) as [->|Hp].
    - destruct Hg as [Hg|Hg]; rewrite Hg in Hk; [done|].
      rewrite H2.
      destruct (decide (file = p)) as [->|Hf].
      + by rewrite lookup_delete_eq in Hk.
      + rewrite lookup_delete_ne in Hk by done. split; [done|]. by intros (_ & _ & ?).
    - rewrite Hother in Hk by done. split; [done|]. by intros (_ & ? & _). }
  destruct (negb _).
  { simpl. rewrite lookup_insert_eq. apply Hgen.
    - intros q Hq. by rewrite lookup_insert_ne.
    - right. by rewrite lookup_insert_eq. }
  destruct (map_to_list _) as [|u l].
  { simpl. rewrite lookup_insert_eq. apply Hgen.
    - intros q Hq. by rewrite lookup_insert_ne.
    - right. by rewrite lookup_insert_eq. }
  simpl. case_decide.
  - rewrite lookup_delete_eq. done.
  - rewrite lookup_insert_eq. apply Hgen.
    + intros q Hq. by rewrite lookup_delete_ne.
    + left. by rewrite lookup_delete_eq.
Qed.


Lemma recoverDuplicates_promote_eq hm p name dbp dups q (k : Z) :
  hm_duplicates hm !! name = Some dbp ->
  dbp !! H.GENERIC_PLATFORM = Some dups ->
  delete p dups = {[ q := k ]} ->
  hm_map (_recoverDuplicates hm p name) =
    <[name := <[H.GENERIC_PLATFORM := (q, k)]> (default ∅ (hm_map hm !! name))]> (hm_map hm) /\
  hm_duplicates (_recoverDuplicates hm p name) =
    (if decide (delete H.GENERIC_PLATFORM dbp = ∅) then delete name (hm_duplicates hm)
     else <[name := delete H.GENERIC_PLATFORM dbp]> (hm_duplicates hm)).
Proof.
  intros H1 H2 Hd.
  rewrite (recoverDuplicates_unfold _ _ _ _ _ H1 H2). cbv zeta.
  by rewrite Hd, map_size_singleton, map_to_list_singleton.
Qed.

Lemma recoverDuplicates_promoted_generic_gone hm p name dbp dups q (k : Z) :
  hm_duplicates hm !! name = Some dbp ->
  dbp !! H.GENERIC_PLATFORM = Some dups ->
  delete p dups = {[ q := k ]} ->
  forall dbp', hm_duplicates (_recoverDuplicates hm p name) !! name = Some dbp' ->
               dbp' !! H.GENERIC_PLATFORM = None.
Proof.
  intros H1 H2 Hd dbp'.
  destruct (recoverDuplicates_promote_eq _ _ _ _ _ _ _ H1 H2 Hd) as [_ ->].
  case_decide.
  - by rewrite lookup_delete_eq.
  - rewrite lookup_insert_eq. intros [= <-]. by rewrite lookup_delete_eq.
Qed.

(** X3: when removing [p] leaves the single contender [q] for [name] on
    the generic platform, [name] resolves to [q] there afterwards, no
    contender for it is left on the generic platform, and the resolutions
    and contenders of [name] on every other platform are the ones from
    before. *)
Theorem recoverDuplicates_promotion hm p name dbp dups q (k : Z) :
  hm_duplicates hm !! name = Some dbp ->
  dbp !! H.GENERIC_PLATFORM = Some dups ->
  delete p dups = {[ q := k ]} ->
  let hm' := _recoverDuplicates hm p name in
  resolution (hm_map hm') name H.GENERIC_PLATFORM = Some (q, k) /\
  (forall platform, platform <> H.GENERIC_PLATFORM ->
     resolution (hm_map hm') name platform = resolution (hm_map hm) name platform /\
     forall file, contender (hm_duplicates hm') name platform file
                  = contender (hm_duplicates hm) name platform file) /\
  (forall file, contender (hm_duplicates hm') name H.GENERIC_PLATFORM file = None).
Proof.
  intros H1 H2 Hd hm'. subst hm'.
  destruct (recoverDuplicates_promote_eq _ _ _ _ _ _ _ H1 H2 Hd) as [-> ->].
  unfold resolution, contender. rewrite lookup_insert_eq.
  split; [by rewrite lookup_insert_eq|]. split.
  - intros platform Hp. rewrite lookup_insert_ne by done. split.
    + destruct (hm_map hm !! name); [done|]. simpl. apply lookup_empty.
    + intros file. rewrite H1. case_decide as Hz.
      * rewrite lookup_delete_eq.
        assert (Hn : dbp !! platform = None).
        { rewrite <- (lookup_delete_ne dbp H.GENERIC_PLATFORM platform) by done.
          by rewrite Hz, lookup_empty. }
        by rewrite Hn.
      * rewrite lookup_insert_eq. by rewrite lookup_delete_ne.
  - intros file. case_decide.
    + by rewrite lookup_delete_eq.
    + rewrite lookup_insert_eq. by rewrite lookup_delete_eq.
Qed.

(** X4: removing a file that is not among the contenders of [name] changes
    nothing, unless exactly one contender is recorded (which is then
    promoted). *)
Theorem recoverDuplicates_not_a_contender hm p name dbp dups :
  hm_duplicates hm !! name = Some dbp ->
  dbp !! H.GENERIC_PLATFORM = Some dups ->
  dups !! p = None ->
  size dups <> 1%nat ->
  _recoverDuplicates hm p name = hm.
Proof.
  intros H1 H2 Hp Hs.
  rewrite (recoverDuplicates_unfold _ _ _ _ _ H1 H2). cbv zeta.
  rewrite (delete_id _ _ Hp).
  destruct (Nat.eqb_spec (size dups) 1) as [|_]; [done|]. simpl.
  rewrite (insert_id dbp _ _ H2), (insert_id _ _ _ H1).
  by destruct hm.
Qed.

(** X5: when both contenders A and B of a name are removed in one build,
    in that order, the first removal promotes B and the second finds nothing
    to do: the name ends resolved to the removed file B in the returned
    index, while the returned [map] is empty. *)
Theorem buildHasteMap_removes_both_contenders (A B : string) (kA kB : Z)
    (metaA metaB : FileMetaData) changedFiles hm dbp :
  A <> B ->
  fm_id metaA = fm_id metaB ->
  hm_duplicates hm !! fm_id metaA = Some dbp ->
  dbp !! H.GENERIC_PLATFORM = Some {[ A := kA; B := kB ]} ->
  let r := _buildHasteMap [(A, metaA); (B, metaB)] changedFiles hm in
  bh_hasteMap r = _recoverDuplicates hm A (fm_id metaA) /\
  resolution (hm_map (bh_hasteMap r)) (fm_id metaA) H.GENERIC_PLATFORM = Some (B, kB) /\
  bh_map r = ∅.
Proof.
  intros HAB Hid H1 H2 r. subst r.
  assert (Hd : delete A ({[ A := kA; B := kB ]} : DuplicatesSet) = {[ B := kB ]}).
  { by rewrite delete_insert_eq, delete_singleton_ne. }
  assert (Hsecond : _recoverDuplicates (_recoverDuplicates hm A (fm_id metaA)) B (fm_id metaA)
                    = _recoverDuplicates hm A (fm_id metaA)).
  { pose proof (recoverDuplicates_promoted_generic_gone _ _ _ _ _ _ _ H1 H2 Hd) as Hgone.
    unfold _recoverDuplicates at 1.
    destruct (hm_duplicates (_recoverDuplicates hm A (fm_id metaA)) !! fm_id metaA)
      as [dbp'|]; [|done].
    by rewrite (Hgone dbp' eq_refl). }
  assert (Hloop : bh_hasteMap (_buildHasteMap [(A, metaA); (B, metaB)] changedFiles hm)
                  = _recoverDuplicates hm A (fm_id metaA)).
  { unfold _buildHasteMap. destruct changedFiles; simpl; by rewrite <- Hid, Hsecond. }
  rewrite Hloop. split; [done|]. split.
  - destruct (recoverDuplicates_promote_eq _ _ _ _ _ _ _ H1 H2 Hd) as [-> _].
    unfold resolution. by rewrite !lookup_insert_eq.
  - unfold _buildHasteMap. by destruct changedFiles.
Qed.

End MoreReconciler.

(** X2 where a.js is removed from the contenders on two platforms: the
    contender a.native.js found afterwards was one before. *)
Lemma recoverDuplicates_adds_no_contender_witness :
  contender (hm_duplicates two_platforms) "Foo" "native" "a.native.js" = Some H.MODULE /\
  ~ ("Foo" = "Foo" /\ "native" = H.GENERIC_PLATFORM /\ "a.native.js" = "a.js").
Proof.
  exact (recoverDuplicates_adds_no_contender two_platforms "a.js" "Foo"
           "Foo" "native" "a.native.js" H.MODULE eq_refl).
Defined.

(** X3 where a.js is removed from the contenders on two platforms: Foo
    resolves to b.js on the generic platform and keeps its native
    contenders. *)
Lemma recoverDuplicates_promotion_witness :
  resolution (hm_map (HasteMap._recoverDuplicates two_platforms "a.js" "Foo"))
             "Foo" H.GENERIC_PLATFORM = Some ("b.js", H.MODULE) /\
  contender (hm_duplicates (HasteMap._recoverDuplicates two_platforms "a.js" "Foo"))
            "Foo" "native" "b.native.js" = Some H.MODULE.
Proof.
  destruct (recoverDuplicates_promotion two_platforms "a.js" "Foo"
              {[ "g" := {[ "a.js" := H.MODULE; "b.js" := H.MODULE ]};
                 "native" := {[ "a.native.js" := H.MODULE; "b.native.js" := H.MODULE ]} ]}
              {[ "a.js" := H.MODULE; "b.js" := H.MODULE ]} "b.js" H.MODULE
              eq_refl eq_refl eq_refl) as (Hpromoted & Hother & _).
  split; [exact Hpromoted|].
  destruct (Hother "native" ltac:(discriminate)) as [_ Hkept].
  rewrite Hkept. reflexivity.
Defined.

(** X4 at c.js, which is not among the two contenders of Foo. *)
Lemma recoverDuplicates_not_a_contender_witness :
  HasteMap._recoverDuplicates two_contenders "c.js" "Foo" = two_contenders.
Proof.
  exact (recoverDuplicates_not_a_contender two_contenders "c.js" "Foo"
           {[ "g" := {[ "a.js" := H.MODULE; "b.js" := H.MODULE ]} ]}
           {[ "a.js" := H.MODULE; "b.js" := H.MODULE ]}
           eq_refl eq_refl eq_refl ltac:(vm_compute; discriminate)).
Defined.

(** X5 at the two contenders a.js and b.js of Foo, both removed. *)
Lemma buildHasteMap_removes_both_contenders_witness :
  let r := HasteMap._buildHasteMap [("a.js", meta "Foo" 1); ("b.js", meta "Foo" 1)]
             None two_contenders in
  HasteMap.bh_hasteMap r = HasteMap._recoverDuplicates two_contenders "a.js" "Foo" /\
  resolution (hm_map (HasteMap.bh_hasteMap r)) "Foo" H.GENERIC_PLATFORM
    = Some ("b.js", H.MODULE) /\
  HasteMap.bh_map r = ∅.
Proof.
  exact (buildHasteMap_removes_both_contenders "a.js" "b.js" H.MODULE H.MODULE
           (meta "Foo" 1) (meta "Foo" 1) None two_contenders
           {[ "g" := {[ "a.js" := H.MODULE; "b.js" := H.MODULE ]} ]}
           ltac:(discriminate) eq_refl eq_refl eq_refl).
Defined.

Section MoreReconciler2.

Import HasteMap.

Implicit Types (hm : InternalHasteMap) (map : ModuleMapData)
  (duplicates : DuplicatesIndex).

Lemma foldl_recoverDuplicates_components removedFiles hm :
  let hm' := foldl (fun h entry => _recoverDuplicates h entry.1 (fm_id entry.2))
                   hm removedFiles in
  hm_files hm' = hm_files hm /\
  hm_clocks hm' = hm_clocks hm /\
  hm_mocks hm' = hm_mocks hm /\
  (forall id, (forall entry, entry ∈ removedFiles -> fm_id entry.2 <> id) ->
     hm_map hm' !! id = hm_map hm !! id /\
     hm_duplicates hm' !! id = hm_duplicates hm !! id).
Proof.
  revert hm. induction removedFiles as [|[p m] l IH]; intros hm; simpl; [done|].
  destruct (IH (_recoverDuplicates hm p (fm_id m))) as (Hf & Hc & Hm & Ho).
  destruct (recoverDuplicates_components hm p (fm_id m)) as (Hf1 & Hc1 & Hm1 & Ho1).
  split; [congruence|]. split; [congruence|]. split; [congruence|].
  intros id Hid.
  assert (Hne : id <> fm_id m).
  { intros ->. apply (Hid (p, m)); [apply elem_of_cons; by left|done]. }
  destruct (Ho id) as [Ha Hb].
  { intros entry Hin. apply Hid. apply elem_of_cons. by right. }
  destruct (Ho1 id Hne) as [Ha1 Hb1].
  split; congruence.
Qed.

(** X6: [_buildHasteMap] returns the index with [files], [clocks] and
    [mocks] unchanged, and with the [map] and [duplicates] entries of every
    id that no removed file carries unchanged. *)
Theorem buildHasteMap_frame (removedFiles : list (string * FileMetaData))
    (changedFiles : option FileData) hm :
  let r := _buildHasteMap removedFiles changedFiles hm in
  hm_files (bh_hasteMap r) = hm_files hm /\
  hm_clocks (bh_hasteMap r) = hm_clocks hm /\
  hm_mocks (bh_hasteMap r) = hm_mocks hm /\
  (forall id, (forall entry, entry ∈ removedFiles -> fm_id entry.2 <> id) ->
     hm_map (bh_hasteMap r) !! id = hm_map hm !! id /\
     hm_duplicates (bh_hasteMap r) !! id = hm_duplicates hm !! id).
Proof.
  cbv zeta. unfold _buildHasteMap.
  destruct changedFiles as [c|]; [destruct (0 <? length removedFiles)%nat|];
    apply foldl_recoverDuplicates_components.
Qed.

Lemma setModule_resolution_cases path map duplicates id module :
  let r := setModule path map duplicates id module in
  (forall id' platform,
     (id' <> id \/ platform <> H.GENERIC_PLATFORM) ->
     resolution (sm_map r) id' platform = None \/
     resolution (sm_map r) id' platform = resolution map id' platform) /\
  (resolution (sm_map r) id H.GENERIC_PLATFORM =
     match resolution map id H.GENERIC_PLATFORM with
     | Some existing =>
         if String.eqb existing.1 module.1 then Some existing else None
     | None => None
     end) /\
  (sm_warnings r =
     match resolution map id H.GENERIC_PLATFORM with
     | Some existing =>
         if String.eqb existing.1 module.1 then []
         else [collision_warning path id existing.1 module.1]
     | None => []
     end).
Proof.
  cbv zeta. unfold setModule, resolution.
  destruct (map !! id) as [moduleMap|] eqn:Hid; simpl.
  - destruct (moduleMap !! H.GENERIC_PLATFORM) as [existing|] eqn:Hg; simpl.
    + destruct (String.eqb existing.1 module.1) eqn:Heq; simpl.
      * rewrite Hid, Hg. split; [|done]. intros; by right.
      * split; [|split; [|done]].
        -- intros id' platform Hor.
           destruct (decide (id' = id)) as [->|Hne].
           ++ destruct Hor as [?|Hp]; [done|].
              destruct (size _ =? 1)%nat.
              ** left. by rewrite lookup_delete_eq.
              ** right. rewrite lookup_insert_eq, Hid. by rewrite lookup_delete_ne.
           ++ right. destruct (size _ =? 1)%nat.
              ** rewrite lookup_delete_ne by done. by rewrite lookup_insert_ne.
              ** by rewrite lookup_insert_ne.
        -- destruct (size _ =? 1)%nat.
           ++ by rewrite lookup_delete_eq.
           ++ rewrite lookup_insert_eq. by rewrite lookup_delete_eq.
    + rewrite Hid, Hg. split; [|done]. intros; by right.
  - rewrite lookup_empty. simpl. rewrite lookup_insert_eq, lookup_empty.
    split; [|done]. intros id' platform _.
    destruct (decide (id' = id)) as [->|Hne].
    + left. by rewrite lookup_insert_eq, lookup_empty.
    + right. by rewrite lookup_insert_ne.
Qed.

Lemma setModule_resolution_exact path map duplicates id module :
  (forall existing, resolution map id H.GENERIC_PLATFORM = Some existing ->
                    existing.1 = module.1) ->
  forall id' platform,
    resolution (sm_map (setModule path map duplicates id module)) id' platform
    = resolution map id' platform.
Proof.
  intros Hsame id' platform. unfold setModule, resolution in *.
  destruct (map !! id) as [moduleMap|] eqn:Hid; simpl.
  - destruct (moduleMap !! H.GENERIC_PLATFORM) as [existing|] eqn:Hg; simpl; [|done].
    rewrite (Hsame existing eq_refl), String.eqb_refl. done.
  - rewrite lookup_empty. simpl.
    destruct (decide (id' = id)) as [->|Hne].
    + by rewrite lookup_insert_eq, lookup_empty, Hid.
    + by rewrite lookup_insert_ne.
Qed.

(** X7: [setModule] never registers the module it is given: every
    resolution found in [map] afterwards was there before, and the one of
    [id] on the generic platform, when it survives, has the path of the new
    module. *)
Theorem setModule_adds_no_resolution path map duplicates id module id' platform e :
  resolution (sm_map (setModule path map duplicates id module)) id' platform = Some e ->
  resolution map id' platform = Some e /\
  (id' = id -> platform = H.GENERIC_PLATFORM -> e.1 = module.1).
Proof.
  destruct (setModule_resolution_cases path map duplicates id module) as (Ho & Hg & _).
  intros He.
  destruct (decide (id' = id)) as [->|Hne].
  - destruct (decide (platform = H.GENERIC_PLATFORM)) as [->|Hp].
    + rewrite Hg in He.
      destruct (resolution map id H.GENERIC_PLATFORM) as [existing|]; [|done].
      destruct (String.eqb_spec existing.1 module.1) as [Heq|]; [|done].
      injection He as <-. done.
    + destruct (Ho id platform) as [Hn|Hs]; [by right|congruence|].
      rewrite Hs in He. done.
  - destruct (Ho id' platform) as [Hn|Hs]; [by left|congruence|].
    rewrite Hs in He. done.
Qed.

(** X8: [setModule] warns exactly when [id] is resolved on the generic
    platform to another path.  Then it warns once and [id] is no longer
    resolved there; otherwise every resolution of [map] is as before. *)
Theorem setModule_collision path map duplicates id module :
  let r := setModule path map duplicates id module in
  let collision :=
    exists existing,
      resolution map id H.GENERIC_PLATFORM = Some existing /\ existing.1 <> module.1 in
  (sm_warnings r <> [] <-> collision) /\
  (collision ->
     resolution (sm_map r) id H.GENERIC_PLATFORM = None /\ length (sm_warnings r) = 1%nat) /\
  (~ collision ->
     forall id' platform, resolution (sm_map r) id' platform = resolution map id' platform).
Proof.
  cbv zeta.
  pose proof (setModule_resolution_exact path map duplicates id module) as Hex.
  destruct (setModule_resolution_cases path map duplicates id module) as (_ & Hg & Hw).
  destruct (resolution map id H.GENERIC_PLATFORM) as [existing|] eqn:Hres.
  - destruct (String.eqb_spec existing.1 module.1) as [Heq|Hne].
    + assert (Hnc : ~ exists e, Some existing = Some e /\ e.1 <> module.1).
      { intros (e & [= <-] & ?). done. }
      split; [|split]; [rewrite Hw; split; [done|by intros ?]|by intros ?|].
      intros _. apply Hex. intros e [= <-]. done.
    + assert (Hc : exists e, Some existing = Some e /\ e.1 <> module.1) by eauto.
      split; [|split]; [rewrite Hw; split; [done|by intros ?]| |by intros ?].
      intros _. by rewrite Hg, Hw.
  - assert (Hnc : ~ exists e, (None : option ModuleMetaData) = Some e /\ e.1 <> module.1).
    { intros (e & ? & ?). done. }
    split; [|split]; [rewrite Hw; split; [done|by intros ?]|by intros ?|].
    intros _. apply Hex. done.
Qed.

End MoreReconciler2.

(** X7 where Foo is resolved to a.js and a.js is set again. *)
Lemma setModule_adds_no_resolution_witness :
  resolution resolved_map "Foo" "g" = Some ("a.js", H.MODULE) /\
  ("Foo" = "Foo" -> "g" = H.GENERIC_PLATFORM -> "a.js" = "a.js").
Proof.
  exact (setModule_adds_no_resolution posix resolved_map ∅ "Foo" ("a.js", H.MODULE)
           "Foo" "g" ("a.js", H.MODULE) eq_refl).
Defined.

Section Replies.

Import HasteMap.

Lemma setModule_resolution_shrinks path (map : ModuleMapData)
    (duplicates : DuplicatesIndex) id module id' platform e :
  resolution (sm_map (setModule path map duplicates id module)) id' platform = Some e ->
  resolution map id' platform = Some e.
Proof.
  destruct (setModule_resolution_cases path map duplicates id module) as (Ho & Hg & _).
  intros He.
  destruct (decide (id' = id /\ platform = H.GENERIC_PLATFORM)) as [[-> ->]|Hn].
  - rewrite Hg in He.
    destruct (resolution map id H.GENERIC_PLATFORM) as [existing|]; [|done].
    by destruct (String.eqb existing.1 module.1).
  - destruct (Ho id' platform) as [Hnone|Hs].
    + destruct (decide (id' = id)); [|by left].
      destruct (decide (platform = H.GENERIC_PLATFORM)); [|by right].
      exfalso. by apply Hn.
    + congruence.
    + congruence.
Qed.

Lemma workerReply_modules path (map : ModuleMapData) (duplicates : DuplicatesIndex)
    fileMetadata metadata :
  sm_duplicates (wr_modules (workerReply path map duplicates fileMetadata metadata))
    = duplicates /\
  forall id platform e,
    resolution (sm_map (wr_modules (workerReply path map duplicates fileMetadata metadata)))
               id platform = Some e ->
    resolution map id platform = Some e.
Proof.
  unfold workerReply.
  destruct (wm_id metadata) as [mid|]; [|done].
  destruct (wm_module metadata) as [mmod|]; [|done].
  destruct (truthy mid); [|done]. simpl. split.
  - apply setModule_duplicates_untouched.
  - intros id platform e. apply setModule_resolution_shrinks.
Qed.

(** X9: whatever the workers reply, and in whatever number, the replies
    leave [duplicates] as it is and add no resolution to [map]. *)
Theorem workerReply_never_registers path
    (replies : list (FileMetaData * WorkerMetadata))
    (map : ModuleMapData) (duplicates : DuplicatesIndex) :
  let final :=
    foldl (fun st reply =>
             wr_modules (workerReply path (sm_map st) (sm_duplicates st) reply.1 reply.2))
          {| sm_map := map; sm_duplicates := duplicates; sm_warnings := [] |} replies in
  sm_duplicates final = duplicates /\
  forall id platform e,
    resolution (sm_map final) id platform = Some e ->
    resolution map id platform = Some e.
Proof.
  cbv zeta.
  generalize (@nil string). revert map duplicates.
  induction replies as [|[fm md] l IH]; intros map duplicates w; simpl; [done|].
  destruct (workerReply_modules path map duplicates fm md) as [Hd Hr].
  destruct (wr_modules (workerReply path map duplicates fm md)) as [m' d' w'] eqn:E.
  simpl in *. subst d'.
  destruct (IH m' duplicates w') as [Hd' Hr'].
  split; [done|]. intros id platform e He. by apply Hr, Hr'.
Qed.

(** X10: [workerEror] swallows an error exactly when it is an object with a
    truthy [message] and [stack] whose [code] is ENONET or EACCES, and then
    drops the file from [files].  Every other value makes it throw: the
    value itself when it is an object with a truthy [message] and [stack];
    the [TypeError] of reading [message] when it is [null]; the [TypeError]
    of the conversion when it is a symbol; a new error with an empty message
    and an empty stack when it is [undefined]; and else a new error made of
    its text with an empty stack, whatever code it carried. *)
Theorem workerEror_recovers_iff (hm : InternalHasteMap) (p : string) (error : JsError) :
  (forall hm', workerEror hm p error = Ok hm' <->
     hm' = set_files (delete p (hm_files hm)) hm /\
     is_error_like error = true /\
     (error_code error = Some "ENONET" \/ error_code error = Some "EACCES")) /\
  (forall thrown, workerEror hm p error = Throw thrown ->
     thrown =
       match error with
       | ErrNull => type_error "Cannot read properties of null (reading 'message')"
       | ErrSymbol _ => type_error "Cannot convert a Symbol value to a string"
       | ErrUndefined => new_Error "" ""
       | _ => if is_error_like error then error else new_Error (js_String error) ""
       end).
Proof.
  unfold workerEror.
  destruct error as [message stack code str|text| | |description];
    cbn -[includes new_Error type_error].
  - destruct (truthy_opt message && truthy_opt stack) eqn:Hlike;
      cbn -[includes new_Error type_error].
    + destruct code as [code|]; cbn [includes].
      * cbn [existsb]. rewrite orb_false_r.
        destruct (String.eqb_spec code "ENONET") as [->|Hn1]; cbn [orb negb].
        -- split; [|done]. intros hm'. split; [intros [= <-]; auto|]. by intros (-> & _).
        -- destruct (String.eqb_spec code "EACCES") as [->|Hn2]; cbn [negb].
           ++ split; [|done]. intros hm'. split; [intros [= <-]; auto|].
              by intros (-> & _).
           ++ split; [|by intros thrown [= <-]].
              intros hm'. split; [done|]. intros (_ & _ & [[= ?]|[= ?]]); done.
      * cbn [negb]. split; [|by intros thrown [= <-]].
        intros hm'. split; [done|]. by intros (_ & _ & [?|?]).
    + split; [|by intros thrown [= <-]].
      intros hm'. split; [done|]. by intros (_ & ? & _).
  - split; [|by intros thrown [= <-]].
    intros hm'. split; [done|]. by intros (_ & ? & _).
  - split; [|by intros thrown [= <-]].
    intros hm'. split; [done|]. by intros (_ & ? & _).
  - split; [|by intros thrown [= <-]].
    intros hm'. split; [done|]. by intros (_ & ? & _).
  - split; [|by intros thrown [= <-]].
    intros hm'. split; [done|]. by intros (_ & ? & _).
Qed.

(** X11: [workerReply] marks the file visited, keeps its [mtime] and
    [size], and overwrites its digest with the worker's, also when the worker
    sent none; the id changes only to a non-empty id sent together with a
    module. *)
Theorem workerReply_fileMetadata path (map : ModuleMapData)
    (duplicates : DuplicatesIndex) fileMetadata metadata :
  let fm := wr_fileMetadata (workerReply path map duplicates fileMetadata metadata) in
  fm_visited fm = true /\
  fm_mtime fm = fm_mtime fileMetadata /\
  fm_size fm = fm_size fileMetadata /\
  fm_sha1 fm = wm_sha1 metadata /\
  (fm_id fm <> fm_id fileMetadata ->
     wm_id metadata = Some (fm_id fm) /\ fm_id fm <> "" /\ is_Some (wm_module metadata)).
Proof.
  cbv zeta. unfold workerReply.
  destruct (wm_id metadata) as [mid|]; [|done].
  destruct (wm_module metadata) as [mmod|]; [|done].
  destruct (truthy mid) eqn:Ht; [|done]. simpl.
  split; [done|]. split; [done|]. split; [done|]. split; [done|].
  intros _. split; [done|]. split; [|by eexists].
  intros ->. done.
Qed.

End Replies.

(** * The options and the cache path *)

Section CachePath.

Import HasteMap.

Lemma existsb_eqb_elem_of (x : string) (l : list string) :
  existsb (String.eqb x) l = true <-> x ∈ l.
Proof.
  induction l as [|y l IH]; simpl.
  - split; [done|]. by intros ?%elem_of_nil.
  - rewrite orb_true_iff, elem_of_cons, IH, String.eqb_eq. done.
Qed.

Lemma removeDuplicates_from_spec seen l :
  NoDup (removeDuplicates_from seen l) /\
  (forall x, x ∈ removeDuplicates_from seen l <-> x ∈ l /\ x ∉ seen).
Proof.
  revert seen. induction l as [|y l IH]; intros seen; simpl.
  - split; [apply NoDup_nil_2|]. intros x. split; [by intros ?%elem_of_nil|].
    by intros [?%elem_of_nil _].
  - destruct (existsb (String.eqb y) seen) eqn:E.
    + apply existsb_eqb_elem_of in E. destruct (IH seen) as [Hnd Hin].
      split; [done|]. intros x. rewrite Hin, elem_of_cons.
      split; [tauto|]. intros [[->|?] ?]; [done|tauto].
    + assert (Hy : y ∉ seen).
      { intros Hy%existsb_eqb_elem_of. congruence. }
      destruct (IH (y :: seen)) as [Hnd Hin]. split.
      * apply NoDup_cons. split; [|done].
        rewrite Hin. intros [_ Hn]. apply Hn. apply elem_of_cons. by left.
      * intros x. rewrite !elem_of_cons, Hin, not_elem_of_cons.
        destruct (decide (x = y)) as [->|Hne]; [tauto|]. tauto.
Qed.

Lemma removeDuplicates_from_NoDup seen l :
  NoDup l -> (forall x, x ∈ l -> x ∉ seen) -> removeDuplicates_from seen l = l.
Proof.
  revert seen. induction l as [|y l IH]; intros seen Hnd Hdis; simpl; [done|].
  apply NoDup_cons in Hnd as [Hy Hnd].
  assert (Hn : existsb (String.eqb y) seen = false).
  { apply not_true_is_false. rewrite existsb_eqb_elem_of. apply Hdis.
    apply elem_of_cons. by left. }
  rewrite Hn. f_equal. apply IH; [done|].
  intros x Hx. rewrite not_elem_of_cons. split.
  - intros ->. done.
  - apply Hdis. apply elem_of_cons. by right.
Qed.

(** X12: [removeDuplicates] returns the members of its argument, each
    once; a list without repetition is returned as it is. *)
Theorem removeDuplicates_set (unstableLists : list string) :
  NoDup (removeDuplicates unstableLists) /\
  (forall x, x ∈ removeDuplicates unstableLists <-> x ∈ unstableLists) /\
  (NoDup unstableLists -> removeDuplicates unstableLists = unstableLists).
Proof.
  destruct (removeDuplicates_from_spec [] unstableLists) as [Hnd Hin].
  split; [done|]. split.
  - intros x. rewrite Hin. split; [tauto|].
    intros ?. split; [done|]. apply not_elem_of_nil.
  - intros Hl. apply removeDuplicates_from_NoDup; [done|].
    intros x _. apply not_elem_of_nil.
Qed.

Lemma removeDuplicates_from_ext seen seen' l :
  (forall x, x ∈ seen <-> x ∈ seen') ->
  removeDuplicates_from seen l = removeDuplicates_from seen' l.
Proof.
  revert seen seen'. induction l as [|y l IH]; intros seen seen' Heq; simpl; [done|].
  assert (Hb : existsb (String.eqb y) seen = existsb (String.eqb y) seen').
  { apply eq_true_iff_eq. rewrite !existsb_eqb_elem_of. apply Heq. }
  rewrite Hb. destruct (existsb _ seen'); [by apply IH|].
  f_equal. apply IH. intros x. rewrite !elem_of_cons, Heq. done.
Qed.

Lemma removeDuplicates_from_app seen l1 l2 :
  removeDuplicates_from seen (l1 ++ l2) =
    (removeDuplicates_from seen l1 ++ removeDuplicates_from (l1 ++ seen) l2)%list.
Proof.
  revert seen. induction l1 as [|y l1 IH]; intros seen; simpl; [done|].
  destruct (existsb (String.eqb y) seen) eqn:E.
  - rewrite IH. f_equal. apply removeDuplicates_from_ext. intros x.
    rewrite elem_of_cons. apply existsb_eqb_elem_of in E.
    rewrite !elem_of_app. split; [tauto|]. intros [->|?]; tauto.
  - simpl. rewrite IH. f_equal. f_equal. apply removeDuplicates_from_ext. intros x.
    rewrite !elem_of_cons, !elem_of_app, !elem_of_cons. tauto.
Qed.

(** X13: [removeDuplicates] keeps a value at the place of its first
    occurrence: what precedes it is deduplicated on its own, and what
    follows loses the values seen so far. *)
Theorem removeDuplicates_first_occurrence (before after : list string) (x : string) :
  x ∉ before ->
  removeDuplicates (before ++ x :: after)
  = (removeDuplicates before ++ x :: removeDuplicates_from (x :: before) after)%list.
Proof.
  intros Hx. unfold removeDuplicates.
  rewrite removeDuplicates_from_app. simpl.
  assert (Hn : existsb (String.eqb x) (before ++ []) = false).
  { apply not_true_is_false. by rewrite existsb_eqb_elem_of, app_nil_r. }
  rewrite Hn. f_equal. f_equal.
  apply removeDuplicates_from_ext. intros y. by rewrite app_nil_r.
Qed.

Lemma replaceAll_nonword_all id :
  all_chars is_word_or_dash (replaceAll_nonword id) = true.
Proof.
  induction id as [|c id IH]; simpl; [done|].
  rewrite IH, andb_true_r. unfold is_word_or_dash.
  destruct (is_word_char c) eqn:E; simpl; [by rewrite E|done].
Qed.

(** X14: replacing the non-word characters of a cache id keeps its length,
    leaves only word characters and dashes, leaves an id of word characters
    alone, and replaces nothing when done again. *)
Theorem replaceAll_nonword_sanitises (id : string) :
  String.length (replaceAll_nonword id) = String.length id /\
  all_chars is_word_or_dash (replaceAll_nonword id) = true /\
  (all_chars is_word_char id = true -> replaceAll_nonword id = id) /\
  replaceAll_nonword (replaceAll_nonword id) = replaceAll_nonword id.
Proof.
  split; [|split; [apply replaceAll_nonword_all|split]].
  - induction id as [|c id IH]; simpl; [done|]. by rewrite IH.
  - induction id as [|c id IH]; simpl; [done|].
    intros [Hc Hr]%andb_true_iff. by rewrite Hc, IH.
  - induction id as [|c id IH]; simpl; [done|].
    rewrite IH. destruct (is_word_char c) eqn:E; [by rewrite E|done].
Qed.

Lemma all_chars_app P s1 s2 :
  all_chars P (s1 ++ s2) = all_chars P s1 && all_chars P s2.
Proof. induction s1 as [|c s1 IH]; simpl; [done|]. by rewrite IH, andb_assoc. Qed.

Lemma all_chars_substring P n m s :
  all_chars P s = true -> all_chars P (substring n m s) = true.
Proof.
  revert n m. induction s as [|c s IH]; intros n m Hs.
  - by destruct n, m.
  - simpl in Hs. apply andb_true_iff in Hs as [Hc Hs].
    destruct n as [|n]; [destruct m as [|m]|]; simpl; [done| |by apply IH].
    by rewrite Hc, IH.
Qed.

Lemma hex_is_word_or_dash c : is_hex_digit c = true -> is_word_or_dash c = true.
Proof.
  unfold is_hex_digit, is_word_or_dash, is_word_char.
  generalize (nat_of_ascii c). intros n Hn.
  apply orb_true_iff. left.
  repeat (apply orb_true_iff in Hn as [Hn|Hn]);
    apply andb_true_iff in Hn as [H1 H2];
    apply Nat.leb_le in H1; apply Nat.leb_le in H2.
  - rewrite (proj2 (Nat.leb_le 48 n)), (proj2 (Nat.leb_le n 57)) by lia. done.
  - rewrite (proj2 (Nat.leb_le 97 n)), (proj2 (Nat.leb_le n 122)) by lia.
    by rewrite !orb_true_r.
  - rewrite (proj2 (Nat.leb_le 65 n)), (proj2 (Nat.leb_le n 90)) by lia.
    by rewrite !orb_true_r.
Qed.

Lemma all_chars_impl (P Q : ascii -> bool) s :
  (forall c, P c = true -> Q c = true) -> all_chars P s = true -> all_chars Q s = true.
Proof.
  intros HPQ. induction s as [|c s IH]; simpl; [done|].
  intros [Hc Hs]%andb_true_iff. by rewrite (HPQ c Hc), IH.
Qed.

(** X15: with a SHA-1 that yields hexadecimal digits, [getCacheFilePath]
    joins [tmpdir] with a single name of word characters and dashes,
    whatever the id and the extra strings are. *)
Theorem getCacheFilePath_name (node : NodeEnv) (tmpdir id : string) (extra : list string) :
  (forall s, all_chars is_hex_digit (sha1_hex node s) = true) ->
  exists name,
    getCacheFilePath node tmpdir id extra = path_join node tmpdir name /\
    all_chars is_word_or_dash name = true.
Proof.
  intros Hhex. unfold getCacheFilePath. eexists. split; [reflexivity|].
  rewrite !all_chars_app, replaceAll_nonword_all. simpl.
  apply (all_chars_impl is_hex_digit); [apply hex_is_word_or_dash|].
  by apply all_chars_substring.
Qed.

End CachePath.

(** X13 on two roots given twice. *)
Lemma removeDuplicates_first_occurrence_witness :
  HasteMap.removeDuplicates ["/r/a"; "/r/b"; "/r/a"; "/r/b"] = ["/r/a"; "/r/b"].
Proof.
  exact (removeDuplicates_first_occurrence ["/r/a"] ["/r/a"; "/r/b"] "/r/b"
           ltac:(apply not_elem_of_cons; split; [discriminate|apply not_elem_of_nil])).
Defined.

(** X15 on an id with an at sign and a colon. *)
Lemma getCacheFilePath_name_witness :
  exists name,
    HasteMap.getCacheFilePath hex_node "/tmp" "haste-map@example:2024" ["example"; "src"]
      = "/tmp/" ++ name /\
    all_chars is_word_or_dash name = true.
Proof.
  exact (getCacheFilePath_name hex_node "/tmp" "haste-map@example:2024"
           ["example"; "src"] (fun _ => eq_refl)).
Defined.

(** * Further properties of the crawler *)

Section PerPath.

Import Watchman.

Variable path : PathModule.
Variable rootDir : string.

Implicit Types (st : MergeState) (fd : WatchmanFile) (prev : FileData).

Lemma mergeFile_clocks fresh prev fsRoot st fd :
  ms_clocks (mergeFile path rootDir fresh prev fsRoot st fd) = ms_clocks st.
Proof.
  unfold mergeFile.
  destruct (wf_exists fd); simpl.
  - by destruct (truthy _).
  - by destruct (_ !! _).
Qed.

Lemma mergeFile_other fresh prev fsRoot st fd p :
  p <> relativeFilePath path rootDir fsRoot fd ->
  at_path (mergeFile path rootDir fresh prev fsRoot st fd) p = at_path st p.
Proof.
  intros Hne. unfold mergeFile, at_path.
  fold (relativeFilePath path rootDir fsRoot fd).
  set (q := relativeFilePath path rootDir fsRoot fd) in *.
  assert (Hr1 : forall b : bool,
            (if b then delete q (ms_removedFiles st) else ms_removedFiles st) !! p
            = ms_removedFiles st !! p).
  { intros [|]; [by rewrite lookup_delete_ne|done]. }
  destruct (wf_exists fd); simpl.
  - destruct (truthy _); simpl; rewrite ?Hr1, ?lookup_insert_ne by done; done.
  - destruct ((if fresh then prev else ms_files st) !! q); simpl.
    + rewrite lookup_delete_ne by done.
      destruct fresh; simpl; rewrite ?lookup_insert_ne, ?Hr1 by done; try done.
    + by rewrite Hr1.
Qed.

Lemma mergeFiles_unlisted fresh prev fsRoot fds st p :
  p ∉ List.map (relativeFilePath path rootDir fsRoot) fds ->
  at_path (foldl (mergeFile path rootDir fresh prev fsRoot) st fds) p = at_path st p.
Proof.
  revert st. induction fds as [|fd fds IH]; intros st Hp; simpl; [done|].
  simpl in Hp. apply not_elem_of_cons in Hp as [Hne Hp].
  rewrite IH by done. by apply mergeFile_other.
Qed.

Lemma mergeResponses_unlisted fresh prev entries st p :
  p ∉ reported_paths path rootDir entries ->
  at_path (foldl (mergeResponse path rootDir fresh prev) st entries) p = at_path st p.
Proof.
  revert st. induction entries as [|e entries IH]; intros st Hp; simpl; [done|].
  simpl in Hp. apply not_elem_of_app in Hp as [Hp1 Hp2].
  rewrite IH by done. unfold mergeResponse.
  by rewrite mergeFiles_unlisted.
Qed.

Hypothesis sep_nonempty : sep path <> "".

Lemma mergeFile_listed fresh prev fsRoot st fd :
  at_path st (relativeFilePath path rootDir fsRoot fd)
    = unlisted_outcome fresh (prev !! relativeFilePath path rootDir fsRoot fd) ->
  at_path (mergeFile path rootDir fresh prev fsRoot st fd)
          (relativeFilePath path rootDir fsRoot fd)
    = listed_outcome (prev !! relativeFilePath path rootDir fsRoot fd) fd.
Proof.
  unfold at_path, unlisted_outcome, listed_outcome, mergeFile.
  fold (relativeFilePath path rootDir fsRoot fd).
  set (q := relativeFilePath path rootDir fsRoot fd).
  rewrite (filePath_truthy path sep_nonempty).
  intros Hst.
  destruct fresh; injection Hst as Hf Hr Hc; simpl.
  - destruct (wf_exists fd); simpl.
    + rewrite !lookup_insert_eq. f_equal. f_equal.
      rewrite andb_true_r. case_bool_decide as Hs; [by rewrite lookup_delete_eq|].
      apply eq_None_not_Some in Hs. by rewrite Hr.
    + rewrite andb_false_r. destruct (prev !! q) eqn:E; simpl.
      * by rewrite lookup_delete_eq, Hr, Hc.
      * by rewrite Hf, Hr, Hc.
  - rewrite Hf. destruct (wf_exists fd); simpl.
    + by rewrite !lookup_insert_eq, Hr.
    + destruct (prev !! q) eqn:E; simpl.
      * by rewrite lookup_delete_eq, lookup_insert_eq, Hc.
      * by rewrite Hf, Hr, Hc.
Qed.

Lemma mergeFiles_listed fresh prev fsRoot fds st fd :
  NoDup (List.map (relativeFilePath path rootDir fsRoot) fds) ->
  (forall q, q ∈ List.map (relativeFilePath path rootDir fsRoot) fds ->
             at_path st q = unlisted_outcome fresh (prev !! q)) ->
  fd ∈ fds ->
  at_path (foldl (mergeFile path rootDir fresh prev fsRoot) st fds)
          (relativeFilePath path rootDir fsRoot fd)
    = listed_outcome (prev !! relativeFilePath path rootDir fsRoot fd) fd.
Proof.
  revert st. induction fds as [|fd0 fds IH]; intros st Hnd Hst Hin; simpl.
  - by apply elem_of_nil in Hin.
  - simpl in Hnd. apply NoDup_cons in Hnd as [Hq Hnd].
    apply elem_of_cons in Hin as [->|Hin].
    + rewrite mergeFiles_unlisted by done.
      apply mergeFile_listed, Hst. simpl. apply elem_of_cons. by left.
    + apply IH; [done| |done].
      intros q Hqin. rewrite mergeFile_other.
      * apply Hst. simpl. apply elem_of_cons. by right.
      * intros ->. done.
Qed.

Lemma mergeResponses_listed fresh prev entries st entry fd :
  NoDup (reported_paths path rootDir entries) ->
  (forall q, q ∈ reported_paths path rootDir entries ->
             at_path st q = unlisted_outcome fresh (prev !! q)) ->
  entry ∈ entries -> fd ∈ qr_files entry.2 ->
  at_path (foldl (mergeResponse path rootDir fresh prev) st entries)
          (relativeFilePath path rootDir (normalizePathSep path entry.1) fd)
    = listed_outcome
        (prev !! relativeFilePath path rootDir (normalizePathSep path entry.1) fd) fd.
Proof.
  revert st. induction entries as [|e entries IH]; intros st Hnd Hst Hin Hfd; simpl.
  - by apply elem_of_nil in Hin.
  - simpl in Hnd. apply NoDup_app in Hnd as (Hnd1 & Hdisj & Hnd2).
    apply elem_of_cons in Hin as [->|Hin].
    + rewrite mergeResponses_unlisted.
      * unfold mergeResponse. apply mergeFiles_listed; [done| |done].
        intros q Hq. simpl.
        change (at_path st q = unlisted_outcome fresh (prev !! q)).
        apply Hst. simpl. apply elem_of_app. by left.
      * apply Hdisj. apply list_elem_of_fmap. by exists fd.
    + apply IH; [done| |done|done].
      intros q Hq. unfold mergeResponse. rewrite mergeFiles_unlisted.
      * change (at_path st q = unlisted_outcome fresh (prev !! q)).
        apply Hst. simpl. apply elem_of_app. by right.
      * intros Hq1. by apply (Hdisj q).
Qed.

End PerPath.

Section CrawlPaths.

Import Watchman.

Variables (path : PathModule) (client : WatchmanClient) (options : CrawlerOptions).

Lemma watchmanCrawl_Ok found :
  crawlQueries path client options = Ok found ->
  error_event client = None ->
  watchmanCrawl path client options =
    Ok {| cr_changedFiles :=
            if isFresh found then None
            else Some (ms_changedFiles
                         (mergeResults path (co_rootDir options) (co_data options) found));
          cr_hasteMap :=
            set_files
              (ms_files (mergeResults path (co_rootDir options) (co_data options) found))
              (set_clocks
                 (ms_clocks (mergeResults path (co_rootDir options) (co_data options) found))
                 (co_data options));
          cr_removedFiles :=
            ms_removedFiles
              (mergeResults path (co_rootDir options) (co_data options) found) |}.
Proof. intros Hq Hev. unfold watchmanCrawl. rewrite Hq. simpl. by rewrite Hev. Qed.

Lemma initialState_at_path data fresh p :
  at_path (initialState data fresh) p = unlisted_outcome fresh (hm_files data !! p).
Proof. unfold at_path, unlisted_outcome, initialState. by destruct fresh. Qed.

(** X16: for a path that no response lists, a crawl that succeeds keeps
    the previous entry of [files] when watchman is not fresh, and moves it to
    [removedFiles] when it is; the path is never among the changed files. *)
Theorem watchmanCrawl_unlisted_path found p :
  crawlQueries path client options = Ok found ->
  error_event client = None ->
  p ∉ reported_paths path (co_rootDir options) (results found) ->
  let fresh :=
    existsb (fresh_response path (co_rootDir options) (hm_clocks (co_data options)))
            (results found) in
  exists out,
    watchmanCrawl path client options = Ok out /\
    hm_files (cr_hasteMap out) !! p
      = (if fresh then None else hm_files (co_data options) !! p) /\
    cr_removedFiles out !! p
      = (if fresh then hm_files (co_data options) !! p else None) /\
    (forall changed, cr_changedFiles out = Some changed -> changed !! p = None).
Proof.
  intros Hq Hev Hp fresh. subst fresh.
  rewrite <- (crawlQueries_isFresh _ _ _ _ Hq).
  rewrite (watchmanCrawl_Ok _ Hq Hev). eexists. split; [reflexivity|]. simpl.
  pose proof (mergeResponses_unlisted path (co_rootDir options) (isFresh found)
                (hm_files (co_data options)) (results found)
                (initialState (co_data options) (isFresh found)) p Hp) as Hat.
  rewrite initialState_at_path in Hat. fold (mergeResults path (co_rootDir options)
    (co_data options) found) in Hat.
  unfold at_path, unlisted_outcome in Hat.
  destruct (isFresh found); injection Hat as Hf Hr Hc; repeat split; try done.
  intros changed [= <-]. done.
Qed.

(** X17: when no path is listed twice, a crawl that succeeds ends, for the
    path of a listed file, as the file says, fresh or not: a file that exists
    is in [files] (and among the changed files, when these are returned) with
    the entry [nextData] computes from the previous one, and is not in
    [removedFiles]; a file that does not exist is absent from [files], and
    [removedFiles] holds its previous entry, if there was one. *)
Theorem watchmanCrawl_listed_path found root response fd :
  crawlQueries path client options = Ok found ->
  error_event client = None ->
  sep path <> "" ->
  NoDup (reported_paths path (co_rootDir options) (results found)) ->
  (root, response) ∈ results found ->
  fd ∈ qr_files response ->
  let p := relativeFilePath path (co_rootDir options) (normalizePathSep path root) fd in
  let next := nextData (hm_files (co_data options) !! p) fd in
  exists out,
    watchmanCrawl path client options = Ok out /\
    hm_files (cr_hasteMap out) !! p = (if wf_exists fd then Some next else None) /\
    cr_removedFiles out !! p
      = (if wf_exists fd then None else hm_files (co_data options) !! p) /\
    (forall changed, cr_changedFiles out = Some changed ->
       changed !! p = if wf_exists fd then Some next else None).
Proof.
  intros Hq Hev Hsep Hnd Hin Hfd p next.
  rewrite (watchmanCrawl_Ok _ Hq Hev). eexists. split; [reflexivity|]. simpl.
  pose proof (mergeResponses_listed path (co_rootDir options) Hsep (isFresh found)
                (hm_files (co_data options)) (results found)
                (initialState (co_data options) (isFresh found))
                (root, response) fd Hnd) as Hat.
  simpl in Hat. fold p in Hat.
  fold (mergeResults path (co_rootDir options) (co_data options) found) in Hat.
  specialize (Hat (fun q _ => initialState_at_path _ _ q) Hin Hfd).
  unfold at_path, listed_outcome in Hat. fold next in Hat.
  destruct (wf_exists fd); injection Hat as Hf Hr Hc; repeat split; try done.
  - intros changed Hch. destruct (isFresh found); [done|]. by injection Hch as <-.
  - intros changed Hch. destruct (isFresh found); [done|]. by injection Hch as <-.
Qed.

Lemma mergeFiles_clocks rootDir fresh prev fsRoot fds st :
  ms_clocks (foldl (mergeFile path rootDir fresh prev fsRoot) st fds) = ms_clocks st.
Proof.
  revert st. induction fds as [|fd fds IH]; intros st; simpl; [done|].
  by rewrite IH, mergeFile_clocks.
Qed.

Lemma mergeResponse_clocks rootDir fresh prev st entry :
  ms_clocks (mergeResponse path rootDir fresh prev st entry) =
    <[clock_key path rootDir entry.1 := ClockLocal (clock_string (qr_clock entry.2))]>
      (ms_clocks st).
Proof.
  unfold mergeResponse. rewrite mergeFiles_clocks. simpl. unfold clock_key.
  by destruct (qr_clock entry.2).
Qed.

Lemma mergeResponses_clocks rootDir fresh prev entries st k :
  ms_clocks (foldl (mergeResponse path rootDir fresh prev) st entries) !! k =
    match last (List.filter (fun entry => String.eqb (clock_key path rootDir entry.1) k)
                            entries) with
    | Some entry => Some (ClockLocal (clock_string (qr_clock entry.2)))
    | None => ms_clocks st !! k
    end.
Proof.
  revert st. induction entries as [|e entries IH]; intros st; simpl; [done|].
  rewrite IH, mergeResponse_clocks.
  destruct (String.eqb_spec (clock_key path rootDir e.1) k) as [Hk|Hk].
  - destruct (List.filter _ entries) as [|e' l] eqn:E; simpl.
    + by rewrite Hk, lookup_insert_eq.
    + assert (Hl : is_Some (last (e' :: l))) by (by apply last_is_Some).
      destruct Hl as [x ->]. done.
  - destruct (last _); [done|]. by rewrite lookup_insert_ne.
Qed.

(** X18: a crawl that succeeds stores, under the relative path of each
    watch root, the local clock of the last response for that path, keeps
    every other clock, and leaves [map], [duplicates] and [mocks] alone. *)
Theorem watchmanCrawl_clocks found :
  crawlQueries path client options = Ok found ->
  error_event client = None ->
  exists out,
    watchmanCrawl path client options = Ok out /\
    (forall k,
       hm_clocks (cr_hasteMap out) !! k =
         match last (List.filter
                       (fun entry =>
                          String.eqb (clock_key path (co_rootDir options) entry.1) k)
                       (results found)) with
         | Some entry => Some (ClockLocal (clock_string (qr_clock entry.2)))
         | None => hm_clocks (co_data options) !! k
         end) /\
    hm_map (cr_hasteMap out) = hm_map (co_data options) /\
    hm_duplicates (cr_hasteMap out) = hm_duplicates (co_data options) /\
    hm_mocks (cr_hasteMap out) = hm_mocks (co_data options).
Proof.
  intros Hq Hev.
  rewrite (watchmanCrawl_Ok _ Hq Hev). eexists. split; [reflexivity|]. simpl.
  split; [|done]. intros k. unfold mergeResults. by rewrite mergeResponses_clocks.
Qed.

End CrawlPaths.

(** X16 at c.js, which the restarted watchman does not list. *)
Lemma watchmanCrawl_unlisted_path_witness :
  exists out,
    Watchman.watchmanCrawl posix restarted_client crawl_options = Ok out /\
    hm_files (Watchman.cr_hasteMap out) !! "c.js" = None /\
    Watchman.cr_removedFiles out !! "c.js" = Some (meta "" 5).
Proof.
  destruct (watchmanCrawl_unlisted_path posix restarted_client crawl_options
              restarted_results "c.js" restarted_queries eq_refl)
    as (out & Hout & Hfiles & Hremoved & _).
  - change ("c.js" ∉ ["a.js"; "b.js"]). intros Hin.
    apply elem_of_cons in Hin as [Hin|Hin]; [discriminate|].
    apply elem_of_cons in Hin as [Hin|Hin]; [discriminate|].
    by apply elem_of_nil in Hin.
  - exists out. split; [exact Hout|]. split; [exact Hfiles|exact Hremoved].
Defined.

(** X17 at b.js, listed by the restarted watchman with a new mtime. *)
Lemma watchmanCrawl_listed_path_witness :
  exists out,
    Watchman.watchmanCrawl posix restarted_client crawl_options = Ok out /\
    hm_files (Watchman.cr_hasteMap out) !! "b.js" = Some (pristine 6 10 None) /\
    Watchman.cr_removedFiles out !! "b.js" = None.
Proof.
  destruct (watchmanCrawl_listed_path posix restarted_client crawl_options
              restarted_results "/r" restarted_response (listed "b.js" 6)
              restarted_queries eq_refl ltac:(discriminate))
    as (out & Hout & Hfiles & Hremoved & _).
  - change (NoDup ["a.js"; "b.js"]). apply NoDup_cons. split.
    + apply not_elem_of_cons. split; [discriminate|apply not_elem_of_nil].
    + apply NoDup_singleton.
  - apply elem_of_cons. by left.
  - apply elem_of_cons. right. apply elem_of_cons. by left.
  - exists out. split; [exact Hout|]. split; [exact Hfiles|exact Hremoved].
Defined.

(** X18 on the restarted watchman: the clock of /r is replaced. *)
Lemma watchmanCrawl_clocks_witness :
  exists out,
    Watchman.watchmanCrawl posix restarted_client crawl_options = Ok out /\
    hm_clocks (Watchman.cr_hasteMap out) !! "" = Some (ClockLocal "c:2:1").
Proof.
  destruct (watchmanCrawl_clocks posix restarted_client crawl_options
              restarted_results restarted_queries eq_refl)
    as (out & Hout & Hclocks & _).
  exists out. split; [exact Hout|]. rewrite Hclocks. reflexivity.
Defined.

Section Unprocessed.

Import Watchman.

Variable path : PathModule.
Variable rootDir : string.

Implicit Types (st : MergeState) (fd : WatchmanFile) (prev : FileData).

Lemma nextData_unprocessed existing fd :
  (forall e, existing = Some e -> unprocessed e) -> unprocessed (nextData existing fd).
Proof.
  intros He. unfold nextData.
  destruct existing as [e|]; [|done].
  destruct (He e eq_refl) as (H1 & H2 & H3).
  destruct (_ =? _)%Z; [done|].
  destruct (_ && _); done.
Qed.

Lemma all_unprocessed_insert (m : FileData) p e :
  all_unprocessed m -> unprocessed e -> all_unprocessed (<[p := e]> m).
Proof.
  intros Hm He q e'. destruct (decide (p = q)) as [->|Hne].
  - rewrite lookup_insert_eq. by intros [= <-].
  - rewrite lookup_insert_ne by done. apply Hm.
Qed.

Lemma all_unprocessed_delete (m : FileData) p :
  all_unprocessed m -> all_unprocessed (delete p m).
Proof.
  intros Hm q e'. destruct (decide (p = q)) as [->|Hne].
  - by rewrite lookup_delete_eq.
  - rewrite lookup_delete_ne by done. apply Hm.
Qed.

Lemma mergeFile_unprocessed fresh prev fsRoot st fd :
  all_unprocessed prev ->
  all_unprocessed (ms_files st) /\ all_unprocessed (ms_removedFiles st)
  /\ all_unprocessed (ms_changedFiles st) ->
  let st' := mergeFile path rootDir fresh prev fsRoot st fd in
  all_unprocessed (ms_files st') /\ all_unprocessed (ms_removedFiles st')
  /\ all_unprocessed (ms_changedFiles st').
Proof.
  intros Hprev (Hf & Hr & Hc). cbv zeta. unfold mergeFile.
  set (q := relative path rootDir _).
  set (existing := (if fresh then prev else ms_files st) !! q).
  assert (Hex : forall e, existing = Some e -> unprocessed e).
  { intros e. subst existing. destruct fresh; [apply Hprev|apply Hf]. }
  assert (Hr1 : all_unprocessed
                  (if fresh && bool_decide (is_Some existing) && wf_exists fd
                   then delete q (ms_removedFiles st) else ms_removedFiles st)).
  { destruct (_ && _); [by apply all_unprocessed_delete|done]. }
  destruct (wf_exists fd); simpl.
  - destruct (truthy _); simpl; [|done].
    pose proof (nextData_unprocessed existing fd Hex).
    split; [by apply all_unprocessed_insert|].
    split; [done|by apply all_unprocessed_insert].
  - destruct existing as [e|] eqn:E; simpl; [|done].
    split; [by apply all_unprocessed_delete|]. split; [|done].
    destruct (negb fresh); [|done].
    apply all_unprocessed_insert; [done|]. by apply Hex.
Qed.

Lemma mergeResults_unprocessed data found :
  all_unprocessed (hm_files data) ->
  let st := mergeResults path rootDir data found in
  all_unprocessed (ms_files st) /\ all_unprocessed (ms_removedFiles st)
  /\ all_unprocessed (ms_changedFiles st).
Proof.
  intros Hprev. cbv zeta. unfold mergeResults.
  assert (Hinit : all_unprocessed (ms_files (initialState data (isFresh found))) /\
                  all_unprocessed (ms_removedFiles (initialState data (isFresh found))) /\
                  all_unprocessed (ms_changedFiles (initialState data (isFresh found)))).
  { assert (He : all_unprocessed (∅ : FileData)).
    { intros p e. by rewrite lookup_empty. }
    unfold initialState. destruct (isFresh found); simpl; done. }
  revert Hinit. generalize (initialState data (isFresh found)).
  induction (results found) as [|entry entries IH]; intros st Hst; simpl; [done|].
  apply IH. unfold mergeResponse.
  set (st1 := {| ms_clocks := _; ms_files := ms_files st |}).
  assert (Hst1 : all_unprocessed (ms_files st1) /\ all_unprocessed (ms_removedFiles st1)
                 /\ all_unprocessed (ms_changedFiles st1)) by done.
  clearbody st1. revert st1 Hst1.
  induction (qr_files entry.2) as [|fd fds IHf]; intros st1 Hst1; simpl; [done|].
  apply IHf. by apply mergeFile_unprocessed.
Qed.

End Unprocessed.

Section BuildFileMap.

Import Watchman.

(** X19: when the cache is reset or cannot be read, what [_buildFileMap]
    returns carries nothing processed: every entry of [files], of
    [removedFiles] and of the changed files has an empty id, is not visited
    and has no dependencies, and [map] and [duplicates] are empty. *)
Theorem buildFileMap_without_cache (path : PathModule) (client : WatchmanClient)
    (cache : FileMap.CacheEnv) (options : HasteMap.InternalOptions)
    (cachePath : string) (crawled : CrawlResult) :
  (HasteMap.io_resetCache options = Some true \/
   exists e, FileMap.readCache cache cachePath = Throw e) ->
  FileMap.outcome (FileMap._buildFileMap path client cache options cachePath)
    = Ok crawled ->
  (forall p e, hm_files (cr_hasteMap crawled) !! p = Some e -> unprocessed e) /\
  (forall p e, cr_removedFiles crawled !! p = Some e -> unprocessed e) /\
  (forall changed p e, cr_changedFiles crawled = Some changed ->
     changed !! p = Some e -> unprocessed e) /\
  hm_map (cr_hasteMap crawled) = ∅ /\
  hm_duplicates (cr_hasteMap crawled) = ∅.
Proof.
  intros Hempty. unfold FileMap._buildFileMap.
  assert (Hstart : (if default false (HasteMap.io_resetCache options)
                    then HasteMap._createEmptyMap
                    else FileMap.read cache cachePath) = HasteMap._createEmptyMap).
  { destruct (default false (HasteMap.io_resetCache options)) eqn:E; [done|].
    destruct Hempty as [Hr|[e He]].
    - by rewrite Hr in E.
    - unfold FileMap.read. by rewrite He. }
  rewrite Hstart. unfold FileMap._crawl.
  set (co := {| co_computeSha1 := _ |}).
  destruct (watchmanCrawl path client co) as [out|e] eqn:Hcrawl; simpl;
    [|by destruct (ToString e)].
  intros [= <-].
  unfold watchmanCrawl in Hcrawl.
  destruct (crawlQueries path client co) as [found|]; simpl in Hcrawl; [|done].
  destruct (error_event client); [done|]. injection Hcrawl as <-. simpl.
  destruct (mergeResults_unprocessed path (co_rootDir co) HasteMap._createEmptyMap found)
    as (Hf & Hr & Hc).
  { intros p e. simpl. by rewrite lookup_empty. }
  split; [exact Hf|]. split; [exact Hr|]. split; [|done].
  intros changed p e. destruct (isFresh found); [done|]. intros [= <-]. apply Hc.
Qed.

End BuildFileMap.

(** The crawl of the restarted watchman succeeds from a reset cache. *)
Lemma reset_crawl :
  exists crawled,
    FileMap.outcome (FileMap._buildFileMap posix restarted_client warm_cache
                       reset_options "/tmp/cache") = Ok crawled.
Proof. eexists. vm_compute. reflexivity. Qed.

(** X19 where the cache holds three visited files and is reset. *)
Lemma buildFileMap_without_cache_witness :
  exists crawled,
    FileMap.outcome (FileMap._buildFileMap posix restarted_client warm_cache
                       reset_options "/tmp/cache") = Ok crawled /\
    (forall p e, hm_files (Watchman.cr_hasteMap crawled) !! p = Some e -> unprocessed e) /\
    hm_map (Watchman.cr_hasteMap crawled) = ∅.
Proof.
  destruct reset_crawl as [crawled Hcrawled].
  exists crawled. split; [exact Hcrawled|].
  destruct (buildFileMap_without_cache posix restarted_client warm_cache reset_options
              "/tmp/cache" crawled (or_introl eq_refl) Hcrawled)
    as (Hfiles & _ & _ & Hmap & _).
  split; [exact Hfiles|exact Hmap].
Defined.

Section Roots.

Import Watchman.

Variable client : WatchmanClient.

Lemma alist_get_set {V} k k' (v : V) l :
  alist_get k' (alist_set k v l) = if String.eqb k' k then Some v else alist_get k' l.
Proof.
  induction l as [|[k0 v0] l IH]; simpl.
  - done.
  - destruct (String.eqb_spec k k0) as [->|Hne]; simpl.
    + by destruct (String.eqb k' k0).
    + rewrite IH. destruct (String.eqb_spec k' k0) as [->|Hne'].
      * destruct (String.eqb_spec k0 k); [congruence|done].
      * done.
Qed.

Lemma cmd_Ok {A} (answer : Answer A) a : cmd answer = Ok a <-> answer = Answered a.
Proof. destruct answer; simpl; split; congruence. Qed.

Lemma getWathmanRoots_lookup w roots hash out :
  getWathmanRoots client roots hash = Ok out ->
  alist_get w out =
    match alist_get w hash with
    | Some [] => Some []
    | existing =>
        if forallb truthy (dirs_under client w roots) then
          match dirs_under client w roots with
          | [] => existing
          | dirs => Some (default [] existing ++ dirs)%list
          end
        else Some []
    end.
Proof.
  revert hash. induction roots as [|root roots IH]; intros hash; simpl.
  - intros [= <-]. by destruct (alist_get w hash) as [[|? ?]|].
  - destruct (watch_project client root) as [response|e] eqn:Hwp; simpl; [|done].
    intros Hrest. apply IH in Hrest. rewrite Hrest. clear Hrest IH.
    destruct (String.eqb_spec (wp_watch response) w) as [Hw|Hw]; simpl.
    + rewrite Hw.
      destruct (alist_get w hash) as [[|d ds]|] eqn:Hex; simpl.
      * by rewrite Hex.
      * destruct (truthy (wp_relative_path response)); simpl;
          rewrite alist_get_set, String.eqb_refl; [|done].
        destruct (forallb truthy _); [|done].
        destruct (dirs_under client w roots) as [|d' ds']; simpl; [done|].
        by rewrite <- app_assoc.
      * destruct (truthy (wp_relative_path response)); simpl;
          rewrite alist_get_set, String.eqb_refl; [|done].
        destruct (forallb truthy _); [|done].
        by destruct (dirs_under client w roots).
    + assert (Hsame : forall hash',
                (hash' = hash \/ exists v, hash' = alist_set (wp_watch response) v hash) ->
                alist_get w hash' = alist_get w hash).
      { intros hash' [->|[v ->]]; [done|]. rewrite alist_get_set.
        destruct (String.eqb_spec w (wp_watch response)); [congruence|done]. }
      rewrite Hsame; [done|].
      destruct (match alist_get (wp_watch response) hash with
                | Some dirs => _ | None => true end); [|by left].
      destruct (truthy _); right; eauto.
Qed.

(** X20: in the roots map of [getWathmanRoots], a watch root is mapped to
    the relative paths its roots were answered with, in the order of the
    roots, as long as all of them are non-empty; to the empty list (the whole
    root) as soon as one of them is empty; and is absent when no root was
    answered with it. *)
Theorem getWathmanRoots_directories (w : string) (roots : list string)
    (out : list (string * list string)) :
  getWathmanRoots client roots [] = Ok out ->
  alist_get w out =
    if forallb truthy (dirs_under client w roots) then
      match dirs_under client w roots with
      | [] => None
      | dirs => Some dirs
      end
    else Some [].
Proof.
  intros Hout. rewrite (getWathmanRoots_lookup w roots [] out Hout). simpl.
  destruct (forallb truthy _); [|done]. by destruct (dirs_under client w roots).
Qed.

Lemma getWathmanRoots_fails roots hash root e :
  root ∈ roots -> watch_project client root = Failed e ->
  exists e', getWathmanRoots client roots hash = Throw e'.
Proof.
  revert hash. induction roots as [|r roots IH]; intros hash Hin Hwp.
  - by apply elem_of_nil in Hin.
  - simpl. destruct (watch_project client r) as [response|e0] eqn:Hr; simpl.
    + apply elem_of_cons in Hin as [->|Hin]; [congruence|]. by apply IH.
    + eauto.
Qed.

(** X21: the crawl throws, and returns no partial result, when fb-watchman
    answers the capability check with an [Error], when it answers
    [watch-project] for one of the roots with an [Error], or when the client
    emitted an [Error] as an error event, even if every query was
    answered. *)
Theorem watchmanCrawl_fails (path : PathModule) (options : CrawlerOptions)
    (e : ErrorInstance) :
  (capabilityCheck client = Failed e \/
   (exists root, root ∈ co_roots options /\ watch_project client root = Failed e) \/
   error_event client = Some e) ->
  exists e', watchmanCrawl path client options = Throw e'.
Proof.
  intros Hcause. unfold watchmanCrawl.
  destruct (crawlQueries path client options) as [found|e0] eqn:Hq; simpl; [|eauto].
  destruct Hcause as [Hc|[(root & Hin & Hwp)|Hev]].
  - unfold crawlQueries in Hq. by rewrite Hc in Hq.
  - unfold crawlQueries in Hq.
    destruct (capabilityCheck client); simpl in Hq; [|done].
    destruct (_ : result (list string)); simpl in Hq; [|done].
    destruct (getWathmanRoots_fails (co_roots options) [] root e Hin Hwp) as [e' He'].
    by rewrite He' in Hq.
  - rewrite Hev. eauto.
Qed.

End Roots.

Section Normalize.

Lemma replaceAll_slash_no_slash by_sep s :
  no_slash by_sep = true -> no_slash (replaceAll_slash by_sep s) = true.
Proof.
  intros Hsep. unfold no_slash in *. induction s as [|c s IH]; simpl; [done|].
  destruct (Ascii.eqb c "/") eqn:E.
  - clear E. revert Hsep IH. generalize (replaceAll_slash by_sep s) as rest.
    induction by_sep as [|b by_sep IHb]; simpl; intros rest Hsep Hrest; [done|].
    apply andb_true_iff in Hsep as [Hb Hsep]. rewrite Hb. simpl. by apply IHb.
  - simpl. by rewrite E, IH.
Qed.

Lemma replaceAll_slash_id by_sep s :
  no_slash s = true -> replaceAll_slash by_sep s = s.
Proof.
  unfold no_slash. induction s as [|c s IH]; simpl; [done|].
  intros [Hc Hs]%andb_true_iff. apply negb_true_iff in Hc. rewrite Hc. by rewrite IH.
Qed.

(** X22: with a separator that is the slash or holds none,
    [normalizePathSep] changes nothing when applied again, leaves no slash
    unless the separator is the slash, and leaves a path without a slash
    alone. *)
Theorem normalizePathSep_idempotent (path : PathModule) (filePath : string) :
  sep path = "/" \/ no_slash (sep path) = true ->
  normalizePathSep path (normalizePathSep path filePath) = normalizePathSep path filePath /\
  (sep path <> "/" -> no_slash (normalizePathSep path filePath) = true) /\
  (no_slash filePath = true -> normalizePathSep path filePath = filePath).
Proof.
  intros Hsep. unfold normalizePathSep.
  destruct (String.eqb_spec (sep path) "/") as [Heq|Hne].
  - split; [done|]. split; [done|done].
  - destruct Hsep as [?|Hsep]; [done|].
    split; [|split].
    + apply replaceAll_slash_id. by apply replaceAll_slash_no_slash.
    + intros _. by apply replaceAll_slash_no_slash.
    + apply replaceAll_slash_id.
Qed.

End Normalize.

(** X20 on two roots below the watch root /r. *)
Lemma getWathmanRoots_directories_witness :
  exists out,
    Watchman.getWathmanRoots nested_client ["/r/src"; "/r/lib"] [] = Ok out /\
    alist_get "/r" out = Some ["src"; "lib"].
Proof.
  exists [("/r", ["src"; "lib"])]. split; [reflexivity|].
  exact (getWathmanRoots_directories nested_client "/r" ["/r/src"; "/r/lib"]
           [("/r", ["src"; "lib"])] eq_refl).
Defined.

(** X21 on a client that answered every query and emitted an error. *)
Lemma watchmanCrawl_fails_witness :
  exists e', Watchman.watchmanCrawl posix broken_client crawl_options = Throw e'.
Proof.
  exact (watchmanCrawl_fails broken_client posix crawl_options
           connection_lost (or_intror (or_intror eq_refl))).
Defined.

(** The warning of [_crawl] for the lost connection shows the message
    that [watchmanError] assigned. *)
Lemma crawl_warning_of_lost_connection :
  exists text,
    FileMap.warnings (FileMap._crawl posix broken_client reset_options three_files)
      = [text] /\
    endsWith text
      ("  Error: Watchman error: connection lost. Make sure watchman " ++
       "is running for this project. See " ++ Watchman.watchmanURL ++ ".") = true.
Proof. eexists. split; [vm_compute; reflexivity|vm_compute; reflexivity]. Qed.

(** X22 with the backslash as separator. *)
Lemma normalizePathSep_idempotent_witness :
  normalizePathSep win32 (normalizePathSep win32 "src/lib/a.js")
    = normalizePathSep win32 "src/lib/a.js" /\
  no_slash (normalizePathSep win32 "src/lib/a.js") = true.
Proof.
  destruct (normalizePathSep_idempotent win32 "src/lib/a.js" (or_intror eq_refl))
    as (Htwice & Hclean & _).
  split; [exact Htwice|]. apply Hclean. discriminate.
Defined.

(** * Further properties of the worker *)

Section MoreWorker.

Import Worker.

Variable path : PathModule.
Variable env : WorkerEnv.

Lemma loadHasteImpl_loaded st data impl :
  hasteImpl st = Some impl -> fst (loadHasteImpl env st data) = st.
Proof.
  intros Himpl. unfold loadHasteImpl. rewrite Himpl.
  by destruct (_ && _).
Qed.

Lemma worker_body_state st data :
  fst (worker_body path env st data) = fst (loadHasteImpl env st data).
Proof.
  unfold worker_body. destruct (loadHasteImpl env st data) as [st1 [[]|e]]; simpl; [|done].
  destruct (endsWith _ _); [done|]. by destruct (negb _).
Qed.

Lemma worker_state st data :
  fst (worker path env st data) = fst (worker_body path env st data).
Proof. unfold worker. by destruct (worker_body path env st data) as [st1 [l|e]]. Qed.

(** X23: once a haste implementation is loaded, no call of the worker
    changes the module state, and a message that names another (truthy)
    implementation path is answered with the error [hasteImplModulePath
    changed]. *)
Theorem worker_keeps_loaded_hasteImpl (st : ModuleState) (data : WorkerMessage)
    (impl : HasteImpl) :
  hasteImpl st = Some impl ->
  fst (worker path env st data) = st /\
  (truthy_opt (hasteImplModulePath data) = true ->
   hasteImplModulePath data <> loadedHasteImplModulePath st ->
   exists stack,
     snd (worker path env st data) =
       Throw (new_Error "jest-haste-map: hasteImplModulePath changed" stack)).
Proof.
  intros Himpl. split.
  - rewrite worker_state, worker_body_state. by apply (loadHasteImpl_loaded st data impl).
  - intros Htruthy Hother. unfold worker, worker_body, loadHasteImpl.
    rewrite Htruthy, Himpl. rewrite bool_decide_eq_false_2 by done. simpl. eauto.
Qed.

(** X24: when loading the haste implementation throws, the worker throws
    that error but has already stored the path: the next call with the same
    message loads nothing, whatever [require] would answer then, and goes on
    without an implementation. *)
Theorem worker_failed_require_not_retried (st : ModuleState) (data : WorkerMessage)
    (modulePath : string) (e : JsError) :
  hasteImpl st = None ->
  hasteImplModulePath data = Some modulePath ->
  truthy modulePath = true ->
  loadedHasteImplModulePath st <> Some modulePath ->
  require_hasteImpl env modulePath = Throw e ->
  let st1 := {| hasteImpl := None; loadedHasteImplModulePath := Some modulePath |} in
  worker path env st data = (st1, Throw e) /\
  forall env' : WorkerEnv, loadHasteImpl env' st1 data = (st1, Ok tt).
Proof.
  intros Hnone Hpath Htruthy Hother Hrequire st1. split.
  - unfold worker, worker_body, loadHasteImpl. rewrite Hpath, Hnone. simpl.
    rewrite Htruthy. rewrite bool_decide_eq_false_2 by congruence. simpl.
    by rewrite Hrequire.
  - intros env'. unfold loadHasteImpl. rewrite Hpath. simpl.
    rewrite bool_decide_eq_true_2 by done. by rewrite andb_false_r.
Qed.

Lemma getContent_fields data l text l' :
  getContent env data l = Ok (text, l') ->
  dependencies l' = dependencies l /\ id l' = id l /\ module l' = module l /\
  sha1 l' = sha1 l.
Proof.
  unfold getContent. destruct (content l) as [c|].
  - by intros [= _ <-].
  - destruct (readFileSync env (filePath data)); simpl; [|done]. by intros [= _ <-].
Qed.

Lemma processPackageJson_fields data l l' :
  processPackageJson path env data l = Ok l' ->
  sha1 l' = sha1 l /\ dependencies l' = dependencies l /\
  (module l' = module l \/
   module l' = Some (relative path (rootDir data) (filePath data), H.PACKAGE)).
Proof.
  unfold processPackageJson.
  destruct (getContent env data l) as [[text l1]|e] eqn:Hc; simpl; [|done].
  apply getContent_fields in Hc as (Hd & _ & Hm & Hs).
  destruct (JSON_parse env text) as [fileData|e]; simpl; [|done].
  destruct (get_name fileData) as [name|e]; simpl; [|done].
  destruct (js_truthy_opt name); intros [= <-]; simpl; rewrite ?Hd, ?Hm, ?Hs; auto.
Qed.

Lemma processModule_fields st data l l' :
  processModule path env st data l = Ok l' ->
  sha1 l' = sha1 l /\ module l' = module l /\
  (computeDependencies data = false -> content l' = content l /\ dependencies l' = dependencies l).
Proof.
  unfold processModule.
  set (l1 := match hasteImpl st with Some impl => _ | None => l end).
  assert (Hl1 : sha1 l1 = sha1 l /\ module l1 = module l /\ content l1 = content l /\
                dependencies l1 = dependencies l).
  { subst l1. by destruct (hasteImpl st). }
  destruct Hl1 as (Hs & Hm & Hc & Hd).
  destruct (computeDependencies data).
  - destruct (getContent env data l1) as [[text l2]|e] eqn:Hg; simpl; [|done].
    apply getContent_fields in Hg as (_ & _ & Hm2 & Hs2).
    destruct (if truthy_opt (dependencyExtractor data) then _ else _) as [x|e]; simpl; [|done].
    intros [= <-]; simpl. rewrite Hm2, Hs2. by repeat split.
  - intros [= <-]. by repeat split.
Qed.

(** X25: a worker call that completes never fills [sha1], whatever
    [computeSha1] says; it fills [module] for a [package.json] only, with
    the relative path and the package kind; and for any other file it
    neither reads the content nor extracts dependencies unless
    [computeDependencies] is set. *)
Theorem worker_body_never_fills (st st1 : ModuleState) (data : WorkerMessage)
    (locals : Locals) :
  worker_body path env st data = (st1, Ok locals) ->
  sha1 locals = None /\
  (forall m, module locals = Some m ->
     endsWith (filePath data) (HasteMap.PACKAGE_JSON path) = true /\
     m = (relative path (rootDir data) (filePath data), H.PACKAGE)) /\
  (endsWith (filePath data) (HasteMap.PACKAGE_JSON path) = false ->
   computeDependencies data = false ->
   content locals = None /\ dependencies locals = None).
Proof.
  unfold worker_body. destruct (loadHasteImpl env st data) as [st' [[]|e]]; [|done].
  destruct (endsWith _ _) eqn:Hends.
  - intros [= <- Hp]. apply processPackageJson_fields in Hp as (Hs & _ & Hm).
    split; [done|]. split; [|done].
    intros m Hmod. split; [done|]. destruct Hm as [Hm|Hm]; rewrite Hm in Hmod; [done|].
    congruence.
  - destruct (negb _).
    + intros [= <- Hp]. apply processModule_fields in Hp as (Hs & Hm & Hcd).
      split; [done|]. split.
      * intros m Hmod. by rewrite Hm in Hmod.
      * intros _ Hno. by apply Hcd.
    + intros [= <- <-]. by repeat split.
Qed.

Lemma from_last_dot_suffix p e :
  from_last_dot p = Some e -> exists prefix, p = prefix ++ e.
Proof.
  revert e. induction p as [|c p IH]; intros e; simpl; [done|].
  destruct (from_last_dot p) as [e'|].
  - intros [= <-]. destruct (IH e' eq_refl) as [prefix ->]. by exists (String c prefix).
  - destruct (Ascii.eqb c "."); [|done]. intros [= <-]. by exists "".
Qed.

Lemma from_last_dot_extension prefix body :
  from_last_dot body = None ->
  from_last_dot (prefix ++ String "." body) = Some (String "." body).
Proof.
  intros Hbody. induction prefix as [|c prefix IH]; simpl.
  - by rewrite Hbody.
  - by rewrite IH.
Qed.

Lemma length_substring_le n m s : (String.length (substring n m s) <= m)%nat.
Proof.
  revert n m. induction s as [|c s IH]; intros n m.
  - destruct n, m; simpl; lia.
  - destruct n as [|n]; simpl.
    + destruct m as [|m]; simpl; [lia|]. specialize (IH 0 m). lia.
    + apply IH.
Qed.

Lemma blacklists_are_extensions ext :
  ext ∈ blacklists -> exists body, ext = String "." body /\ from_last_dot body = None /\
                                   (2 <= String.length ext)%nat.
Proof.
  intros Hin.
  assert (Hall : forallb is_extension blacklists = true) by reflexivity.
  rewrite forallb_forall in Hall. apply list_elem_of_In, Hall in Hin.
  destruct ext as [|c body]; [done|]. unfold is_extension in Hin.
  apply andb_true_iff in Hin as [[Hc Hb]%andb_true_iff Hlen].
  apply Ascii.eqb_eq in Hc as ->. apply bool_decide_eq_true in Hb.
  apply Nat.leb_le in Hlen. eauto.
Qed.

(** X26: the extension test of the worker succeeds exactly for the paths
    that end with one of the blacklisted extensions. *)
Theorem worker_blacklist_test (filePath : string) :
  existsb (String.eqb (slice_lastIndexOf_dot filePath)) blacklists = true <->
  exists prefix ext, ext ∈ blacklists /\ filePath = prefix ++ ext.
Proof.
  rewrite existsb_exists. split.
  - intros (ext & Hin & Heq). apply String.eqb_eq in Heq. apply list_elem_of_In in Hin.
    unfold slice_lastIndexOf_dot in Heq.
    destruct (from_last_dot filePath) as [e|] eqn:Hdot.
    + subst e. destruct (from_last_dot_suffix filePath _ Hdot) as [prefix ->]. eauto.
    + destruct (blacklists_are_extensions ext Hin) as (body & _ & _ & Hlen).
      pose proof (length_substring_le (String.length filePath - 1) 1 filePath).
      rewrite Heq in *. lia.
  - intros (prefix & ext & Hin & ->).
    destruct (blacklists_are_extensions ext Hin) as (body & -> & Hbody & _).
    exists (String "." body). split; [by apply list_elem_of_In|].
    apply String.eqb_eq. unfold slice_lastIndexOf_dot.
    by rewrite from_last_dot_extension.
Qed.

End MoreWorker.

(** X23 where /r/haste.js is loaded and /r/other.js is asked for. *)
Lemma worker_keeps_loaded_hasteImpl_witness :
  fst (Worker.worker posix (package_env named_pkg_text (Ok Worker.JNull))
         loaded_module (haste_message "/r/other.js")) = loaded_module /\
  exists stack,
    snd (Worker.worker posix (package_env named_pkg_text (Ok Worker.JNull))
           loaded_module (haste_message "/r/other.js"))
    = Throw (new_Error "jest-haste-map: hasteImplModulePath changed" stack).
Proof.
  destruct (worker_keeps_loaded_hasteImpl posix
              (package_env named_pkg_text (Ok Worker.JNull)) loaded_module
              (haste_message "/r/other.js") {| Worker.getHasteName := fun _ => None |}
              eq_refl) as [Hstate Hthrown].
  split; [exact Hstate|]. apply Hthrown; [reflexivity|discriminate].
Defined.

(** X24 where /r/haste.js cannot be loaded. *)
Lemma worker_failed_require_not_retried_witness :
  exists e,
    snd (Worker.worker posix (package_env named_pkg_text (Ok Worker.JNull))
           fresh_module (haste_message "/r/haste.js")) = Throw e /\
    Worker.loadHasteImpl (package_env named_pkg_text (Ok Worker.JNull))
      (fst (Worker.worker posix (package_env named_pkg_text (Ok Worker.JNull))
              fresh_module (haste_message "/r/haste.js")))
      (haste_message "/r/haste.js")
    = ({| Worker.hasteImpl := None;
          Worker.loadedHasteImplModulePath := Some "/r/haste.js" |}, Ok tt).
Proof.
  eexists.
  destruct (worker_failed_require_not_retried posix
              (package_env named_pkg_text (Ok Worker.JNull)) fresh_module
              (haste_message "/r/haste.js") "/r/haste.js" _
              eq_refl eq_refl eq_refl ltac:(discriminate) eq_refl) as [Hfirst Hnext].
  rewrite Hfirst. split; [reflexivity|]. apply Hnext.
Defined.

(** X25 on the package.json named pkg. *)
Lemma worker_body_never_fills_witness :
  exists locals,
    Worker.worker_body posix
      (package_env named_pkg_text (Ok (Worker.JObject [("name", Worker.JString "pkg")])))
      fresh_module package_message = (fresh_module, Ok locals) /\
    Worker.id locals = Some (Worker.JString "pkg") /\
    Worker.sha1 locals = None.
Proof.
  eexists. split; [reflexivity|]. split; [reflexivity|].
  exact (proj1 (worker_body_never_fills posix
                  (package_env named_pkg_text
                     (Ok (Worker.JObject [("name", Worker.JString "pkg")])))
                  fresh_module fresh_module package_message _ eq_refl)).
Defined.
